(** * envsync: the safe synchronisation engine, embedded in Rocq

    A shallow embedding of the Python package [envsync]
    (core/safe_sync.py, core/sync.py, core/diff.py, core/scanner.py,
    core/rsync_config.py, core/config.py, utils/git.py, utils/ssh.py,
    utils/envs.py, utils/crypto.py) together
    with the properties of its specification that concern the checkpoint
    manager, the sync orchestrator, the drift-diff engine, the structure
    scanner and the secret manager.

    Layout: the first half of the file holds the model (strings, the
    world the program runs in, then one module per Python class); the
    second half holds the lemmas and theorems. *)

From stdpp Require Import gmap strings list sorting.
From Stdlib Require Import String Ascii ZArith Lia DecimalString OrderedTypeEx Sorted Permutation.

Local Open Scope string_scope.
Local Open Scope list_scope.

(** ** Python strings

    A Python [str] is modelled by the string of its UTF-8 bytes, a
    surrogate code point (which a [str] may hold and UTF-8 does not
    encode) by the three bytes a code point of its number would take.
    Prefix, suffix and substring tests are the same on code points and on
    these bytes; the operations that count characters ([len], slices)
    count the bytes that start a code point. *)
Module PyStr.

(** The line feed, [chr(10)]. *)
Definition newline : string := String (ascii_of_nat 10) EmptyString.

(** [str(n)] for a natural number. *)
Definition of_nat (n : nat) : string := NilZero.string_of_uint (Nat.to_uint n).

(** [c * n]: a character repeated. *)
Fixpoint repeat_char (c : ascii) (n : nat) : string :=
  match n with
  | O => EmptyString
  | S n' => String c (repeat_char c n')
  end.

(** [s.startswith(p)] *)
Definition startswith (s p : string) : bool := String.prefix p s.

(** [s.endswith(p)] *)
Definition endswith (s p : string) : bool :=
  String.prefix (String.rev p) (String.rev s).

(** [sub in s] *)
Fixpoint contains (sub s : string) : bool :=
  String.prefix sub s ||
  match s with
  | EmptyString => false
  | String _ s' => contains sub s'
  end.

(** [s.rstrip(c)] for a one-character argument *)
Fixpoint rstrip (c : ascii) (s : string) : string :=
  match s with
  | EmptyString => EmptyString
  | String a s' =>
      match rstrip c s' with
      | EmptyString => if Ascii.eqb a c then EmptyString else String a EmptyString
      | r => String a r
      end
  end.

(** [s.lstrip(c)] for a one-character argument *)
Fixpoint lstrip (c : ascii) (s : string) : string :=
  match s with
  | EmptyString => EmptyString
  | String a s' => if Ascii.eqb a c then lstrip c s' else s
  end.

(** [sep.join(l)] *)
Definition join (sep : string) (l : list string) : string := String.concat sep l.

(** A byte that continues a UTF-8 sequence (10xxxxxx). *)
Definition continuation (c : ascii) : bool :=
  let n := nat_of_ascii c in (128 <=? n)%nat && (n <? 192)%nat.

(** [len(s)]: the number of code points. *)
Fixpoint len (s : string) : nat :=
  match s with
  | EmptyString => 0
  | String c s' => if continuation c then len s' else S (len s')
  end.

(** The continuation bytes at the head of [s], and what follows them. *)
Fixpoint span_continuation (s : string) : string * string :=
  match s with
  | String c s' =>
      if continuation c
      then let '(a, b) := span_continuation s' in (String c a, b)
      else (EmptyString, s)
  | EmptyString => (EmptyString, EmptyString)
  end.

(** [s[:n]]: the first [n] code points. *)
Fixpoint take (n : nat) (s : string) : string :=
  match s with
  | EmptyString => EmptyString
  | String c s' =>
      if continuation c then String c (take n s')
      else match n with
           | O => EmptyString
           | S n' => String c (take n' s')
           end
  end.

(** [s[n:]]: what is left after the first [n] code points. *)
Fixpoint drop (n : nat) (s : string) : string :=
  match n with
  | O => s
  | S n' =>
      match s with
      | EmptyString => EmptyString
      | String c s' => drop n' (snd (span_continuation s'))
      end
  end.

(** [s[-n:]] for [n > 0]: the last [n] code points. *)
Definition take_last (n : nat) (s : string) : string := drop (len s - n) s.

(** Characters for which [str.isspace] holds, recognised at the head of a
    UTF-8 string: the result is what follows the character. *)
Definition skip_space (s : string) : option string :=
  match s with
  | String c s1 =>
      let n := nat_of_ascii c in
      if ((9 <=? n)%nat && (n <=? 13)%nat) || ((28 <=? n)%nat && (n <=? 32)%nat)
      then Some s1
      else match n, s1 with
           | 194, String d s2 =>                       (* U+0085, U+00A0 *)
               let m := nat_of_ascii d in
               if (m =? 133)%nat || (m =? 160)%nat then Some s2 else None
           | 225, String d (String e s3) =>            (* U+1680 *)
               if (nat_of_ascii d =? 154)%nat && (nat_of_ascii e =? 128)%nat
               then Some s3 else None
           | 226, String d (String e s3) =>            (* U+2000..200A, 2028, 2029, 202F, 205F *)
               let m := nat_of_ascii d in
               let k := nat_of_ascii e in
               if ((m =? 128)%nat &&
                   (((128 <=? k)%nat && (k <=? 138)%nat) || (k =? 168)%nat ||
                    (k =? 169)%nat || (k =? 175)%nat))
                  || ((m =? 129)%nat && (k =? 159)%nat)
               then Some s3 else None
           | 227, String d (String e s3) =>            (* U+3000 *)
               if (nat_of_ascii d =? 128)%nat && (nat_of_ascii e =? 128)%nat
               then Some s3 else None
           | _, _ => None
           end
  | EmptyString => None
  end.

(** [s.lstrip()]; the fuel bounds the number of characters removed. *)
Fixpoint lstrip_ws_fuel (fuel : nat) (s : string) : string :=
  match fuel with
  | O => s
  | S fuel' =>
      match skip_space s with
      | Some s' => lstrip_ws_fuel fuel' s'
      | None => s
      end
  end.

Definition lstrip_ws (s : string) : string := lstrip_ws_fuel (String.length s) s.

(** [not s.strip()]: the string holds white space only. *)
Definition blank (s : string) : bool :=
  match lstrip_ws s with
  | EmptyString => true
  | _ => false
  end.

(** [s.rstrip()] *)
Fixpoint rstrip_ws (s : string) : string :=
  match s with
  | EmptyString => EmptyString
  | String c s' => if blank s then EmptyString else String c (rstrip_ws s')
  end.

(** [s.strip()] *)
Definition strip_ws (s : string) : string := rstrip_ws (lstrip_ws s).

(** [s.splitlines()].  Line boundaries: \n, \r, \r\n, \v, \f, \x1c, \x1d,
    \x1e, U+0085, U+2028, U+2029.  [acc] holds the current line, reversed. *)
Fixpoint splitlines_go (acc : list ascii) (s : string) : list string :=
  let line := string_of_list_ascii (rev acc) in
  match s with
  | EmptyString => match acc with [] => [] | _ => [line] end
  | String c s1 =>
      let n := nat_of_ascii c in
      if (n =? 13)%nat then
        match s1 with
        | String d s2 =>
            if (nat_of_ascii d =? 10)%nat then line :: splitlines_go [] s2
            else line :: splitlines_go [] s1
        | EmptyString => [line]
        end
      else if (n =? 10)%nat || (n =? 11)%nat || (n =? 12)%nat ||
              (n =? 28)%nat || (n =? 29)%nat || (n =? 30)%nat
      then line :: splitlines_go [] s1
      else
        match s1 with
        | String d s2 =>
            if (n =? 194)%nat && (nat_of_ascii d =? 133)%nat
            then line :: splitlines_go [] s2
            else
              match s2 with
              | String e s3 =>
                  if (n =? 226)%nat && (nat_of_ascii d =? 128)%nat &&
                     ((nat_of_ascii e =? 168)%nat || (nat_of_ascii e =? 169)%nat)
                  then line :: splitlines_go [] s3
                  else splitlines_go (c :: acc) s1
              | EmptyString => splitlines_go (c :: acc) s1
              end
        | EmptyString => splitlines_go (c :: acc) s1
        end
  end.

Definition splitlines (s : string) : list string := splitlines_go [] s.

(** [s.partition(" ")]: the text before the first space, the separator
    found, the text after it; [(s, "", "")] when [s] has no space. *)
Fixpoint partition_space (s : string) : string * string * string :=
  match s with
  | EmptyString => (EmptyString, EmptyString, EmptyString)
  | String c s' =>
      if Ascii.eqb c " "%char then (EmptyString, " ", s')
      else let '(a, sep, b) := partition_space s' in (String c a, sep, b)
  end.

(** [s.replace(old, "")]: every occurrence of [old], from the left,
    is removed ([skip] counts the bytes of an occurrence still to drop). *)
Fixpoint remove_go (old : string) (skip : nat) (s : string) : string :=
  match s with
  | EmptyString => EmptyString
  | String c s' =>
      match skip with
      | S k => remove_go old k s'
      | O => if String.prefix old s
             then remove_go old (String.length old - 1) s'
             else String c (remove_go old 0 s')
      end
  end.

Definition remove_all (old s : string) : string :=
  match old with
  | EmptyString => s
  | _ => remove_go old 0 s
  end.

(** [s.split(c)] on a one-character separator. *)
Fixpoint split_on (c : ascii) (s : string) : list string :=
  match s with
  | EmptyString => [EmptyString]
  | String a s' =>
      match split_on c s' with
      | hd :: tl => if Ascii.eqb a c then EmptyString :: hd :: tl else String a hd :: tl
      | [] => [String a EmptyString]
      end
  end.

(** [Path(s).name]: the last component of a POSIX path, empty and [.]
    components being dropped as pathlib does. *)
Definition path_name (s : string) : string :=
  List.last (List.filter (fun c => negb (String.eqb c "" || String.eqb c "."))
                         (split_on "/"%char s)) "".

(** [s.split()]: the maximal runs of characters that are not white space. *)
Fixpoint split_ws_go (fuel : nat) (acc : list ascii) (s : string) : list string :=
  let flush := match acc with [] => [] | _ => [string_of_list_ascii (rev acc)] end in
  match fuel with
  | O => flush
  | S fuel' =>
      match skip_space s with
      | Some s' => flush ++ split_ws_go fuel' [] s'
      | None =>
          match s with
          | EmptyString => flush
          | String c s' => split_ws_go fuel' (c :: acc) s'
          end
      end
  end.

Definition split_ws (s : string) : list string := split_ws_go (S (String.length s)) [] s.

(** [int(s)] on a token without white space: an optional sign, then
    decimal digits, with single underscores between digits ([None] stands
    for ValueError).  The digits are the ASCII ones, which git prints; a
    digit of another script is taken for no digit. *)
Fixpoint digits_value (acc : Z) (after_digit : bool) (s : string) : option Z :=
  match s with
  | EmptyString => if after_digit then Some acc else None
  | String c s' =>
      let n := nat_of_ascii c in
      if (48 <=? n)%nat && (n <=? 57)%nat
      then digits_value (10 * acc + Z.of_nat (n - 48)) true s'
      else if Ascii.eqb c "_" && after_digit
      then digits_value acc false s'
      else None
  end.

Definition int_of (s : string) : option Z :=
  match s with
  | String "-" s' => Z.opp <$> digits_value 0 false s'
  | String "+" s' => digits_value 0 false s'
  | _ => digits_value 0 false s
  end.

(** Shell-style wildcard matching of one path component: [*] and [?] do
    not match [/].  Bracket expressions are not modelled: a bracket is
    matched as it is written, so the model stands for the glob on the
    patterns that hold no bracket. *)
Fixpoint wildcard (pat : string) : string -> bool :=
  match pat with
  | EmptyString => fun s => match s with EmptyString => true | _ => false end
  | String p pat' =>
      if Ascii.eqb p "*"%char then
        fix star (s : string) : bool :=
          wildcard pat' s ||
          match s with
          | EmptyString => false
          | String c s' => negb (Ascii.eqb c "/"%char) && star s'
          end
      else if Ascii.eqb p "?"%char then
        fun s => match s with
                 | String c s' => negb (Ascii.eqb c "/"%char) && wildcard pat' s'
                 | EmptyString => false
                 end
      else
        fun s => match s with
                 | String c s' => Ascii.eqb p c && wildcard pat' s'
                 | EmptyString => false
                 end
  end.

(** [shlex.quote(s)]: a string of safe characters is left as it is, any
    other is wrapped in single quotes, each inner single quote being
    closed, escaped and reopened. *)
Definition shell_safe (c : ascii) : bool :=
  let n := nat_of_ascii c in
  ((48 <=? n)%nat && (n <=? 57)%nat) || ((65 <=? n)%nat && (n <=? 90)%nat) ||
  ((97 <=? n)%nat && (n <=? 122)%nat) ||
  existsb (Ascii.eqb c) (list_ascii_of_string "@%+=:,./-_").

Definition dquote : string := String (ascii_of_nat 34) EmptyString.

Fixpoint escape_single_quotes (s : string) : string :=
  match s with
  | EmptyString => EmptyString
  | String c s' =>
      if Ascii.eqb c "'"%char
      then "'" +:+ dquote +:+ "'" +:+ dquote +:+ "'" +:+ escape_single_quotes s'
      else String c (escape_single_quotes s')
  end.

Definition shlex_quote (s : string) : string :=
  match s with
  | EmptyString => "''"
  | _ => if forallb shell_safe (list_ascii_of_string s) then s
         else "'" +:+ escape_single_quotes s +:+ "'"
  end.

End PyStr.

(** ** Python exceptions

    Only subclasses of [Exception] are modelled; the class matters where
    the program has an [except RuntimeError] clause. *)
Inductive exn : Type :=
| RuntimeError (msg : string)
| ValueError (msg : string)
| TypeError (msg : string)
| AttributeError (msg : string)
| UnicodeEncodeError (msg : string)
| OtherError (msg : string).

(** [str(e)] *)
Definition str_exn (e : exn) : string :=
  match e with
  | RuntimeError m | ValueError m | TypeError m | AttributeError m
  | UnicodeEncodeError m | OtherError m => m
  end.

(** [isinstance(e, RuntimeError)] *)
Definition is_RuntimeError (e : exn) : bool :=
  match e with
  | RuntimeError _ => true
  | _ => false
  end.

(** ** The data model *)

(** core/config.py, [EnvEntry] (the [extras] dictionary plays no part here). *)
Module EnvEntry.
Record t : Type := Build {
  name : string;
  type : string;
  path : string;
  host : option string;
  user : option string;
}.
End EnvEntry.

(** [ConfigData.envs] *)
Abbreviation Config := (gmap string EnvEntry.t).

(** utils/ssh.py, [CommandResult] *)
Module CommandResult.
Record t : Type := Build {
  code : Z;
  stdout : string;
  stderr : string;
}.
End CommandResult.

(** [subprocess.run(..., capture_output=True, text=True)]: the completed process. *)
Module CompletedProcess.
Record t : Type := Build {
  returncode : Z;
  stdout : string;
  stderr : string;
}.
End CompletedProcess.

(** utils/git.py, [GitStatus] *)
Module GitStatus.
Record t : Type := Build {
  branch : string;
  head : string;
  upstream : option string;
  ahead : Z;
  behind : Z;
  dirty : bool;
  staged : nat;
  changed : nat;
  untracked : nat;
  short_status : list string;
}.
End GitStatus.

(** core/scanner.py, [ProjectComponent] *)
Module ProjectComponent.
Record t : Type := Build {
  path : string;
  type : string;
  marker_files : list string;
  code_dirs : list string;
  non_code_dirs : list string;
}.
End ProjectComponent.

(** core/scanner.py, [ProjectStructure] *)
Module ProjectStructure.
Record t : Type := Build {
  root_path : string;
  env_name : string;
  components : list ProjectComponent.t;
  all_code_dirs : gset string;
  all_non_code_dirs : gset string;
  scan_time : string;
}.
End ProjectStructure.

(** core/safe_sync.py, [SyncCheckpoint].  A dataclass does not check its
    annotations: a field read back from a metadata file holds whatever the
    JSON document held.  The model lets each of the four scalar fields be
    a string or [None]. *)
Module SyncCheckpoint.
Record t : Type := Build {
  timestamp : option string;
  env_name : option string;
  backup_path : option string;
  git_commit : option string;
  file_checksums : list (string * string);
}.
End SyncCheckpoint.

(** core/safe_sync.py, [SyncResult] *)
Module SyncResult.
Record t : Type := Build {
  success : bool;
  source : string;
  target : string;
  checkpoint : option SyncCheckpoint.t;
  files_synced : nat;
  files_deleted : nat;
  verified : bool;
  code_only : bool;
  components_synced : list string;
  error : option string;
}.
End SyncResult.

(** core/diff.py, [DiffReport] *)
Module DiffReport.
Record t : Type := Build {
  env1 : string;
  env2 : string;
  has_diff : bool;
  summary_lines : list string;
  output_path : option string;
}.
End DiffReport.

(** ** The world the program runs in *)

(** The files below one directory: relative path to content. *)
Abbreviation Tree := (gmap string string).

(** What reading a checkpoint metadata file with [json.loads] gives: a
    JSON object, described by the keys the dataclass knows and by the
    names of the other keys, or no object at all (the file cannot be read,
    is not JSON, or holds a JSON value that is not an object).  In an
    object the scalar keys hold a string or null (the inner [option]) and
    [file_checksums] holds an object of strings; other shapes of value are
    not represented. *)
Record MetaDoc : Type := {
  doc_timestamp : option (option string);
  doc_env_name : option (option string);
  doc_backup_path : option (option string);
  doc_git_commit : option (option string);
  doc_file_checksums : option (list (string * string));
  doc_other_keys : list string;
}.

Inductive MetaFile : Type :=
| NotAnObject
| Document (d : MetaDoc).

(** One entry per external command the program starts. *)
Inductive event : Type :=
| Spawned (args : list string)                               (* subprocess.run(args) *)
| Ran (host user : option string) (command : string).       (* SSHClientWrapper.run *)

Record World : Type := {
  (** the directories, by address: a local path, or user@host:path *)
  trees : gmap string Tree;
  (** the *.json files of the checkpoint directory, in the order in which
      the directory enumerates them *)
  checkpoint_files : list (string * MetaFile);
  (** the scan cache: environment name to the content of scan-<env>.json
      ([None]: the file does not parse) *)
  scan_files : gmap string (option ProjectStructure.t);
  (** the diff reports written: file name to lines *)
  report_files : gmap string (list string);
  (** the commands started so far, oldest first *)
  log : list event;
}.

Definition set_trees (f : gmap string Tree -> gmap string Tree) (w : World) : World :=
  {| trees := f (trees w); checkpoint_files := checkpoint_files w;
     scan_files := scan_files w; report_files := report_files w; log := log w |}.

Definition set_checkpoint_files
    (f : list (string * MetaFile) -> list (string * MetaFile)) (w : World) : World :=
  {| trees := trees w; checkpoint_files := f (checkpoint_files w);
     scan_files := scan_files w; report_files := report_files w; log := log w |}.

Definition set_scan_files
    (f : gmap string (option ProjectStructure.t) -> gmap string (option ProjectStructure.t))
    (w : World) : World :=
  {| trees := trees w; checkpoint_files := checkpoint_files w;
     scan_files := f (scan_files w); report_files := report_files w; log := log w |}.

Definition set_report_files
    (f : gmap string (list string) -> gmap string (list string)) (w : World) : World :=
  {| trees := trees w; checkpoint_files := checkpoint_files w;
     scan_files := scan_files w; report_files := f (report_files w); log := log w |}.

Definition record_event (ev : event) (w : World) : World :=
  {| trees := trees w; checkpoint_files := checkpoint_files w;
     scan_files := scan_files w; report_files := report_files w; log := log w ++ [ev] |}.

(** The address of a directory: its rsync specification without the
    trailing slashes. *)
Definition address (spec : string) : string := PyStr.rstrip "/" spec.

Definition tree_at (w : World) (spec : string) : Tree :=
  default ∅ (trees w !! address spec).

(** What a spawned rsync reports, and the paths it left as they were when
    it did not exit with 0. *)
Record ProcOutcome : Type := {
  po_returncode : Z;
  po_stdout : string;
  po_stderr : string;
  po_skipped : string -> bool;
}.

(** Everything the program cannot decide by itself.  Each answer may
    depend on the whole world, the log included, so that the environment
    may answer the same command differently at different times. *)
Class Oracle : Type := {
  (** a spawned rsync: an exception of [subprocess.run], or its outcome *)
  spawn_outcome : World -> list string -> exn + ProcOutcome;
  (** the paths below a source that its .gitignore files rule out *)
  gitignored : World -> string -> string -> bool;
  (** a shell command on a host: an exception of the client, or its result *)
  shell_outcome : World -> option string -> option string -> string -> exn + CommandResult.t;
  (** the working tree after [git reset --hard ref] *)
  reset_hard_tree : World -> EnvEntry.t -> string -> Tree -> Tree;
  (** [time.strftime(format)] *)
  strftime : World -> string -> string;
  (** the scan cache file of an environment is less than an hour old *)
  cache_fresh : World -> string -> bool;
  (** the file at a path has the same modification time below a source
      and below a destination *)
  same_mtime : World -> string -> string -> string -> bool;
}.

(** ** Computations: state and exceptions *)

Definition St (S A : Type) : Type := S -> (exn + A) * S.

(** The computations of the synchronisation engine run on the world. *)
Abbreviation M := (St World).

#[global] Instance St_ret {S : Type} : MRet (St S) := fun A (x : A) w => (inr x, w).

#[global] Instance St_bind {S : Type} : MBind (St S) := fun A B (f : A -> St S B) (m : St S A) w =>
  match m w with
  | (inl e, w') => (inl e, w')
  | (inr x, w') => f x w'
  end.

#[global] Instance St_fmap {S : Type} : FMap (St S) := fun A B (f : A -> B) (m : St S A) w =>
  match m w with
  | (inl e, w') => (inl e, w')
  | (inr x, w') => (inr (f x), w')
  end.

(** [raise e] *)
Definition raise {S A : Type} (e : exn) : St S A := fun w => (inl e, w).

(** [try: body  except Exception as e: handler(e)] *)
Definition try_except {S A : Type} (body : St S A) (handler : exn -> St S A) : St S A :=
  fun w =>
    match body w with
    | (inl e, w') => handler e w'
    | (inr x, w') => (inr x, w')
    end.

(** A loop [for x in l: body(x)] over a state [s] the body updates. *)
Fixpoint for_each {A T : Type} (l : list A) (body : A -> T -> M T) (s : T) : M T :=
  match l with
  | [] => mret s
  | x :: l' => s' ← body x s; for_each l' body s'
  end.

(** *** The bulk transfer tool

    The program starts rsync with [subprocess.run].  Of a command line the
    model reads the flags the program uses. *)
Module Rsync.

Record request : Type := {
  dry_run : bool;
  checksum : bool;
  delete : bool;
  gitignore_filter : bool;
  excludes : list string;
  src : string;
  dst : string;
}.

(** The pattern of an [--exclude=PATTERN] argument. *)
Definition exclude_pattern (arg : string) : option string :=
  if PyStr.startswith arg "--exclude="
  then Some (PyStr.drop 10 arg) else None.

(** A cluster of short options ([-az], [-anz]) holding [n]. *)
Definition short_n (arg : string) : bool :=
  PyStr.startswith arg "-" && negb (PyStr.startswith arg "--") && PyStr.contains "n" arg.

Definition parse (args : list string) : option request :=
  match args with
  | prog :: rest =>
      if String.eqb prog "rsync" then
        match rev rest with
        | d :: s :: opts =>
            Some {| dry_run := existsb short_n opts;
                    checksum := existsb (String.eqb "--checksum") opts;
                    delete := existsb (String.eqb "--delete") opts;
                    gitignore_filter := existsb (String.eqb "--filter=:- .gitignore") opts;
                    excludes := omap exclude_pattern (rev opts);
                    src := s;
                    dst := d |}
        | _ => None
        end
      else None
  | [] => None
  end.

(** The directories on the way to a path, the path itself last:
    [a/b/c] gives [a], [a/b], [a/b/c]. *)
Fixpoint prefixes_from (done : string) (comps : list string) : list string :=
  match comps with
  | [] => []
  | c :: rest =>
      let here := match done with EmptyString => c | _ => done +:+ "/" +:+ c end in
      here :: prefixes_from here rest
  end.

(** A pattern without a slash is matched against the last component of a
    name, a pattern with a slash against the trailing components of the
    name; a name is ruled out as soon as one of the directories above it
    is. *)
Fixpoint suffixes (comps : list string) : list string :=
  match comps with
  | [] => []
  | c :: rest => PyStr.join "/" comps :: suffixes rest
  end.

Definition name_matches (pat name : string) : bool :=
  if PyStr.contains "/" pat
  then existsb (PyStr.wildcard (PyStr.lstrip "/" pat)) (suffixes (PyStr.split_on "/" name))
  else PyStr.wildcard pat (PyStr.path_name name).

Definition excluded (pats : list string) (path : string) : bool :=
  existsb (fun name => existsb (fun pat => name_matches pat name) pats)
          (prefixes_from "" (PyStr.split_on "/" path)).

(** The destination after the run: a path the run leaves alone keeps what
    the destination had; any other path gets what the source has, and
    without [--delete] keeps what the destination had when the source has
    nothing. *)
Definition mirror (leave : string -> bool) (del : bool) (s d : Tree) : Tree :=
  filter (fun kv => leave kv.1 = false) s ∪
  filter (fun kv => leave kv.1 = true \/ del = false) d.

End Rsync.

Section Effects.
Context `{Oracle}.

(** Both directories have the file, with the same size and the same
    modification time. *)
Definition same_size_and_time (w : World) (src dst : string) (p : string) : bool :=
  match tree_at w src !! p, tree_at w dst !! p with
  | Some a, Some b => (String.length a =? String.length b)%nat && same_mtime w src dst p
  | _, _ => false
  end.

(** The quick check: without [--checksum] a file that the destination
    has with the size and the modification time it has in the source is
    taken for unchanged and is not transferred, whatever it holds.  (With
    [--checksum] the files passed over hold the same bytes on both sides.) *)
Definition quick_check_skips (w : World) (rq : Rsync.request) (p : string) : bool :=
  negb (Rsync.checksum rq) && same_size_and_time w (Rsync.src rq) (Rsync.dst rq) p.

(** The paths a run leaves alone. *)
Definition rsync_leaves (w : World) (rq : Rsync.request) (out : ProcOutcome) (p : string) : bool :=
  Rsync.excluded (Rsync.excludes rq) p
  || (Rsync.gitignore_filter rq && gitignored w (Rsync.src rq) p)
  || (negb (po_returncode out =? 0)%Z && po_skipped out p)
  || quick_check_skips w rq p.

Definition rsync_effect (args : list string) (out : ProcOutcome) (w : World) : World :=
  match Rsync.parse args with
  | Some rq =>
      if Rsync.dry_run rq then w
      else set_trees
             (insert (address (Rsync.dst rq))
                     (Rsync.mirror (rsync_leaves w rq out) (Rsync.delete rq)
                                   (tree_at w (Rsync.src rq)) (tree_at w (Rsync.dst rq))))
             w
  | None => w
  end.

(** [subprocess.run(args, capture_output=True, text=True)] *)
Definition subprocess_run (args : list string) : M CompletedProcess.t := fun w =>
  match spawn_outcome w args with
  | inl e => (inl e, record_event (Spawned args) w)
  | inr out =>
      (inr (CompletedProcess.Build (po_returncode out) (po_stdout out) (po_stderr out)),
       record_event (Spawned args) (rsync_effect args out w))
  end.

(** A command handed to the shell of a host. *)
Definition shell (host user : option string) (command : string) : M CommandResult.t := fun w =>
  (shell_outcome w host user command, record_event (Ran host user command) w).

(** The change [git reset --hard ref] makes to the files of an environment. *)
Definition working_tree_reset (entry : EnvEntry.t) (spec ref : string) : M unit := fun w =>
  (inr tt, set_trees (insert (address spec) (reset_hard_tree w entry ref (tree_at w spec))) w).

(** [time.strftime(format)] *)
Definition time_strftime (format : string) : M string := fun w => (inr (strftime w format), w).

(** [backup_dir.mkdir(parents=True, exist_ok=True)] *)
Definition mkdir (dir : string) : M unit := fun w =>
  (inr tt,
   match trees w !! address dir with
   | Some _ => w
   | None => set_trees (insert (address dir) ∅) w
   end).

(** [Path(p).exists()] for a directory. *)
Definition dir_exists (dir : string) : M bool := fun w =>
  (inr (bool_decide (is_Some (trees w !! address dir))), w).

(** [shutil.rmtree(p)] *)
Definition rmtree (dir : string) : M unit := fun w =>
  (inr tt, set_trees (delete (address dir)) w).

(** The metadata files whose name matches a glob pattern, with what
    [json.loads(f.read_text())] gives for each. *)
Definition glob_checkpoint_files (pattern : string) : M (list (string * MetaFile)) := fun w =>
  (inr (List.filter (fun f => PyStr.wildcard pattern f.1) (checkpoint_files w)), w).

(** [meta_file.exists()] *)
Definition meta_exists (name : string) : M bool := fun w =>
  (inr (existsb (fun f => String.eqb f.1 name) (checkpoint_files w)), w).

(** [meta_file.unlink()] *)
Definition meta_unlink (name : string) : M unit := fun w =>
  (inr tt,
   set_checkpoint_files (List.filter (fun f => negb (String.eqb f.1 name))) w).

(** [meta_file.write_text(json.dumps(doc))]: an existing file is
    overwritten where it is, a new file comes last. *)
Fixpoint put_file (name : string) (c : MetaFile) (l : list (string * MetaFile))
  : list (string * MetaFile) :=
  match l with
  | [] => [(name, c)]
  | f :: l' => if String.eqb f.1 name then (name, c) :: l' else f :: put_file name c l'
  end.

Definition meta_write (name : string) (d : MetaDoc) : M unit := fun w =>
  (inr tt, set_checkpoint_files (put_file name (Document d)) w).

End Effects.

(** ** core/rsync_config.py *)
Module RsyncConfig.

Definition RSYNC_EXCLUDES : list string :=
  [ "--exclude=.git";
    "--exclude=.envsync";
    "--exclude=node_modules";
    "--exclude=__pycache__";
    "--exclude=*.pyc";
    "--exclude=*.pyo";
    "--exclude=.DS_Store";
    "--exclude=*.swp";
    "--exclude=.venv";
    "--exclude=venv" ].

Definition RSYNC_GITIGNORE_FILTER : string := "--filter=:- .gitignore".

Definition build_rsync_args (dry_run checksum delete progress itemize : bool) : list string :=
  let args := ["rsync"] in
  let base_flags := "-a" in
  let base_flags := if dry_run then base_flags +:+ "n" else base_flags in
  let base_flags := base_flags +:+ "z" in
  let args := args ++ [base_flags] in
  let args := if checksum then args ++ ["--checksum"] else args in
  let args := if delete then args ++ ["--delete"] else args in
  let args := if progress then args ++ ["--info=stats2,progress2"] else args in
  let args := if itemize then args ++ ["--itemize-changes"] else args in
  let args := args ++ RSYNC_EXCLUDES in
  args ++ [RSYNC_GITIGNORE_FILTER].

(** The patterns of the shared exclude list, and the paths they rule out. *)
Definition standard_patterns : list string := omap Rsync.exclude_pattern RSYNC_EXCLUDES.

Definition standard_deny (path : string) : bool := Rsync.excluded standard_patterns path.

End RsyncConfig.

(** ** utils/envs.py *)
Module EnvContext.

Record t : Type := Build {
  name : string;
  entry : EnvEntry.t;
}.

(** [host not in (None, "", "localhost", "127.0.0.1")] *)
Definition remote_host (h : option string) : bool :=
  match h with
  | None => false
  | Some s => negb (String.eqb s "" || String.eqb s "localhost" || String.eqb s "127.0.0.1")
  end.

Definition is_remote (self : t) : bool := remote_host (EnvEntry.host (entry self)).

(** [f"{self.entry.user}@" if self.entry.user else ""] *)
Definition user_prefix (self : t) : string :=
  match EnvEntry.user (entry self) with
  | Some u => if String.eqb u "" then "" else u +:+ "@"
  | None => ""
  end.

(** [f"{...}{self.entry.host}:..."]: a remote host is a string. *)
Definition host_text (self : t) : string := default "None" (EnvEntry.host (entry self)).

Definition display (self : t) : string :=
  if is_remote self
  then user_prefix self +:+ host_text self +:+ ":" +:+ EnvEntry.path (entry self)
  else EnvEntry.path (entry self).

Definition rsync_spec (self : t) : string :=
  let path := PyStr.rstrip "/" (EnvEntry.path (entry self)) +:+ "/" in
  if is_remote self
  then user_prefix self +:+ host_text self +:+ ":" +:+ path
  else path.

End EnvContext.

(** ** utils/ssh.py *)
Module SSHClientWrapper.
Section WithOracle.
Context `{Oracle}.

(** [CommandResult.check_ok(context)] *)
Definition check_ok (self : CommandResult.t) (context : string) : M CommandResult.t :=
  if negb (CommandResult.code self =? 0)%Z then
    let where_ := if String.eqb context "" then "" else " (" +:+ context +:+ ")" in
    let detail := match PyStr.strip_ws (CommandResult.stderr self) with
                  | EmptyString => CommandResult.stdout self
                  | s => s
                  end in
    raise (RuntimeError ("命令执行失败" +:+ where_ +:+ ": " +:+ detail))
  else mret self.

(** [SSHClientWrapper.run(command, cwd)].  The local and the remote branch
    hand the same text to a shell, local or reached over SSH; what the
    shell answers, or the exception of the connection, is the oracle's. *)
Definition run (host user : option string) (command : string) (cwd : option string)
  : M CommandResult.t :=
  let full_cmd :=
    match cwd with
    | Some d => if String.eqb d "" then command
                else "cd " +:+ PyStr.shlex_quote d +:+ " && " +:+ command
    | None => command
    end in
  shell host user full_cmd.

(** [ctx.client.run(command, cwd)] *)
Definition client_run (ctx : EnvContext.t) (command : string) (cwd : option string)
  : M CommandResult.t :=
  run (EnvEntry.host (EnvContext.entry ctx)) (EnvEntry.user (EnvContext.entry ctx)) command cwd.

End WithOracle.
End SSHClientWrapper.

(** ** utils/git.py *)
Module GitRepo.
Section WithOracle.
Context `{Oracle}.

Definition path (ctx : EnvContext.t) : string := EnvEntry.path (EnvContext.entry ctx).

Definition _git (ctx : EnvContext.t) (args : string) : M CommandResult.t :=
  let cmd := "git -C " +:+ PyStr.shlex_quote (path ctx) +:+ " " +:+ args in
  SSHClientWrapper.client_run ctx cmd None.

Definition ensure_repo (ctx : EnvContext.t) : M unit :=
  res ← _git ctx "rev-parse --is-inside-work-tree";
  if negb (CommandResult.code res =? 0)%Z || negb (PyStr.contains "true" (CommandResult.stdout res))
  then raise (RuntimeError (EnvContext.name ctx +:+ ": 路径不是 git 仓库: " +:+ path ctx))
  else mret tt.

Definition current_branch (ctx : EnvContext.t) : M string :=
  res ← _git ctx "rev-parse --abbrev-ref HEAD";
  _ ← SSHClientWrapper.check_ok res (EnvContext.name ctx +:+ " 获取分支");
  mret (PyStr.strip_ws (CommandResult.stdout res)).

Definition head_commit (ctx : EnvContext.t) : M string :=
  res ← _git ctx "rev-parse HEAD";
  _ ← SSHClientWrapper.check_ok res (EnvContext.name ctx +:+ " 获取 HEAD");
  mret (PyStr.strip_ws (CommandResult.stdout res)).

Definition upstream (ctx : EnvContext.t) : M (option string) :=
  res ← _git ctx "rev-parse --abbrev-ref --symbolic-full-name @{u}";
  if negb (CommandResult.code res =? 0)%Z then mret None
  else mret (Some (PyStr.strip_ws (CommandResult.stdout res))).

(** [left, right = res.stdout.strip().split()] then [int(left), int(right)]:
    ValueError unless there are two tokens, both numbers. *)
Definition ahead_behind (ctx : EnvContext.t) : M (Z * Z) :=
  up ← upstream ctx;
  match up with
  | None | Some EmptyString => mret (0, 0)%Z
  | Some _ =>
      res ← _git ctx "rev-list --left-right --count HEAD...@{u}";
      if negb (CommandResult.code res =? 0)%Z then mret (0, 0)%Z
      else
        match PyStr.split_ws (PyStr.strip_ws (CommandResult.stdout res)) with
        | [left_; right_] =>
            match PyStr.int_of left_, PyStr.int_of right_ with
            | Some l, Some r => mret (l, r)
            | _, _ => raise (ValueError "invalid literal for int() with base 10")
            end
        | _ => raise (ValueError "not enough values to unpack (expected 2)")
        end
  end.

(** [ln[0] != " " and ln[0] != "?"] on a line that is not empty. *)
Definition is_staged (ln : string) : bool :=
  match ln with
  | String c _ => negb (Ascii.eqb c " "%char) && negb (Ascii.eqb c "?"%char)
  | EmptyString => false
  end.

(** [ln[0] == " " and ln[1] != "?"]: IndexError ([None]) on the line [" "]. *)
Definition is_changed (ln : string) : option bool :=
  match ln with
  | String c rest =>
      if Ascii.eqb c " "%char then
        match rest with
        | String d _ => Some (negb (Ascii.eqb d "?"%char))
        | EmptyString => None
        end
      else Some false
  | EmptyString => Some false
  end.

Fixpoint count_changed (lines : list string) : option nat :=
  match lines with
  | [] => Some 0
  | ln :: rest =>
      match is_changed ln with
      | Some b => (fun n => if b then S n else n) <$> count_changed rest
      | None => None
      end
  end.

Definition nonempty (ln : string) : bool := negb (String.eqb ln "").

Definition status (ctx : EnvContext.t) : M GitStatus.t :=
  _ ← ensure_repo ctx;
  branch ← current_branch ctx;
  head ← head_commit ctx;
  upstream ← upstream ctx;
  '(ahead, behind) ← ahead_behind ctx;
  res ← _git ctx "status --porcelain";
  _ ← SSHClientWrapper.check_ok res (EnvContext.name ctx +:+ " status");
  let lines := List.filter nonempty (PyStr.splitlines (CommandResult.stdout res)) in
  let staged := List.length (List.filter is_staged lines) in
  match count_changed lines with
  | None => raise (OtherError "string index out of range")
  | Some changed =>
      let untracked := List.length (List.filter (fun ln => PyStr.startswith ln "??") lines) in
      let dirty := match lines with [] => false | _ => true end in
      mret (GitStatus.Build branch head upstream ahead behind dirty
                            staged changed untracked lines)
  end.

(** [reset_hard(ref)].  The command is the program's; the line after it
    is the model's account of what a reset that ran did to the files of
    the environment. *)
Definition reset_hard (ctx : EnvContext.t) (ref : string) : M unit :=
  res ← _git ctx ("reset --hard " +:+ PyStr.shlex_quote ref);
  _ ← working_tree_reset (EnvContext.entry ctx) (EnvContext.rsync_spec ctx) ref;
  _ ← SSHClientWrapper.check_ok res (EnvContext.name ctx +:+ " reset --hard " +:+ ref);
  mret tt.

End WithOracle.
End GitRepo.

(** ** core/scanner.py *)
Module ProjectScanner.

(** The dictionary keeps the order in which its keys were written. *)
Definition PROJECT_MARKERS : list (string * list string) :=
  [ ("python", ["requirements.txt"; "pyproject.toml"; "setup.py"; "Pipfile"; "poetry.lock"]);
    ("node", ["package.json"; "package-lock.json"; "yarn.lock"; "pnpm-lock.yaml"]);
    ("go", ["go.mod"; "go.sum"]);
    ("rust", ["Cargo.toml"; "Cargo.lock"]);
    ("java", ["pom.xml"; "build.gradle"; "build.gradle.kts"]);
    ("ruby", ["Gemfile"; "Gemfile.lock"]);
    ("php", ["composer.json"; "composer.lock"]) ].

(** A set in the source; only membership is asked of it. *)
Definition NON_CODE_DIRS : list string :=
  [ "__pycache__"; ".pytest_cache"; ".mypy_cache"; ".ruff_cache";
    ".venv"; "venv"; "env"; ".env"; "virtualenv";
    "*.egg-info"; "dist"; "build"; ".eggs"; "*.egg";
    ".tox"; ".nox"; "htmlcov"; ".coverage";
    "node_modules"; ".npm"; ".yarn"; ".pnpm-store";
    "vendor";
    "target";
    ".gradle"; ".mvn";
    ".git"; ".svn"; ".hg";
    ".idea"; ".vscode"; "*.swp";
    ".DS_Store"; "Thumbs.db";
    "logs"; "log"; "tmp"; "temp"; "cache";
    ".envsync" ].

Definition _is_non_code_dir (name : string) : bool :=
  if PyStr.startswith name "." then true
  else existsb (fun pattern =>
                  if PyStr.startswith pattern "*"
                  then PyStr.endswith name (PyStr.drop 1 pattern)
                  else String.eqb name pattern)
               NON_CODE_DIRS.

(** [sorted(s)] of a set of strings. *)
Definition sorted_strings (s : gset string) : list string :=
  merge_sort (fun a b => String.leb a b) (elements s).

Definition get_rsync_excludes (self : ProjectStructure.t) : list string :=
  List.map (fun d => "--exclude=" +:+ d) (sorted_strings (ProjectStructure.all_non_code_dirs self)).

Definition add_non_code (d : string) (st : ProjectStructure.t) : ProjectStructure.t :=
  ProjectStructure.Build
    (ProjectStructure.root_path st) (ProjectStructure.env_name st)
    (ProjectStructure.components st) (ProjectStructure.all_code_dirs st)
    ({[ d ]} ∪ ProjectStructure.all_non_code_dirs st) (ProjectStructure.scan_time st).

Definition add_code (d : string) (st : ProjectStructure.t) : ProjectStructure.t :=
  ProjectStructure.Build
    (ProjectStructure.root_path st) (ProjectStructure.env_name st)
    (ProjectStructure.components st) ({[ d ]} ∪ ProjectStructure.all_code_dirs st)
    (ProjectStructure.all_non_code_dirs st) (ProjectStructure.scan_time st).

Definition append_component (c : ProjectComponent.t) (st : ProjectStructure.t)
  : ProjectStructure.t :=
  ProjectStructure.Build
    (ProjectStructure.root_path st) (ProjectStructure.env_name st)
    (ProjectStructure.components st ++ [c]) (ProjectStructure.all_code_dirs st)
    (ProjectStructure.all_non_code_dirs st) (ProjectStructure.scan_time st).

Definition set_scan_time (t : string) (st : ProjectStructure.t) : ProjectStructure.t :=
  ProjectStructure.Build
    (ProjectStructure.root_path st) (ProjectStructure.env_name st)
    (ProjectStructure.components st) (ProjectStructure.all_code_dirs st)
    (ProjectStructure.all_non_code_dirs st) t.

Section WithOracle.
Context `{Oracle}.

(** [f"{ctx.entry.path}/{rel_path}".rstrip("/")] *)
Definition full_path_of (ctx : EnvContext.t) (rel_path : string) : string :=
  PyStr.rstrip "/" (EnvEntry.path (EnvContext.entry ctx) +:+ "/" +:+ rel_path).

(** [ctx.client.run(f"[ -f {full_path}/{marker} ] && echo found")] and
    ["found" in check.stdout] *)
Definition marker_found (ctx : EnvContext.t) (full_path marker : string) : M bool :=
  check ← SSHClientWrapper.client_run ctx
            ("[ -f " +:+ full_path +:+ "/" +:+ marker +:+ " ] && echo found") None;
  mret (PyStr.contains "found" (CommandResult.stdout check)).

(** The inner loop of the detection, [for marker in markers], left at the
    first marker found. *)
Fixpoint any_marker (ctx : EnvContext.t) (full_path : string) (markers : list string) : M bool :=
  match markers with
  | [] => mret false
  | marker :: rest =>
      found ← marker_found ctx full_path marker;
      if (found : bool) then mret true else any_marker ctx full_path rest
  end.

(** The outer loop, [for proj_type, markers in PROJECT_MARKERS.items()],
    left at the first kind one of whose markers is found. *)
Fixpoint detect_kind (ctx : EnvContext.t) (full_path : string)
    (kinds : list (string * list string)) : M (option string) :=
  match kinds with
  | [] => mret None
  | (proj_type, markers) :: rest =>
      found ← any_marker ctx full_path markers;
      if (found : bool) then mret (Some proj_type) else detect_kind ctx full_path rest
  end.

(** The markers of a kind that are present ([_analyze_component], first loop). *)
Fixpoint present_markers (ctx : EnvContext.t) (full_path : string) (markers : list string)
  : M (list string) :=
  match markers with
  | [] => mret []
  | marker :: rest =>
      found ← marker_found ctx full_path marker;
      others ← present_markers ctx full_path rest;
      mret (if (found : bool) then marker :: others else others)
  end.

(** [PROJECT_MARKERS.get(proj_type, [])] *)
Definition markers_of (proj_type : string) : list string :=
  match List.find (fun km => String.eqb km.1 proj_type) PROJECT_MARKERS with
  | Some km => km.2
  | None => []
  end.

(** The second loop of [_analyze_component], over the lines of [find]. *)
Definition classify_subdir (ctx : EnvContext.t) (full_path : string) (line : string)
    (acc : ProjectComponent.t * ProjectStructure.t) : ProjectComponent.t * ProjectStructure.t :=
  let '(component, structure) := acc in
  if String.eqb line "" || String.eqb line full_path then acc
  else
    let dir_name := PyStr.path_name line in
    let sub_rel := PyStr.lstrip "/" (PyStr.remove_all (EnvEntry.path (EnvContext.entry ctx)) line) in
    if _is_non_code_dir dir_name then
      (ProjectComponent.Build
         (ProjectComponent.path component) (ProjectComponent.type component)
         (ProjectComponent.marker_files component) (ProjectComponent.code_dirs component)
         (ProjectComponent.non_code_dirs component ++ [dir_name]),
       add_non_code sub_rel structure)
    else
      (ProjectComponent.Build
         (ProjectComponent.path component) (ProjectComponent.type component)
         (ProjectComponent.marker_files component)
         (ProjectComponent.code_dirs component ++ [dir_name])
         (ProjectComponent.non_code_dirs component),
       add_code sub_rel structure).

(** [_analyze_component]: the component, and the structure with the
    directories it adds to the two sets. *)
Definition _analyze_component (ctx : EnvContext.t) (rel_path proj_type : string)
    (structure : ProjectStructure.t) : M (ProjectComponent.t * ProjectStructure.t) :=
  let full_path := full_path_of ctx rel_path in
  marker_files ← present_markers ctx full_path (markers_of proj_type);
  let component := ProjectComponent.Build rel_path proj_type marker_files [] [] in
  result ← SSHClientWrapper.client_run ctx
             ("find " +:+ full_path +:+ " -maxdepth 2 -type d 2>/dev/null | head -50") None;
  let '(component, structure) :=
    if (CommandResult.code result =? 0)%Z
    then List.fold_left (fun acc line => classify_subdir ctx full_path line acc)
                        (PyStr.splitlines (PyStr.strip_ws (CommandResult.stdout result)))
                        (component, structure)
    else (component, structure) in
  let structure := if String.eqb rel_path "" then structure else add_code rel_path structure in
  mret (component, structure).

(** [_scan_directory].  The source stops at [depth > 5]; [levels] counts
    the levels still open, [6 - depth], and is what the recursion
    descends on. *)
Fixpoint scan_levels (levels : nat) (ctx : EnvContext.t) (rel_path : string)
    (structure : ProjectStructure.t) : M ProjectStructure.t :=
  match levels with
  | O => mret structure
  | S levels' =>
      let full_path := full_path_of ctx rel_path in
      result ← SSHClientWrapper.client_run ctx
                 ("ls -la " +:+ full_path +:+ " 2>/dev/null | head -100") None;
      if negb (CommandResult.code result =? 0)%Z then mret structure
      else
        kind ← detect_kind ctx full_path PROJECT_MARKERS;
        match kind with
        | Some proj_type =>
            (* [if component:] holds for every dataclass instance *)
            '(component, structure) ← _analyze_component ctx rel_path proj_type structure;
            mret (append_component component structure)
        | None =>
            result ← SSHClientWrapper.client_run ctx
                       ("find " +:+ full_path +:+
                        " -maxdepth 1 -type d -not -name '.*' 2>/dev/null | tail -20") None;
            if negb (CommandResult.code result =? 0)%Z then mret structure
            else
              for_each (PyStr.splitlines (PyStr.strip_ws (CommandResult.stdout result)))
                (fun line structure =>
                   if String.eqb line "" || String.eqb line full_path then mret structure
                   else
                     let dir_name := PyStr.path_name line in
                     if _is_non_code_dir dir_name then
                       let non_code_rel := PyStr.lstrip "/" (rel_path +:+ "/" +:+ dir_name) in
                       mret (add_non_code non_code_rel structure)
                     else
                       let sub_rel := PyStr.lstrip "/" (rel_path +:+ "/" +:+ dir_name) in
                       scan_levels levels' ctx sub_rel structure)
                structure
        end
  end.

Definition _scan_directory (ctx : EnvContext.t) (rel_path : string)
    (structure : ProjectStructure.t) (depth : nat) : M ProjectStructure.t :=
  scan_levels (6 - depth) ctx rel_path structure.

Definition _ctx (config : Config) (env : string) : M EnvContext.t :=
  match config !! env with
  | None => raise (ValueError ("环境未配置: " +:+ env))
  | Some entry => mret (EnvContext.Build env entry)
  end.

(** [_load_cache]: the cached structure, unless the file is missing, is
    more than an hour old, or does not parse. *)
Definition _load_cache (env : string) : M (option ProjectStructure.t) := fun w =>
  (inr match scan_files w !! env with
       | Some content => if cache_fresh w env then content else None
       | None => None
       end, w).

Definition _save_cache (env : string) (structure : ProjectStructure.t) : M unit := fun w =>
  (inr tt, set_scan_files (insert env (Some structure)) w).

Definition scan_fresh (ctx : EnvContext.t) (env : string) : M ProjectStructure.t :=
  let structure :=
    ProjectStructure.Build (EnvEntry.path (EnvContext.entry ctx)) env [] ∅ ∅ "" in
  structure ← _scan_directory ctx "" structure 0;
  scan_time ← time_strftime "%Y-%m-%d %H:%M:%S";
  let structure := set_scan_time scan_time structure in
  _ ← _save_cache env structure;
  mret structure.

Definition scan (config : Config) (env : string) (force : bool) : M ProjectStructure.t :=
  ctx ← _ctx config env;
  if negb force then
    cached ← _load_cache env;
    match cached with
    | Some structure => mret structure
    | None => scan_fresh ctx env
    end
  else scan_fresh ctx env.

End WithOracle.
End ProjectScanner.

(** ** core/safe_sync.py *)
Module SafeSyncService.

Record t : Type := Build {
  config : Config;
  (** [Path.home() / ".envsync" / "checkpoints"] *)
  checkpoint_dir : string;
}.

(** [Literal["safe", "force"]] *)
Inductive strategy : Type := safe | force.

(** [proc.returncode not in (0, 23)] *)
Definition fatal (returncode : Z) : bool :=
  negb ((returncode =? 0)%Z || (returncode =? 23)%Z).

(** [f"{x}"] for a value that is a string or [None]. *)
Definition format_value (x : option string) : string := default "None" x.

(** [checkpoint_dir / name] *)
Definition in_dir (dir name : string) : string := dir +:+ "/" +:+ name.

Definition backup_name (env timestamp : string) : string :=
  "backup-" +:+ env +:+ "-" +:+ timestamp.

Definition checkpoint_name (env timestamp : string) : string :=
  "checkpoint-" +:+ env +:+ "-" +:+ timestamp +:+ ".json".

(** [SyncCheckpoint.to_dict], as the JSON object that [json.dumps] writes. *)
Definition to_dict (self : SyncCheckpoint.t) : MetaDoc :=
  {| doc_timestamp := Some (SyncCheckpoint.timestamp self);
     doc_env_name := Some (SyncCheckpoint.env_name self);
     doc_backup_path := Some (SyncCheckpoint.backup_path self);
     doc_git_commit := Some (SyncCheckpoint.git_commit self);
     doc_file_checksums := Some (SyncCheckpoint.file_checksums self);
     doc_other_keys := [] |}.

(** The dataclass built from the keys of [json.loads(f.read_text())],
    the document being unpacked into keyword arguments: TypeError for a value
    that is not an object, for a key that is not a field, for a missing
    field that has no default. *)
Definition load_checkpoint (f : MetaFile) : exn + SyncCheckpoint.t :=
  match f with
  | NotAnObject => inl (OtherError "not a JSON object")
  | Document d =>
      match doc_other_keys d with
      | _ :: _ => inl (TypeError "__init__() got an unexpected keyword argument")
      | [] =>
          match doc_timestamp d, doc_env_name d, doc_backup_path d with
          | Some ts, Some en, Some bp =>
              inr (SyncCheckpoint.Build ts en bp
                     (default None (doc_git_commit d))
                     (default [] (doc_file_checksums d)))
          | _, _, _ => inl (TypeError "__init__() missing required positional arguments")
          end
      end
  end.

(** The loop of [list_checkpoints]: a file that raises is passed over. *)
Definition load_all (files : list (string * MetaFile)) : list SyncCheckpoint.t :=
  omap (fun f => match load_checkpoint f.2 with
                 | inr cp => Some cp
                 | inl _ => None
                 end) files.

(** The key of the sort, for timestamps that are strings. *)
Definition key (cp : SyncCheckpoint.t) : string := default "" (SyncCheckpoint.timestamp cp).

(** [x] goes before the first element whose key is not above its own. *)
Fixpoint insert_desc (x : SyncCheckpoint.t) (l : list SyncCheckpoint.t) : list SyncCheckpoint.t :=
  match l with
  | [] => [x]
  | y :: l' => if String.ltb (key x) (key y) then y :: insert_desc x l' else x :: l
  end.

(** A stable sort, largest key first. *)
Definition sort_desc (l : list SyncCheckpoint.t) : list SyncCheckpoint.t :=
  foldr insert_desc [] l.

(** [type(k).__name__] of a key of the sort. *)
Definition type_name (k : option string) : string :=
  match k with
  | None => "NoneType"
  | Some _ => "str"
  end.

(** [str(e)] of the TypeError of the sort: it names the types of the
    first two keys compared of which one is [None].  With [reverse=True]
    the sort works on the reversed list; it compares the second key with
    the first, and then each further key with keys before it.  (So does
    the sort of CPython on a list of fewer than 64 elements; a longer list
    is cut into runs.) *)
Definition sort_error (l : list SyncCheckpoint.t) : string :=
  match rev (List.map SyncCheckpoint.timestamp l) with
  | None :: k :: _ =>
      "'<' not supported between instances of '" +:+ type_name k +:+ "' and 'NoneType'"
  | _ => "'<' not supported between instances of 'NoneType' and 'str'"
  end.

(** [sorted(checkpoints, key=lambda c: c.timestamp, reverse=True)].
    Nothing is compared in a list of at most one element.  In a longer
    list every element is compared with another one, and [<] between
    [None] and anything raises TypeError. *)
Definition sorted_by_timestamp (l : list SyncCheckpoint.t) : exn + list SyncCheckpoint.t :=
  match l with
  | [] | [_] => inr l
  | _ =>
      if forallb (fun cp => bool_decide (is_Some (SyncCheckpoint.timestamp cp))) l
      then inr (sort_desc l)
      else inl (TypeError (sort_error l))
  end.

(** [checkpoints[keep:]] *)
Definition slice_from {A : Type} (keep : Z) (l : list A) : list A :=
  if (keep <? 0)%Z
  then skipn (List.length l - Z.to_nat (- keep)) l
  else skipn (Z.to_nat keep) l.

(** The counters of [_do_sync]. *)
Definition count_synced (lines : list string) : nat :=
  List.length (List.filter (fun line => PyStr.startswith line ">" || PyStr.startswith line "<") lines).

Definition count_deleted (lines : list string) : nat :=
  List.length
    (List.filter (fun line => negb (PyStr.startswith line ">" || PyStr.startswith line "<")
                              && PyStr.startswith line "*deleting") lines).

(** [ln.strip() and not ln.startswith("building")] *)
Definition diff_line (ln : string) : bool :=
  negb (PyStr.blank ln) && negb (PyStr.startswith ln "building").

(** The result of the [except] clause of [sync]. *)
Definition failed (source target : string) (checkpoint : option SyncCheckpoint.t) (e : exn)
  : SyncResult.t :=
  SyncResult.Build false source target checkpoint 0 0 false false [] (Some (str_exn e)).

(** The command lines. *)
Definition backup_args (ctx : EnvContext.t) (backup_dir : string) : list string :=
  ["rsync"; "-az"] ++ RsyncConfig.RSYNC_EXCLUDES ++ [EnvContext.rsync_spec ctx; backup_dir +:+ "/"].

Definition restore_args (backup_spec target_spec : string) : list string :=
  ["rsync"; "-az"; "--delete"] ++ RsyncConfig.RSYNC_EXCLUDES ++ [backup_spec; target_spec].

Definition transfer_args (src dst : EnvContext.t) (checksum : bool) (extra_excludes : list string)
  : list string :=
  RsyncConfig.build_rsync_args false checksum true true true
    ++ extra_excludes ++ [EnvContext.rsync_spec src; EnvContext.rsync_spec dst].

Definition verify_args (src dst : EnvContext.t) (extra_excludes : list string) : list string :=
  RsyncConfig.build_rsync_args true true true false true
    ++ extra_excludes ++ [EnvContext.rsync_spec src; EnvContext.rsync_spec dst].

Section WithOracle.
Context `{Oracle}.

Definition _ctx (self : t) (env : string) : M EnvContext.t :=
  match config self !! env with
  | None => raise (ValueError ("环境未配置: " +:+ env))
  | Some entry => mret (EnvContext.Build env entry)
  end.

Definition list_checkpoints (self : t) (env : string) : M (list SyncCheckpoint.t) :=
  let pattern := "checkpoint-" +:+ env +:+ "-*.json" in
  files ← glob_checkpoint_files pattern;
  match sorted_by_timestamp (load_all files) with
  | inl e => raise e
  | inr checkpoints => mret checkpoints
  end.

Definition _find_checkpoint (self : t) (env : string) (checkpoint_id : option string)
  : M (option SyncCheckpoint.t) :=
  checkpoints ← list_checkpoints self env;
  match checkpoints with
  | [] => mret None
  | latest :: _ =>
      match checkpoint_id with
      | None => mret (Some latest)
      | Some id =>
          mret (List.find (fun cp => bool_decide (SyncCheckpoint.timestamp cp = Some id))
                          checkpoints)
      end
  end.

Definition _check_clean_target (ctx : EnvContext.t) : M unit :=
  try_except
    (_ ← GitRepo.ensure_repo ctx;
     status ← GitRepo.status ctx;
     if GitStatus.dirty status then
       let details := PyStr.join PyStr.newline (firstn 10 (GitStatus.short_status status)) in
       raise (RuntimeError ("目标 " +:+ EnvContext.display ctx +:+
                            " 有未提交变更，请先处理：" +:+ PyStr.newline +:+ details))
     else mret tt)
    (fun e => if is_RuntimeError e then raise e else mret tt).

Definition _create_checkpoint (self : t) (ctx : EnvContext.t) : M SyncCheckpoint.t :=
  timestamp ← time_strftime "%Y%m%d-%H%M%S";
  let backup_dir := in_dir (checkpoint_dir self) (backup_name (EnvContext.name ctx) timestamp) in
  _ ← mkdir backup_dir;
  proc ← subprocess_run (backup_args ctx backup_dir);
  if fatal (CompletedProcess.returncode proc)
  then raise (RuntimeError ("备份失败: " +:+ CompletedProcess.stderr proc))
  else
    git_commit ← try_except
                   (_ ← GitRepo.ensure_repo ctx;
                    commit ← GitRepo.head_commit ctx;
                    mret (Some commit))
                   (fun _ => mret None);
    let checkpoint :=
      SyncCheckpoint.Build (Some timestamp) (Some (EnvContext.name ctx)) (Some backup_dir)
                           git_commit [] in
    _ ← meta_write (checkpoint_name (EnvContext.name ctx) timestamp) (to_dict checkpoint);
    mret checkpoint.

Definition _do_sync (src dst : EnvContext.t) (checksum : bool) (extra_excludes : list string)
  : M (nat * nat) :=
  proc ← subprocess_run (transfer_args src dst checksum extra_excludes);
  if fatal (CompletedProcess.returncode proc)
  then raise (RuntimeError ("rsync 同步失败: " +:+
                            match CompletedProcess.stderr proc with
                            | EmptyString => CompletedProcess.stdout proc
                            | err => err
                            end))
  else
    let lines := PyStr.splitlines (CompletedProcess.stdout proc) in
    mret (count_synced lines, count_deleted lines).

Definition _verify_sync (src dst : EnvContext.t) (extra_excludes : list string) : M bool :=
  proc ← subprocess_run (verify_args src dst extra_excludes);
  if fatal (CompletedProcess.returncode proc) then mret false
  else
    let diff_lines := List.filter diff_line (PyStr.splitlines (CompletedProcess.stdout proc)) in
    mret (List.length diff_lines =? 0)%nat.

Definition _auto_commit (ctx : EnvContext.t) (message : string) : M unit :=
  try_except
    (_ ← GitRepo.ensure_repo ctx;
     status ← GitRepo.status ctx;
     if GitStatus.dirty status then
       let cwd := Some (EnvEntry.path (EnvContext.entry ctx)) in
       _ ← SSHClientWrapper.client_run ctx "git add -A" cwd;
       _ ← SSHClientWrapper.client_run ctx
             ("git commit -m " +:+ PyStr.dquote +:+ message +:+ PyStr.dquote) cwd;
       mret tt
     else mret tt)
    (fun _ => mret tt).

(** Step 0 of [sync]: the extra excludes and the kinds of the components. *)
Definition scan_step (self : t) (source : string) (code_only : bool)
    (components : option (list string)) : M (list string * list string) :=
  if code_only then
    src_structure ← ProjectScanner.scan (config self) source false;
    let extra_excludes := ProjectScanner.get_rsync_excludes src_structure in
    let synced_components :=
      List.map ProjectComponent.type (ProjectStructure.components src_structure) in
    let synced_components :=
      match components with
      | Some (c :: cs) =>
          List.filter (fun t => existsb (String.eqb t) (c :: cs)) synced_components
      | _ => synced_components
      end in
    mret (extra_excludes, synced_components)
  else mret ([], []).

(** Step 1: the dirty check. *)
Definition dirty_step (strat : strategy) (ctx_dst : EnvContext.t) : M unit :=
  match strat with
  | safe => _check_clean_target ctx_dst
  | force => mret tt
  end.

(** Step 2: the checkpoint. *)
Definition checkpoint_step (self : t) (backup : bool) (ctx_dst : EnvContext.t)
  : M (option SyncCheckpoint.t) :=
  if backup then Some <$> _create_checkpoint self ctx_dst else mret None.

(** Steps 3 to 5 and the result of a sync that went through. *)
Definition transfer_steps (source target : string) (strat : strategy)
    (verify auto_commit code_only : bool)
    (ctx_src ctx_dst : EnvContext.t) (extra_excludes synced_components : list string)
    (checkpoint : option SyncCheckpoint.t) : M SyncResult.t :=
  '(synced, deleted) ← _do_sync ctx_src ctx_dst
                         (match strat with safe => true | force => false end)
                         extra_excludes;
  verified ← (if verify then _verify_sync ctx_src ctx_dst extra_excludes else mret false);
  _ ← (if auto_commit then _auto_commit ctx_dst ("Synced from " +:+ source) else mret tt);
  mret (SyncResult.Build true source target checkpoint synced deleted verified
                         code_only synced_components None).

(** [sync].  The [except] clause reads the local variable [checkpoint]:
    it is [None] until step 2 has returned, hence the two handlers. *)
Definition sync (self : t) (source target : string) (strat : strategy)
    (backup verify auto_commit code_only : bool) (components : option (list string))
  : M SyncResult.t :=
  ctx_src ← _ctx self source;
  ctx_dst ← _ctx self target;
  try_except
    ('(extra_excludes, synced_components) ← scan_step self source code_only components;
     _ ← dirty_step strat ctx_dst;
     checkpoint ← checkpoint_step self backup ctx_dst;
     try_except
       (transfer_steps source target strat verify auto_commit code_only
                       ctx_src ctx_dst extra_excludes synced_components checkpoint)
       (fun e => mret (failed source target checkpoint e)))
    (fun e => mret (failed source target None e)).

Definition rollback (self : t) (target : string) (checkpoint_id : option string) : M bool :=
  ctx ← _ctx self target;
  found ← _find_checkpoint self target checkpoint_id;
  match found with
  | None => mret false
  | Some checkpoint =>
      try_except
        (backup_spec ← match SyncCheckpoint.backup_path checkpoint with
                       | Some p => mret (PyStr.rstrip "/" p +:+ "/")
                       | None => raise (AttributeError
                                   "'NoneType' object has no attribute 'rstrip'")
                       end;
         let target_spec := EnvContext.rsync_spec ctx in
         proc ← subprocess_run (restore_args backup_spec target_spec);
         if fatal (CompletedProcess.returncode proc)
         then raise (RuntimeError ("rsync 恢复失败: " +:+ CompletedProcess.stderr proc))
         else
           _ ← match SyncCheckpoint.git_commit checkpoint with
               | None | Some EmptyString => mret tt
               | Some commit =>
                   try_except (GitRepo.reset_hard ctx commit) (fun _ => mret tt)
               end;
           mret true)
        (fun _ => mret false)
  end.

(** The body of the loop of [cleanup_checkpoints]. *)
Definition remove_checkpoint (self : t) (env : string) (cp : SyncCheckpoint.t) : M unit :=
  backup_path ← match SyncCheckpoint.backup_path cp with
                | Some p => mret p
                | None => raise (TypeError
                            "expected str, bytes or os.PathLike object, not NoneType")
                end;
  there ← dir_exists backup_path;
  _ ← (if (there : bool) then rmtree backup_path else mret tt);
  let meta_file := checkpoint_name env (format_value (SyncCheckpoint.timestamp cp)) in
  there ← meta_exists meta_file;
  if (there : bool) then meta_unlink meta_file else mret tt.

Definition cleanup_checkpoints (self : t) (env : string) (keep : Z) : M unit :=
  checkpoints ← list_checkpoints self env;
  for_each (slice_from keep checkpoints) (fun cp _ => remove_checkpoint self env cp) tt.

End WithOracle.
End SafeSyncService.

(** ** core/diff.py *)
Module DiffService.

(** The counters and the detail lines of the loop of [_rsync_diff]. *)
Record tally : Type := {
  created : nat;
  modified : nat;
  deleted : nat;
  detail_lines : list string;
}.

(** One turn of the loop [for ln in proc.stdout.splitlines()]. *)
Definition classify_line (acc : tally) (ln : string) : tally :=
  if PyStr.blank ln then acc
  else if PyStr.startswith ln "*deleting " then
    {| created := created acc; modified := modified acc; deleted := deleted acc + 1;
       detail_lines := detail_lines acc ++ ["DEL " +:+ PyStr.drop 10 ln] |}
  else
    let '(item, _, path) := PyStr.partition_space ln in
    if String.eqb path "" then acc
    else if PyStr.contains "+++++++++" item then
      {| created := created acc + 1; modified := modified acc; deleted := deleted acc;
         detail_lines := detail_lines acc ++ ["ADD " +:+ path] |}
    else
      {| created := created acc; modified := modified acc + 1; deleted := deleted acc;
         detail_lines := detail_lines acc ++ ["MOD " +:+ path] |}.

Definition classify_output (stdout : string) : tally :=
  List.fold_left classify_line (PyStr.splitlines stdout)
                 {| created := 0; modified := 0; deleted := 0; detail_lines := [] |}.

(** [any(v > 0 for v in stats)] *)
Definition any_positive (stats : nat * nat * nat) : bool :=
  let '(c, m, d) := stats in
  existsb (fun v => (0 <? v)%nat) [c; m; d].

Definition diff_args (src dst : EnvContext.t) : list string :=
  RsyncConfig.build_rsync_args true true true false true
    ++ ["--out-format=%i %f"] ++ [EnvContext.rsync_spec src; EnvContext.rsync_spec dst].

Section WithOracle.
Context `{Oracle}.

Definition _build_ctx (config : Config) (env : string) : M EnvContext.t :=
  match config !! env with
  | None => raise (ValueError ("环境未配置: " +:+ env))
  | Some entry => mret (EnvContext.Build env entry)
  end.

Definition _rsync_diff (src dst : EnvContext.t) : M (list string * (nat * nat * nat)) :=
  proc ← subprocess_run (diff_args src dst);
  if SafeSyncService.fatal (CompletedProcess.returncode proc)
  then raise (RuntimeError ("rsync 执行失败: " +:+
                            match CompletedProcess.stderr proc with
                            | EmptyString => CompletedProcess.stdout proc
                            | err => err
                            end))
  else
    let t := classify_output (CompletedProcess.stdout proc) in
    let summary_header :=
      "rsync dry-run diff " +:+ EnvContext.display src +:+ " -> " +:+ EnvContext.display dst in
    mret (summary_header :: PyStr.repeat_char "-" (PyStr.len summary_header) :: detail_lines t,
          (created t, modified t, deleted t)).

(** [report_file.write_text("\n".join(lines))] *)
Definition write_report (report_file : string) (lines : list string) : M unit := fun w =>
  (inr tt, set_report_files (insert report_file lines) w).

Definition compare (config : Config) (report_dir : string) (env1 env2 : string)
  : M DiffReport.t :=
  ctx1 ← _build_ctx config env1;
  ctx2 ← _build_ctx config env2;
  timestamp ← time_strftime "%Y%m%d-%H%M%S";
  let report_file :=
    report_dir +:+ "/diff-" +:+ env1 +:+ "-vs-" +:+ env2 +:+ "-" +:+ timestamp +:+ ".txt" in
  '(lines, stats) ← _rsync_diff ctx1 ctx2;
  let has_diff := any_positive stats in
  let summary_lines :=
    [ "新增: " +:+ PyStr.of_nat stats.1.1;
      "修改: " +:+ PyStr.of_nat stats.1.2;
      "删除: " +:+ PyStr.of_nat stats.2;
      "报告: " +:+ report_file ] in
  _ ← write_report report_file lines;
  mret (DiffReport.Build env1 env2 has_diff summary_lines (Some report_file)).

End WithOracle.

(** *** The classification, as the specification words it

    A deletion line starts with the deletion marker; an itemize record is
    any other line that is not blank and has an itemize code, a space and
    a path; the record of a brand-new file has the marker of nine plus
    signs in its code. *)
Definition deletion_line (ln : string) : bool :=
  negb (PyStr.blank ln) && PyStr.startswith ln "*deleting ".

Definition itemize_record (ln : string) : bool :=
  negb (PyStr.blank ln) && negb (PyStr.startswith ln "*deleting ")
  && negb (String.eqb (PyStr.partition_space ln).2 "").

Definition brand_new (ln : string) : bool :=
  PyStr.contains "+++++++++" (PyStr.partition_space ln).1.1.

Definition spec_deleted (lines : list string) : nat :=
  List.length (List.filter deletion_line lines).

Definition spec_created (lines : list string) : nat :=
  List.length (List.filter (fun ln => itemize_record ln && brand_new ln) lines).

Definition spec_modified (lines : list string) : nat :=
  List.length (List.filter (fun ln => itemize_record ln && negb (brand_new ln)) lines).

End DiffService.

(** ** utils/crypto.py *)

(** The libraries the secret manager calls: Fernet of [cryptography], the
    URL-safe base 64 of [base64], and the key that PBKDF2 derives from the
    host name, the user id and the home directory. *)
Class CryptoLib : Type := {
  (** [Fernet(key)] accepts the key *)
  fernet_key_ok : string -> bool;
  (** [Fernet(key).encrypt(data)]; the entropy is the time and the
      initialisation vector that the call draws *)
  fernet_encrypt : string -> string -> string -> string;
  (** [Fernet(key).decrypt(token)], [None] for InvalidToken *)
  fernet_decrypt : string -> string -> option string;
  (** [base64.urlsafe_b64encode] *)
  b64encode : string -> string;
  (** [base64.urlsafe_b64decode], [None] for binascii.Error *)
  b64decode : string -> option string;
  (** [base64.urlsafe_b64encode(kdf.derive(password))] on this machine *)
  derived_key : string;
}.

(** What the libraries promise. *)
Class CryptoLaws `{CryptoLib} : Prop := {
  fernet_roundtrip : forall k r p,
    fernet_key_ok k = true -> fernet_decrypt k (fernet_encrypt k r p) = Some p;
  b64_roundtrip : forall b, b64decode (b64encode b) = Some b;
  b64_ascii : forall b,
    forallb (fun c => (nat_of_ascii c <? 128)%nat) (list_ascii_of_string (b64encode b)) = true;
  derived_key_ok : fernet_key_ok derived_key = true;
}.

Module SecretManager.

Definition ENCRYPTED_PREFIX : string := "enc:v1:".

(** The UTF-8 byte strings that encode a Python string: [bytes.decode]
    accepts these and no other. *)
Definition cont (c : ascii) (lo hi : nat) : bool :=
  (lo <=? nat_of_ascii c)%nat && (nat_of_ascii c <=? hi)%nat.

Fixpoint utf8_valid (s : string) : bool :=
  match s with
  | EmptyString => true
  | String c s1 =>
      let n := nat_of_ascii c in
      if (n <? 128)%nat then utf8_valid s1
      else if (194 <=? n)%nat && (n <=? 223)%nat then
        match s1 with
        | String d s2 => cont d 128 191 && utf8_valid s2
        | _ => false
        end
      else if (224 <=? n)%nat && (n <=? 239)%nat then
        match s1 with
        | String d (String e s3) =>
            cont d (if (n =? 224)%nat then 160 else 128) (if (n =? 237)%nat then 159 else 191)
            && cont e 128 191 && utf8_valid s3
        | _ => false
        end
      else if (240 <=? n)%nat && (n <=? 244)%nat then
        match s1 with
        | String d (String e (String f s4)) =>
            cont d (if (n =? 240)%nat then 144 else 128) (if (n =? 244)%nat then 143 else 191)
            && cont e 128 191 && cont f 128 191 && utf8_valid s4
        | _ => false
        end
      else false
  end.

(** [b.decode()] *)
Definition decode (b : string) : exn + string :=
  if utf8_valid b then inr b
  else inl (OtherError "'utf-8' codec can't decode bytes").

(** A surrogate at the head of a string: its number, U+D800 to U+DFFF,
    and the rest of the string. *)
Definition surrogate_at (s : string) : option (N * string) :=
  match s with
  | String c (String d (String e rest)) =>
      if (nat_of_ascii c =? 237)%nat && cont d 160 191 && cont e 128 191
      then Some (53248 + (N_of_ascii d - 128) * 64 + (N_of_ascii e - 128), rest)%N
      else None
  | _ => None
  end.

(** The first surrogate of a string: its index in code points, its
    number, and the rest of the string. *)
Fixpoint first_surrogate (pos : nat) (s : string) : option (nat * N * string) :=
  match s with
  | EmptyString => None
  | String c s' =>
      match surrogate_at s with
      | Some (code, rest) => Some (pos, code, rest)
      | None => first_surrogate (if PyStr.continuation c then pos else S pos) s'
      end
  end.

(** The number of surrogates at the head of a string. *)
Fixpoint surrogate_run (fuel : nat) (s : string) : nat :=
  match fuel with
  | O => O
  | S fuel' =>
      match surrogate_at s with
      | Some (_, rest) => S (surrogate_run fuel' rest)
      | None => O
      end
  end.

Definition hex_digit (n : N) : string :=
  match String.get (N.to_nat n) "0123456789abcdef" with
  | Some c => String c EmptyString
  | None => EmptyString
  end.

(** Four hexadecimal digits, as in the escape of a code point. *)
Definition hex4 (n : N) : string :=
  (hex_digit (n / 4096) +:+ hex_digit (n / 256 mod 16)
   +:+ hex_digit (n / 16 mod 16) +:+ hex_digit (n mod 16))%N.

(** [str(e)] of the UnicodeEncodeError: it names the first run of
    surrogates. *)
Definition encode_error (s : string) : string :=
  match first_surrogate 0 s with
  | Some (pos, code, rest) =>
      match surrogate_run (String.length rest) rest with
      | O => "'utf-8' codec can't encode character '\u" +:+ hex4 code +:+ "' in position "
             +:+ PyStr.of_nat pos +:+ ": surrogates not allowed"
      | S more => "'utf-8' codec can't encode characters in position "
                  +:+ PyStr.of_nat pos +:+ "-" +:+ PyStr.of_nat (pos + S more)
                  +:+ ": surrogates not allowed"
      end
  | None => "'utf-8' codec can't encode"
  end.

(** [s.encode()]: UnicodeEncodeError for a string that holds a
    surrogate. *)
Definition encode (s : string) : exn + string :=
  if utf8_valid s then inr s
  else inl (UnicodeEncodeError (encode_error s)).

(** The state of the secret manager: the content of the key file
    [.secret_key], if the file exists. *)
Abbreviation K := (St (option string)).

Section WithLib.
Context `{CryptoLib}.

Definition _get_or_create_key : K string := fun key_file =>
  match key_file with
  | Some key => (inr key, key_file)
  | None => (inr derived_key, Some derived_key)
  end.

(** [Fernet(key)]: ValueError for a key that is not 32 bytes in base 64. *)
Definition Fernet (key : string) : K string :=
  if fernet_key_ok key then mret key
  else raise (ValueError "Fernet key must be 32 url-safe base64-encoded bytes.").

Definition encrypt (entropy : string) (plaintext : string) : K string :=
  if String.eqb plaintext "" then mret ""
  else
    key ← _get_or_create_key;
    f ← Fernet key;
    match encode plaintext with
    | inl e => raise e
    | inr data =>
        let encrypted := fernet_encrypt f entropy data in
        mret (ENCRYPTED_PREFIX +:+ b64encode encrypted)
    end.

Definition decrypt (ciphertext : string) : K string :=
  if String.eqb ciphertext "" then mret ""
  else
    try_except
      (let ciphertext :=
         if PyStr.startswith ciphertext ENCRYPTED_PREFIX
         then PyStr.drop (PyStr.len ENCRYPTED_PREFIX) ciphertext
         else ciphertext in
       key ← _get_or_create_key;
       f ← Fernet key;
       match encode ciphertext with
       | inl e => raise e
       | inr data =>
           match b64decode data with
           | None => raise (OtherError "Incorrect padding")
           | Some encrypted =>
               match fernet_decrypt f encrypted with
               | None => raise (OtherError "InvalidToken")
               | Some decrypted =>
                   match decode decrypted with
                   | inl e => raise e
                   | inr text => mret text
                   end
               end
           end
       end)
      (fun e => raise (RuntimeError ("解密失败，密钥可能已变更或数据损坏: " +:+ str_exn e))).

Definition is_encrypted (text : string) : bool :=
  if String.eqb text "" then false
  else if PyStr.startswith text ENCRYPTED_PREFIX then true
  else if PyStr.startswith text "<" || PyStr.contains "://" (PyStr.take 10 text) then false
  else
    match encode text with
    | inl _ => false
    | inr data =>
        match b64decode data with
        | Some _ => (50 <? PyStr.len text)%nat && PyStr.contains "=" (PyStr.take_last 4 text)
        | None => false
        end
    end.

End WithLib.
End SecretManager.

(** ** core/sync.py *)
Module SyncService.

(** The command line of [_rsync_copy]. *)
Definition copy_args (src dst : EnvContext.t) (checksum : bool) : list string :=
  RsyncConfig.build_rsync_args false checksum true true true
    ++ [EnvContext.rsync_spec src; EnvContext.rsync_spec dst].

Section WithOracle.
Context `{Oracle}.

Definition _ctx (config : Config) (env : string) : M EnvContext.t :=
  match config !! env with
  | None => raise (ValueError ("环境未配置: " +:+ env))
  | Some entry => mret (EnvContext.Build env entry)
  end.

(** [_git_repo]: the repository of the environment, or [None] when
    [ensure_repo] raises. *)
Definition _git_repo (ctx : EnvContext.t) : M (option EnvContext.t) :=
  try_except
    (_ ← GitRepo.ensure_repo ctx;
     mret (Some ctx))
    (fun _ => mret None).

Definition _ensure_clean_target (ctx : EnvContext.t) : M unit :=
  repo ← _git_repo ctx;
  match repo with
  | None => mret tt
  | Some repo =>
      status ← GitRepo.status repo;
      if GitStatus.dirty status then
        let details := PyStr.join PyStr.newline (firstn 20 (GitStatus.short_status status)) in
        raise (RuntimeError ("目标 " +:+ EnvContext.display ctx +:+
                             " 有未提交变更，已中止同步。" +:+ PyStr.newline +:+ details))
      else mret tt
  end.

Definition _rsync_copy (src dst : EnvContext.t) (checksum : bool) : M unit :=
  proc ← subprocess_run (copy_args src dst checksum);
  if SafeSyncService.fatal (CompletedProcess.returncode proc)
  then raise (RuntimeError ("rsync 失败: " +:+
                            match CompletedProcess.stderr proc with
                            | EmptyString => CompletedProcess.stdout proc
                            | err => err
                            end))
  else mret tt.

(** [sync(source, target, strategy)]; a strategy other than safe is read
    as force. *)
Definition sync (config : Config) (source target : string)
    (strat : SafeSyncService.strategy) : M unit :=
  ctx_src ← _ctx config source;
  ctx_dst ← _ctx config target;
  _ ← match strat with
      | SafeSyncService.safe => _ensure_clean_target ctx_dst
      | SafeSyncService.force => mret tt
      end;
  _rsync_copy ctx_src ctx_dst
              (match strat with SafeSyncService.safe => true | SafeSyncService.force => false end).

End WithOracle.
End SyncService.

(** ** core/config.py: the GitLab settings *)

(** A mapping read from or written to the configuration file.  Of the
    values only strings and null are represented (the inner [option]). *)
Abbreviation Mapping := (gmap string (option string)).

(** [if x:] for a value that is a string or [None] *)
Definition truthy (x : option string) : bool :=
  match x with
  | Some s => negb (String.eqb s "")
  | None => false
  end.

Module GitLabConfig.

(** The dataclass does not check its annotations: [from_dict] stores what
    the mapping holds, a string or [None]. *)
Record t : Type := Build {
  url : option string;
  token : option string;
  project : option string;
  _encrypted : bool;
}.

(** [validate] *)
Definition validate (self : t) : list string :=
  (if truthy (url self) then [] else ["gitlab.url 不能为空"])
  ++ (if truthy (token self) then [] else ["gitlab.token 不能为空"]).

Section WithLib.
Context `{CryptoLib}.

(** [SecretManager().encrypt(x)] for a value that is a string or [None]:
    the guard [if not plaintext] answers the empty string for [None]. *)
Definition encrypt_value (entropy : string) (x : option string) : SecretManager.K string :=
  match x with
  | Some plaintext => SecretManager.encrypt entropy plaintext
  | None => mret ""
  end.

(** [is_encrypted(x)]: the guard [if not text] answers [False] for [None]. *)
Definition is_encrypted_value (x : option string) : bool :=
  match x with
  | Some text => SecretManager.is_encrypted text
  | None => false
  end.

(** [to_dict(encrypt)]; the entropy is what the encryption draws. *)
Definition to_dict (entropy : string) (encrypt : bool) (self : t) : SecretManager.K Mapping :=
  token_value ← (if encrypt && negb (_encrypted self)
                 then Some <$> encrypt_value entropy (token self)
                 else mret (token self));
  let data : Mapping := <["token" := token_value]> (<["url" := url self]> ∅) in
  mret (if truthy (project self) then <["project" := project self]> data else data).

(** [from_dict(data)] *)
Definition from_dict (data : Mapping) : SecretManager.K t :=
  let token := default (Some "") (data !! "token") in
  let is_encrypted := is_encrypted_value token in
  token ← (if is_encrypted
           then match token with
                | Some text => Some <$> SecretManager.decrypt text
                | None => mret None
                end
           else mret token);
  mret (Build (default (Some "") (data !! "url")) token
              (default None (data !! "project")) is_encrypted).

End WithLib.
End GitLabConfig.

(** ** Concrete environments

    Small configurations, worlds and oracles on which the theorems of the
    second half are exercised. *)
Module Scenario.

(** An oracle whose answers depend on the command alone. *)
Definition scripted
    (rsync : list string -> exn + ProcOutcome)
    (sh : string -> exn + CommandResult.t)
    (reset : string -> Tree -> Tree)
    (now : string) : Oracle :=
  {| spawn_outcome := fun _ args => rsync args;
     gitignored := fun _ _ _ => false;
     shell_outcome := fun _ _ _ command => sh command;
     reset_hard_tree := fun _ _ ref t => reset ref t;
     strftime := fun _ _ => now;
     cache_fresh := fun _ _ => false;
     same_mtime := fun _ _ _ _ => false |}.

Definition exit_with (code : Z) (stdout : string) : exn + ProcOutcome :=
  inr {| po_returncode := code; po_stdout := stdout; po_stderr := "";
         po_skipped := fun _ => false |}.

Definition answer (code : Z) (stdout : string) : exn + CommandResult.t :=
  inr (CommandResult.Build code stdout "").

Definition dev : EnvEntry.t := EnvEntry.Build "dev" "native" "/srv/dev" None None.
Definition prod : EnvEntry.t := EnvEntry.Build "prod" "native" "/srv/prod" None None.

Definition two_envs : Config := <["dev" := dev]> (<["prod" := prod]> ∅).

Definition service : SafeSyncService.t := SafeSyncService.Build two_envs "/home/u/.envsync/checkpoints".

Definition empty_world : World :=
  {| trees := ∅; checkpoint_files := []; scan_files := ∅; report_files := ∅; log := [] |}.

(** A dry run that reports one new file, one changed file, one deletion. *)
Definition three_changes : string :=
  ">f+++++++++ notes/new.txt" +:+ PyStr.newline +:+
  ">f.st...... app/main.py" +:+ PyStr.newline +:+
  "*deleting   old.cfg" +:+ PyStr.newline.

Definition drifted : Oracle :=
  scripted (fun _ => exit_with 0 three_changes) (fun _ => answer 1 "") (fun _ t => t)
           "20240101-120000".

(** A checkpoint directory in which two records were edited by hand and
    lost their timestamps. *)
Definition no_timestamp (backup : string) : MetaFile :=
  Document {| doc_timestamp := Some None;
              doc_env_name := Some (Some "prod");
              doc_backup_path := Some (Some backup);
              doc_git_commit := Some None;
              doc_file_checksums := Some [];
              doc_other_keys := [] |}.

Definition edited_store : World :=
  {| trees := ∅;
     checkpoint_files :=
       [ ("checkpoint-prod-20240101-120000.json", no_timestamp "/home/u/.envsync/checkpoints/b1");
         ("checkpoint-prod-20240102-120000.json", no_timestamp "/home/u/.envsync/checkpoints/b2") ];
     scan_files := ∅; report_files := ∅; log := [] |}.

(** A checkpoint directory of prod with four metadata files: a file that
    is no JSON object, the record of the first of January, a record with a
    key the dataclass does not know, and the record of the second of
    January. *)
Definition record_of_day (ts backup : string) (other_keys : list string) : MetaFile :=
  Document {| doc_timestamp := Some (Some ts);
              doc_env_name := Some (Some "prod");
              doc_backup_path := Some (Some backup);
              doc_git_commit := Some None;
              doc_file_checksums := Some [];
              doc_other_keys := other_keys |}.

Definition mixed_store : World :=
  {| trees := ∅;
     checkpoint_files :=
       [ ("checkpoint-prod-20231231-090000.json", NotAnObject);
         ("checkpoint-prod-20240101-120000.json",
          record_of_day "20240101-120000" "/home/u/.envsync/checkpoints/b1" []);
         ("checkpoint-prod-20240101-180000.json",
          record_of_day "20240101-180000" "/home/u/.envsync/checkpoints/b3" ["size"]);
         ("checkpoint-prod-20240102-120000.json",
          record_of_day "20240102-120000" "/home/u/.envsync/checkpoints/b2" []) ];
     scan_files := ∅; report_files := ∅; log := [] |}.

(** Two environments, the name of one extending the name of the other. *)
Definition app : EnvEntry.t := EnvEntry.Build "app" "native" "/srv/app" None None.
Definition app_staging : EnvEntry.t :=
  EnvEntry.Build "app-staging" "native" "/srv/app-staging" None None.

Definition app_service : SafeSyncService.t :=
  SafeSyncService.Build (<["app" := app]> (<["app-staging" := app_staging]> ∅))
                        "/home/u/.envsync/checkpoints".

(** Every transfer succeeds, no environment is a git repository, and the
    clock shows the first of January until a checkpoint exists, the second
    afterwards. *)
Definition calm : Oracle :=
  {| spawn_outcome := fun _ _ => exit_with 0 "";
     gitignored := fun _ _ _ => false;
     shell_outcome := fun _ _ _ _ => answer 128 "";
     reset_hard_tree := fun _ _ _ t => t;
     strftime := fun w _ => match checkpoint_files w with
                            | [] => "20240101-100000"
                            | _ => "20240102-100000"
                            end;
     cache_fresh := fun _ _ => false;
     same_mtime := fun _ _ _ _ => false |}.

Definition app_files : World :=
  {| trees := <["/srv/app" := <["main.py" := "print(1)"]> ∅]>
                (<["/srv/app-staging" := <["main.py" := "print(0)"]> ∅]> ∅);
     checkpoint_files := []; scan_files := ∅; report_files := ∅; log := [] |}.

(** The world after a checkpoint of app-staging, then one of app. *)
Definition two_checkpoints : World :=
  let w1 := (SafeSyncService._create_checkpoint (H := calm) app_service
               (EnvContext.Build "app-staging" app_staging) app_files).2 in
  (SafeSyncService._create_checkpoint (H := calm) app_service
     (EnvContext.Build "app" app) w1).2.

(** As [calm], with a clock that shows one more day of January for each
    checkpoint that exists. *)
Definition daily : Oracle :=
  {| spawn_outcome := fun _ _ => exit_with 0 "";
     gitignored := fun _ _ _ => false;
     shell_outcome := fun _ _ _ _ => answer 128 "";
     reset_hard_tree := fun _ _ _ t => t;
     strftime := fun w _ => match checkpoint_files w with
                            | [] => "20240101-100000"
                            | [_] => "20240102-100000"
                            | _ => "20240103-100000"
                            end;
     cache_fresh := fun _ _ => false;
     same_mtime := fun _ _ _ _ => false |}.

(** The world after three checkpoints of app-staging, one a day. *)
Definition three_nights : World :=
  let checkpoint w :=
    (SafeSyncService._create_checkpoint (H := daily) app_service
       (EnvContext.Build "app-staging" app_staging) w).2 in
  checkpoint (checkpoint (checkpoint app_files)).

(** The answers of git in a repository on branch main, without upstream,
    whose [status --porcelain] prints [porcelain]. *)
Definition git_shell (porcelain : string) (command : string) : exn + CommandResult.t :=
  if PyStr.contains "rev-parse --is-inside-work-tree" command then answer 0 ("true" +:+ PyStr.newline)
  else if PyStr.contains "@{u}" command then answer 128 ""
  else if PyStr.contains "rev-parse --abbrev-ref HEAD" command then answer 0 ("main" +:+ PyStr.newline)
  else if PyStr.contains "rev-parse HEAD" command then answer 0 ("4f2a9c1" +:+ PyStr.newline)
  else if PyStr.contains "status --porcelain" command then answer 0 porcelain
  else answer 0 "".

Definition two_changes : string :=
  " M app/main.py" +:+ PyStr.newline +:+ "?? notes.txt" +:+ PyStr.newline.

(** The target has two uncommitted changes. *)
Definition dirty_target : Oracle :=
  scripted (fun _ => exit_with 0 "") (git_shell two_changes) (fun _ t => t) "20240101-120000".

(** The target is clean; the backup succeeds, the transfer (the run that
    reports progress) loses its connection. *)
Definition failing_transfer (args : list string) : exn + ProcOutcome :=
  if existsb (String.eqb "--info=stats2,progress2") args
  then inr {| po_returncode := 12; po_stdout := "";
              po_stderr := "rsync: connection unexpectedly closed";
              po_skipped := fun _ => true |}
  else exit_with 0 "".

Definition broken_link : Oracle :=
  scripted failing_transfer (git_shell "") (fun _ t => t) "20240101-120000".

(** The transfer succeeds, the verification pass still finds a file that
    differs. *)
Definition unfaithful_transfer (args : list string) : exn + ProcOutcome :=
  if existsb (String.eqb "-anz") args
  then exit_with 0 (">f.st...... app/main.py" +:+ PyStr.newline)
  else if existsb (String.eqb "--itemize-changes") args
  then exit_with 0 (">f+++++++++ app/main.py" +:+ PyStr.newline)
  else exit_with 0 "".

Definition unfaithful : Oracle :=
  scripted unfaithful_transfer (git_shell "") (fun _ t => t) "20240101-120000".

Definition dev_prod_files : World :=
  {| trees := <["/srv/dev" := <["app/main.py" := "print(2)"]> ∅]>
                (<["/srv/prod" := <["app/main.py" := "print(1)"]> ∅]> ∅);
     checkpoint_files := []; scan_files := ∅; report_files := ∅; log := [] |}.

(** A release: dev holds a longer main.py than prod and a new module,
    prod holds a module that dev has dropped. *)
Definition release_files : World :=
  {| trees := <["/srv/dev" := <["app/main.py" := "print('release 2')"]>
                                (<["app/new.py" := "x = 1"]> ∅)]>
                (<["/srv/prod" := <["app/main.py" := "print(1)"]>
                                    (<["app/old.py" := "y = 0"]> ∅)]> ∅);
     checkpoint_files := []; scan_files := ∅; report_files := ∅; log := [] |}.

Definition dev_ctx : EnvContext.t := EnvContext.Build "dev" dev.
Definition prod_ctx : EnvContext.t := EnvContext.Build "prod" prod.

(** The checkpoint that a sync towards prod makes at noon. *)
Definition noon_checkpoint : SyncCheckpoint.t :=
  SyncCheckpoint.Build (Some "20240101-120000") (Some "prod")
    (Some "/home/u/.envsync/checkpoints/backup-prod-20240101-120000") (Some "4f2a9c1") [].

(** The world in which the transfer over the broken link starts: after
    the dirty check and the checkpoint. *)
Definition before_broken_transfer : World :=
  (SafeSyncService._create_checkpoint (H := broken_link) service prod_ctx
     (SafeSyncService.dirty_step (H := broken_link) SafeSyncService.safe prod_ctx
        dev_prod_files).2).2.

Definition connection_closed : ProcOutcome :=
  {| po_returncode := 12; po_stdout := "";
     po_stderr := "rsync: connection unexpectedly closed";
     po_skipped := fun _ => true |}.

(** Transfers succeed; git refuses the hard reset. *)
Definition reset_refused : Oracle :=
  scripted (fun _ => exit_with 0 "")
           (fun command => if PyStr.contains "reset --hard" command
                           then inr (CommandResult.Build 128 "" "fatal: could not reset")
                           else git_shell "" command)
           (fun _ t => t) "20240101-130000".

(** Transfers succeed and prod is a clean repository. *)
Definition clean_repo : Oracle :=
  scripted (fun _ => exit_with 0 "") (git_shell "") (fun _ t => t) "20240101-120000".

Definition after_noon_checkpoint : World :=
  (SafeSyncService._create_checkpoint (H := clean_repo) service prod_ctx dev_prod_files).2.

(** prod is a repository whose app/main.py carries an edit that was not
    committed: a hard reset brings the committed content back. *)
Definition uncommitted_edit : Oracle :=
  scripted (fun _ => exit_with 0 "")
           (git_shell (" M app/main.py" +:+ PyStr.newline))
           (fun _ t => <["app/main.py" := "print(1)"]> t)
           "20240101-120000".

Definition hotfixed : World :=
  {| trees := <["/srv/prod" := <["app/main.py" := "print(1)  # hotfix"]> ∅]> ∅;
     checkpoint_files := []; scan_files := ∅; report_files := ∅; log := [] |}.

(** The backup cannot read data.bin and exits with 23; the restore
    succeeds. *)
Definition unreadable_file : Oracle :=
  scripted (fun args =>
              if existsb (String.eqb "--delete") args then exit_with 0 ""
              else inr {| po_returncode := 23; po_stdout := "";
                          po_stderr := "rsync: send_files failed to open data.bin";
                          po_skipped := fun p => String.eqb p "data.bin" |})
           (fun _ => answer 128 "") (fun _ t => t) "20240101-120000".

Definition with_data : World :=
  {| trees := <["/srv/prod" := <["data.bin" := "0101"]> (<["app/main.py" := "print(1)"]> ∅)]> ∅;
     checkpoint_files := []; scan_files := ∅; report_files := ∅; log := [] |}.

(** A directory that holds both package.json and go.mod, with two
    subdirectories. *)
Definition polyglot_present (marker : string) : bool :=
  String.eqb marker "package.json" || String.eqb marker "go.mod".

Definition polyglot_shell (command : string) : exn + CommandResult.t :=
  if PyStr.startswith command "[ -f " then
    if String.eqb command "[ -f /srv/dev/package.json ] && echo found"
       || String.eqb command "[ -f /srv/dev/go.mod ] && echo found"
    then answer 0 ("found" +:+ PyStr.newline)
    else answer 1 ""
  else if PyStr.startswith command "ls " then answer 0 "total 0"
  else answer 0 ("/srv/dev" +:+ PyStr.newline +:+ "/srv/dev/src" +:+ PyStr.newline +:+
                 "/srv/dev/node_modules" +:+ PyStr.newline).

Definition polyglot : Oracle :=
  scripted (fun _ => exit_with 0 "") polyglot_shell (fun _ t => t) "20240101-120000".

(** The string that holds one surrogate code point, U+D800. *)
Definition lone_surrogate : string :=
  String (ascii_of_nat 237) (String (ascii_of_nat 160) (String (ascii_of_nat 128) EmptyString)).

(** Stand-ins for the cryptographic libraries: a cipher that leaves the
    data as it is, and an encoding of each byte by two letters. *)
Definition two_letters (c : ascii) : string :=
  let n := nat_of_ascii c in
  String (ascii_of_nat (97 + n / 16)) (String (ascii_of_nat (97 + n mod 16)) EmptyString).

Fixpoint letters_encode (b : string) : string :=
  match b with
  | EmptyString => EmptyString
  | String c b' => two_letters c +:+ letters_encode b'
  end.

Fixpoint letters_decode (fuel : nat) (s : string) : option string :=
  match fuel, s with
  | _, EmptyString => Some EmptyString
  | S fuel', String x (String y s') =>
      String (ascii_of_nat ((nat_of_ascii x - 97) * 16 + (nat_of_ascii y - 97)))
        <$> letters_decode fuel' s'
  | _, _ => None
  end.

Definition toy_lib : CryptoLib :=
  {| fernet_key_ok := fun _ => true;
     fernet_encrypt := fun _ _ data => data;
     fernet_decrypt := fun _ token => Some token;
     b64encode := letters_encode;
     b64decode := fun s => letters_decode (String.length s) s;
     derived_key := "derived-on-this-machine" |}.

(** As [polyglot], with a scan cache that is never more than an hour old. *)
Definition polyglot_cached : Oracle :=
  {| spawn_outcome := fun _ _ => exit_with 0 "";
     gitignored := fun _ _ _ => false;
     shell_outcome := fun _ _ _ command => polyglot_shell command;
     reset_hard_tree := fun _ _ _ t => t;
     strftime := fun _ _ => "2024-01-01 12:00:00";
     cache_fresh := fun _ _ => true;
     same_mtime := fun _ _ _ _ => false |}.


(** The backup (the run without [--delete]) finds the disk full; the
    target is a clean repository. *)
Definition failing_backup (args : list string) : exn + ProcOutcome :=
  if existsb (String.eqb "--delete") args
  then exit_with 0 ""
  else inr {| po_returncode := 11; po_stdout := "";
              po_stderr := "rsync: write failed: No space left on device";
              po_skipped := fun _ => true |}.

Definition full_disk : Oracle :=
  scripted failing_backup (git_shell "") (fun _ t => t) "20240101-120000".

(** The GitLab settings as [set_gitlab] makes them. *)
Definition gitlab_settings : GitLabConfig.t :=
  GitLabConfig.Build (Some "https://gitlab.example.com") (Some "glpat-123")
                     (Some "group/repo") false.

End Scenario.

(** * Notions used in the statements *)

(** ** Computations that only ask

    A computation only asks when it starts nothing but shell commands:
    it spawns no transfer and leaves the directories, the checkpoint
    directory and the reports as they are. *)

Definition asked (ev : event) : Prop := exists host user command, ev = Ran host user command.

Definition only_asks (w w' : World) : Prop :=
  trees w' = trees w /\
  checkpoint_files w' = checkpoint_files w /\
  report_files w' = report_files w /\
  exists evs, log w' = log w ++ evs /\ Forall asked evs.

Definition Asks {A : Type} (m : M A) : Prop :=
  forall w r w', m w = (r, w') -> only_asks w w'.

(** ** The key file *)

(** The key file holds a key that Fernet accepts, or does not exist yet. *)
Definition usable `{CryptoLib} (key_file : option string) : Prop :=
  match key_file with
  | Some k => fernet_key_ok k = true
  | None => True
  end.

(** ** The checkpoint directory *)

Module Store.
Import SafeSyncService.

(** A name that a glob pattern reads as it is written, and that names a
    file of the directory itself: it holds no wildcard character, no
    bracket and no slash. *)
Definition glob_literal (name : string) : bool :=
  forallb (fun c => negb (existsb (Ascii.eqb c) ["*"; "?"; "["; "/"]%char))
          (list_ascii_of_string name).

(** [a] may stand before [b] in a list sorted by timestamp, latest first. *)
Definition newer_first (a b : SyncCheckpoint.t) : Prop := String.ltb (key a) (key b) = false.

(** The pattern of the environment matches the name of the file. *)
Definition listed (env : string) (f : string * MetaFile) : bool :=
  PyStr.wildcard ("checkpoint-" +:+ env +:+ "-*.json") f.1.

(** The record that the file holds, when it loads. *)
Definition record_of (f : string * MetaFile) : option SyncCheckpoint.t :=
  match load_checkpoint f.2 with
  | inr cp => Some cp
  | inl _ => None
  end.

(** The records of an environment that load: the files that the pattern
    of the environment matches, those that raise being left out. *)
Definition loaded (env : string) (w : World) : list SyncCheckpoint.t :=
  load_all (List.filter (fun f => PyStr.wildcard ("checkpoint-" +:+ env +:+ "-*.json") f.1)
                        (checkpoint_files w)).

(** [_find_checkpoint] on a listing. *)
Definition resolve (l : list SyncCheckpoint.t) (checkpoint_id : option string)
  : option SyncCheckpoint.t :=
  match l with
  | [] => None
  | latest :: _ =>
      match checkpoint_id with
      | None => Some latest
      | Some id => List.find (fun cp => bool_decide (SyncCheckpoint.timestamp cp = Some id)) l
      end
  end.

(** The name of the metadata file that [cleanup_checkpoints] looks for. *)
Definition file_of (env : string) (cp : SyncCheckpoint.t) : string :=
  checkpoint_name env (format_value (SyncCheckpoint.timestamp cp)).

(** The file is not one of [names]. *)
Definition spared (names : list string) (name : string) : bool :=
  negb (existsb (String.eqb name) names).

(** The checkpoint directory is in good order for an environment: no two
    files have the same name, and each record listed for the environment
    sits in the file named after the environment and the timestamp of the
    record, and has a backup path. *)
Definition own_records (env : string) (w : World) : Prop :=
  NoDup (List.map fst (checkpoint_files w)) /\
  forall f cp, In f (checkpoint_files w) -> listed env f = true -> record_of f = Some cp ->
    f.1 = file_of env cp /\
    is_Some (SyncCheckpoint.timestamp cp) /\
    is_Some (SyncCheckpoint.backup_path cp).

End Store.

(** ** Marker files *)

Module Markers.
Import ProjectScanner.

(** The marker files of all kinds. *)
Definition known_markers : list string := flat_map snd PROJECT_MARKERS.

(** The test for a marker file, as the scanner writes it. *)
Definition marker_test (full_path marker : string) : string :=
  "[ -f " +:+ full_path +:+ "/" +:+ marker +:+ " ] && echo found".

(** [present] tells which marker files the directory holds: the shell
    answers the test for each marker accordingly, whenever it is asked. *)
Definition answers_markers `{Oracle} (ctx : EnvContext.t) (full_path : string)
    (present : string -> bool) : Prop :=
  forall w marker, In marker known_markers ->
    exists r,
      shell_outcome w (EnvEntry.host (EnvContext.entry ctx))
                    (EnvEntry.user (EnvContext.entry ctx))
                    (marker_test full_path marker) = inr r /\
      PyStr.contains "found" (CommandResult.stdout r) = present marker.

(** A component as the detection makes them: of a kind the scanner
    knows, with marker files of that kind. *)
Definition known_component (c : ProjectComponent.t) : Prop :=
  In (ProjectComponent.type c) (List.map fst PROJECT_MARKERS) /\
  incl (ProjectComponent.marker_files c) (markers_of (ProjectComponent.type c)).

End Markers.

(** ** Results of a sync *)

(** Two results that differ at most in [components_synced]. *)
Definition same_but_components (a b : SyncResult.t) : Prop :=
  b = SyncResult.Build (SyncResult.success a) (SyncResult.source a) (SyncResult.target a)
        (SyncResult.checkpoint a) (SyncResult.files_synced a) (SyncResult.files_deleted a)
        (SyncResult.verified a) (SyncResult.code_only a) (SyncResult.components_synced b)
        (SyncResult.error a).

(** Two outcomes: the same exception, or two such results. *)
Definition same_outcome (r r' : exn + SyncResult.t) : Prop :=
  match r, r' with
  | inl e, inl e' => e = e'
  | inr a, inr b => same_but_components a b
  | _, _ => False
  end.

(** ** What a run leaves alone *)

(** From [w] to [w'] the checkpoint directory is the same, every
    directory but the one at [spec] is the same, and in that one every
    path of the shared exclude list holds what it held. *)
Definition spares (spec : string) (w w' : World) : Prop :=
  checkpoint_files w' = checkpoint_files w /\
  (forall a, a <> address spec -> trees w' !! a = trees w !! a) /\
  (forall p, RsyncConfig.standard_deny p = true -> tree_at w' spec !! p = tree_at w spec !! p).

(** * Properties *)

(** ** Running computations *)

Lemma bind_ok {S A B : Type} (m : St S A) (f : A -> St S B) (w w' : S) (x : A) :
  m w = (inr x, w') -> (m ≫= f) w = f x w'.
Proof. intros E. unfold mbind, St_bind. now rewrite E. Qed.

Lemma bind_raise {S A B : Type} (m : St S A) (f : A -> St S B) (w w' : S) (e : exn) :
  m w = (inl e, w') -> (m ≫= f) w = (inl e, w').
Proof. intros E. unfold mbind, St_bind. now rewrite E. Qed.

Lemma try_ok {S A : Type} (m : St S A) (h : exn -> St S A) (w w' : S) (x : A) :
  m w = (inr x, w') -> try_except m h w = (inr x, w').
Proof. intros E. unfold try_except. now rewrite E. Qed.

Lemma try_raise {S A : Type} (m : St S A) (h : exn -> St S A) (w w' : S) (e : exn) :
  m w = (inl e, w') -> try_except m h w = h e w'.
Proof. intros E. unfold try_except. now rewrite E. Qed.

Lemma bind_ret_l {S A B : Type} (x : A) (f : A -> St S B) (w : S) :
  (mret x ≫= f) w = f x w.
Proof. reflexivity. Qed.

(** ** The primitives *)

Lemma subprocess_run_ok `{Oracle} (args : list string) (out : ProcOutcome) (w : World) :
  spawn_outcome w args = inr out ->
  subprocess_run args w
  = (inr (CompletedProcess.Build (po_returncode out) (po_stdout out) (po_stderr out)),
     record_event (Spawned args) (rsync_effect args out w)).
Proof. intros E. unfold subprocess_run. now rewrite E. Qed.

Lemma subprocess_run_raise `{Oracle} (args : list string) (e : exn) (w : World) :
  spawn_outcome w args = inl e ->
  subprocess_run args w = (inl e, record_event (Spawned args) w).
Proof. intros E. unfold subprocess_run. now rewrite E. Qed.

(** ** The drift-diff engine *)
Module DiffSpec.
Import DiffService.

Lemma classify_line_created acc ln :
  created (classify_line acc ln)
  = created acc + (if itemize_record ln && brand_new ln then 1 else 0).
Proof.
  unfold classify_line, itemize_record, brand_new.
  destruct (PyStr.blank ln); simpl; [lia|].
  destruct (PyStr.startswith ln "*deleting "); simpl; [lia|].
  destruct (PyStr.partition_space ln) as [[item sep] path]; simpl.
  destruct (String.eqb path ""); simpl; [lia|].
  destruct (PyStr.contains "+++++++++" item); simpl; lia.
Qed.

Lemma classify_line_modified acc ln :
  modified (classify_line acc ln)
  = modified acc + (if itemize_record ln && negb (brand_new ln) then 1 else 0).
Proof.
  unfold classify_line, itemize_record, brand_new.
  destruct (PyStr.blank ln); simpl; [lia|].
  destruct (PyStr.startswith ln "*deleting "); simpl; [lia|].
  destruct (PyStr.partition_space ln) as [[item sep] path]; simpl.
  destruct (String.eqb path ""); simpl; [lia|].
  destruct (PyStr.contains "+++++++++" item); simpl; lia.
Qed.

Lemma classify_line_deleted acc ln :
  deleted (classify_line acc ln)
  = deleted acc + (if deletion_line ln then 1 else 0).
Proof.
  unfold classify_line, deletion_line.
  destruct (PyStr.blank ln); simpl; [lia|].
  destruct (PyStr.startswith ln "*deleting "); simpl; [lia|].
  destruct (PyStr.partition_space ln) as [[item sep] path]; simpl.
  destruct (String.eqb path ""); simpl; [lia|].
  destruct (PyStr.contains "+++++++++" item); simpl; lia.
Qed.

Lemma length_filter_cons {A : Type} (p : A -> bool) (x : A) (l : list A) :
  List.length (List.filter p (x :: l))
  = (if p x then 1 else 0) + List.length (List.filter p l).
Proof. simpl. now destruct (p x). Qed.

Lemma fold_classify lines : forall acc,
  let t := List.fold_left classify_line lines acc in
  created t = created acc + spec_created lines /\
  modified t = modified acc + spec_modified lines /\
  deleted t = deleted acc + spec_deleted lines.
Proof.
  induction lines as [|ln lines IH]; intros acc.
  - cbn. lia.
  - cbn zeta. cbn [List.fold_left].
    destruct (IH (classify_line acc ln)) as (Hc & Hm & Hd).
    rewrite Hc, Hm, Hd.
    rewrite classify_line_created, classify_line_modified, classify_line_deleted.
    unfold spec_created, spec_modified, spec_deleted.
    rewrite !length_filter_cons. lia.
Qed.

Lemma classify_output_counts stdout :
  let lines := PyStr.splitlines stdout in
  let t := classify_output stdout in
  created t = spec_created lines /\
  modified t = spec_modified lines /\
  deleted t = spec_deleted lines.
Proof.
  cbn zeta. unfold classify_output.
  destruct (fold_classify (PyStr.splitlines stdout)
              {| created := 0; modified := 0; deleted := 0; detail_lines := [] |})
    as (Hc & Hm & Hd).
  cbn in Hc, Hm, Hd. auto.
Qed.

Lemma any_positive_iff c m d :
  any_positive (c, m, d) = true <-> c <> 0 \/ m <> 0 \/ d <> 0.
Proof.
  unfold any_positive. cbn [existsb].
  rewrite !orb_true_iff, !Nat.ltb_lt. split.
  - intros [Hc|[Hm|[Hd|Hf]]]; [lia|lia|lia|discriminate].
  - intros [Hc|[Hm|Hd]]; [left|right; left|right; right; left]; lia.
Qed.

(** C7.  Whatever the dry run prints, each line that starts with the
    deletion marker is counted as deleted, each itemize record whose code
    holds the marker of a brand-new file as created, every other itemize
    record as modified; and the report that [compare] returns has
    [has_diff] set exactly when one of the three counts is not zero. *)
Theorem diff_counts_and_flag `{Oracle} (config : Config) (report_dir env1 env2 : string)
    (entry1 entry2 : EnvEntry.t) (out : ProcOutcome) (w : World) :
  config !! env1 = Some entry1 ->
  config !! env2 = Some entry2 ->
  let ctx1 := EnvContext.Build env1 entry1 in
  let ctx2 := EnvContext.Build env2 entry2 in
  spawn_outcome w (diff_args ctx1 ctx2) = inr out ->
  SafeSyncService.fatal (po_returncode out) = false ->
  let lines := PyStr.splitlines (po_stdout out) in
  exists details report w1 w2,
    _rsync_diff ctx1 ctx2 w
      = (inr (details, (spec_created lines, spec_modified lines, spec_deleted lines)), w1) /\
    compare config report_dir env1 env2 w = (inr report, w2) /\
    (DiffReport.has_diff report = true
       <-> spec_created lines <> 0 \/ spec_modified lines <> 0 \/ spec_deleted lines <> 0).
Proof.
  intros H1 H2 ctx1 ctx2 Hout Hfatal lines.
  destruct (classify_output_counts (po_stdout out)) as (Hc & Hm & Hd).
  fold lines in Hc, Hm, Hd.
  assert (Hdiff : exists details w1,
             _rsync_diff ctx1 ctx2 w
             = (inr (details, (spec_created lines, spec_modified lines, spec_deleted lines)), w1)).
  { unfold _rsync_diff.
    rewrite (bind_ok _ _ _ _ _ (subprocess_run_ok _ _ _ Hout)).
    cbn [CompletedProcess.returncode CompletedProcess.stdout CompletedProcess.stderr].
    rewrite Hfatal.
    unfold mret, St_ret. rewrite Hc, Hm, Hd. eauto. }
  destruct Hdiff as (details & w1 & Hdiff).
  exists details.
  unfold compare, _build_ctx. rewrite H1, H2.
  unfold mbind, St_bind, mret, St_ret, time_strftime, write_report.
  fold ctx1 ctx2. rewrite Hdiff.
  eexists _, w1, _. split; [reflexivity|]. split; [reflexivity|].
  cbn [DiffReport.has_diff]. apply any_positive_iff.
Qed.

End DiffSpec.

Lemma diff_counts_and_flag_witness :
  let ctx1 := EnvContext.Build "dev" Scenario.dev in
  let ctx2 := EnvContext.Build "prod" Scenario.prod in
  let lines := PyStr.splitlines Scenario.three_changes in
  exists details report w1 w2,
    DiffService._rsync_diff (H := Scenario.drifted) ctx1 ctx2 Scenario.empty_world
      = (inr (details, (DiffService.spec_created lines, DiffService.spec_modified lines,
                        DiffService.spec_deleted lines)), w1) /\
    DiffService.compare (H := Scenario.drifted) Scenario.two_envs "/home/u/.envsync/reports"
                        "dev" "prod" Scenario.empty_world = (inr report, w2) /\
    (DiffReport.has_diff report = true
       <-> DiffService.spec_created lines <> 0 \/ DiffService.spec_modified lines <> 0
           \/ DiffService.spec_deleted lines <> 0).
Proof.
  apply (DiffSpec.diff_counts_and_flag (H := Scenario.drifted) Scenario.two_envs
           "/home/u/.envsync/reports" "dev" "prod" Scenario.dev Scenario.prod
           {| po_returncode := 0; po_stdout := Scenario.three_changes; po_stderr := "";
              po_skipped := fun _ => false |} Scenario.empty_world).
  - vm_compute. reflexivity.
  - vm_compute. reflexivity.
  - reflexivity.
  - reflexivity.
Defined.

Example three_changes_counts :
  let t := DiffService.classify_output Scenario.three_changes in
  (DiffService.created t, DiffService.modified t, DiffService.deleted t) = (1, 1, 1).
Proof. vm_compute. reflexivity. Qed.

(** ** The secret manager *)
Module SecretSpec.
Import SecretManager.

Lemma prefix_app (p x : string) : String.prefix p (p +:+ x) = true.
Proof.
  induction p as [|a p IH]; simpl.
  - now destruct x.
  - destruct (ascii_dec a a); [exact IH|congruence].
Qed.

Lemma span_continuation_ascii (x : string) :
  forallb (fun c => (nat_of_ascii c <? 128)%nat) (list_ascii_of_string x) = true ->
  PyStr.span_continuation x = (EmptyString, x).
Proof.
  destruct x as [|c x]; [reflexivity|].
  cbn [list_ascii_of_string forallb PyStr.span_continuation].
  intros Hx. apply andb_true_iff in Hx as [Hc _].
  unfold PyStr.continuation.
  apply Nat.ltb_lt in Hc.
  destruct (128 <=? nat_of_ascii c)%nat eqn:E; [apply Nat.leb_le in E; lia|reflexivity].
Qed.

Lemma drop_step (n : nat) (c d : ascii) (s : string) :
  PyStr.continuation d = false ->
  PyStr.drop (S n) (String c (String d s)) = PyStr.drop n (String d s).
Proof. intros Hd. cbn [PyStr.drop PyStr.span_continuation]. now rewrite Hd. Qed.

Lemma drop_prefix (x : string) :
  forallb (fun c => (nat_of_ascii c <? 128)%nat) (list_ascii_of_string x) = true ->
  PyStr.drop (PyStr.len ENCRYPTED_PREFIX) (ENCRYPTED_PREFIX +:+ x) = x.
Proof.
  intros Hx.
  change (PyStr.len ENCRYPTED_PREFIX) with 7.
  unfold ENCRYPTED_PREFIX. cbv [String.append].
  rewrite !drop_step by reflexivity.
  cbn [PyStr.drop]. now rewrite span_continuation_ascii.
Qed.

Lemma ascii_utf8_valid (x : string) :
  forallb (fun c => (nat_of_ascii c <? 128)%nat) (list_ascii_of_string x) = true ->
  utf8_valid x = true.
Proof.
  induction x as [|c x IH]; [reflexivity|].
  cbn [list_ascii_of_string forallb utf8_valid].
  intros Hx. apply andb_true_iff in Hx as [Hc Hx]. rewrite Hc. now apply IH.
Qed.

Lemma encode_ascii (x : string) :
  forallb (fun c => (nat_of_ascii c <? 128)%nat) (list_ascii_of_string x) = true ->
  encode x = inr x.
Proof. intros Hx. unfold encode. now rewrite ascii_utf8_valid. Qed.

Section WithLaws.
Context `{CryptoLaws}.

Lemma key_ready (key_file : option string) :
  usable key_file ->
  exists k kf', _get_or_create_key key_file = (inr k, kf') /\
                fernet_key_ok k = true /\
                _get_or_create_key kf' = (inr k, kf').
Proof.
  destruct key_file as [k|]; cbn; intros Hk.
  - exists k, (Some k). auto.
  - exists derived_key, (Some derived_key). split; [reflexivity|].
    split; [apply derived_key_ok|reflexivity].
Qed.

Lemma is_encrypted_short (s : string) :
  PyStr.startswith s ENCRYPTED_PREFIX = false ->
  (PyStr.len s <= 50)%nat ->
  is_encrypted s = false.
Proof.
  intros Hp Hlen. unfold is_encrypted. rewrite Hp.
  destruct (String.eqb s ""); [reflexivity|].
  destruct (PyStr.startswith s "<" || PyStr.contains "://" (PyStr.take 10 s)); [reflexivity|].
  destruct (encode s) as [e|data]; [reflexivity|].
  destruct (b64decode data); [|reflexivity].
  destruct (50 <? PyStr.len s)%nat eqn:E; [apply Nat.ltb_lt in E; lia|reflexivity].
Qed.

(** C9, as amended.  With a usable key and a plaintext that UTF-8 encodes
    (one without a surrogate), decrypting what [encrypt] returns gives the
    plaintext back; what [encrypt] returns for a plaintext that is not
    empty is recognised by [is_encrypted]; a string of at most 50
    characters without the prefix is not. *)
Theorem secret_roundtrip (entropy p : string) (key_file : option string) :
  usable key_file ->
  utf8_valid p = true ->
  exists c kf,
    encrypt entropy p key_file = (inr c, kf) /\
    decrypt c kf = (inr p, kf) /\
    (p <> "" -> is_encrypted c = true) /\
    (forall s, PyStr.startswith s ENCRYPTED_PREFIX = false ->
               (PyStr.len s <= 50)%nat -> is_encrypted s = false).
Proof.
  intros Hk Hp.
  destruct (String.eqb_spec p "") as [->|Hne].
  - exists "", key_file. repeat split; try reflexivity.
    + congruence.
    + apply is_encrypted_short.
  - destruct (key_ready key_file Hk) as (k & kf & Hget & Hok & Hget').
    exists (ENCRYPTED_PREFIX +:+ b64encode (fernet_encrypt k entropy p)), kf.
    assert (Hnot : forall x, String.eqb (ENCRYPTED_PREFIX +:+ x) "" = false)
      by (intros x; reflexivity).
    split; [|split; [|split]].
    + unfold encrypt. apply String.eqb_neq in Hne. rewrite Hne.
      rewrite (bind_ok _ _ _ _ _ Hget). unfold Fernet. rewrite Hok.
      unfold mbind, St_bind, mret, St_ret, encode. now rewrite Hp.
    + unfold decrypt. rewrite Hnot.
      unfold PyStr.startswith. rewrite prefix_app.
      rewrite drop_prefix by apply b64_ascii.
      apply try_ok.
      rewrite (bind_ok _ _ _ _ _ Hget'). unfold Fernet. rewrite Hok.
      unfold mbind, St_bind, mret, St_ret.
      rewrite encode_ascii by apply b64_ascii.
      rewrite b64_roundtrip, fernet_roundtrip by exact Hok.
      unfold decode. now rewrite Hp.
    + intros _. unfold is_encrypted. rewrite Hnot.
      unfold PyStr.startswith. now rewrite prefix_app.
    + apply is_encrypted_short.
Qed.

(** A plaintext that holds a surrogate has no UTF-8 encoding: [encrypt]
    reads or makes the key, and then raises the UnicodeEncodeError of
    [plaintext.encode()]. *)
Lemma encrypt_unencodable_raises (entropy p : string) (key_file : option string) :
  usable key_file ->
  utf8_valid p = false ->
  exists kf,
    encrypt entropy p key_file = (inl (UnicodeEncodeError (encode_error p)), kf) /\
    is_Some kf.
Proof.
  intros Hk Hp.
  destruct (key_ready key_file Hk) as (k & kf & Hget & Hok & Hget').
  exists kf. split.
  - unfold encrypt.
    destruct (String.eqb_spec p "") as [->|Hne]; [discriminate Hp|].
    rewrite (bind_ok _ _ _ _ _ Hget). unfold Fernet. rewrite Hok.
    unfold mbind, St_bind, mret, St_ret, encode. now rewrite Hp.
  - destruct key_file; cbn in Hget; injection Hget as _ <-; eauto.
Qed.

End WithLaws.

Lemma two_letters_decode (c : ascii) (rest : string) (fuel : nat) :
  Scenario.letters_decode (S fuel) (Scenario.two_letters c +:+ rest)
  = String c <$> Scenario.letters_decode fuel rest.
Proof.
  destruct c as [[] [] [] [] [] [] [] []]; reflexivity.
Qed.

Lemma letters_roundtrip (b : string) (fuel : nat) :
  (String.length b <= fuel)%nat ->
  Scenario.letters_decode fuel (Scenario.letters_encode b) = Some b.
Proof.
  revert fuel. induction b as [|c b IH]; intros fuel Hf.
  - now destruct fuel.
  - change (String.length (String c b)) with (S (String.length b)) in Hf.
    destruct fuel as [|fuel]; [lia|].
    cbn [Scenario.letters_encode]. rewrite two_letters_decode.
    rewrite IH by lia. reflexivity.
Qed.

Lemma letters_length (b : string) :
  (String.length b <= String.length (Scenario.letters_encode b))%nat.
Proof.
  induction b as [|c b IH]; [cbn; lia|].
  unfold Scenario.letters_encode; fold Scenario.letters_encode.
  unfold Scenario.two_letters. cbv [String.append].
  change (String.length (String c b)) with (S (String.length b)).
  cbn [String.length]. lia.
Qed.

Lemma two_letters_ascii (c : ascii) :
  forallb (fun c => (nat_of_ascii c <? 128)%nat)
          (list_ascii_of_string (Scenario.two_letters c)) = true.
Proof. destruct c as [[] [] [] [] [] [] [] []]; reflexivity. Qed.

Lemma list_ascii_of_string_app (a b : string) :
  list_ascii_of_string (a +:+ b) = list_ascii_of_string a ++ list_ascii_of_string b.
Proof.
  induction a as [|c a IH]; [reflexivity|].
  change (String c a +:+ b) with (String c (a +:+ b)).
  cbn [list_ascii_of_string]. now rewrite IH.
Qed.

Lemma letters_encode_ascii (b : string) :
  forallb (fun c => (nat_of_ascii c <? 128)%nat)
          (list_ascii_of_string (Scenario.letters_encode b)) = true.
Proof.
  induction b as [|c b IH]; [reflexivity|].
  cbn [Scenario.letters_encode].
  rewrite list_ascii_of_string_app, forallb_app, IH, two_letters_ascii. reflexivity.
Qed.

Lemma toy_laws : @CryptoLaws Scenario.toy_lib.
Proof.
  split.
  - reflexivity.
  - intros b. cbn. apply letters_roundtrip, letters_length.
  - intros b. apply letters_encode_ascii.
  - reflexivity.
Qed.

Lemma secret_roundtrip_witness :
  exists c kf,
    encrypt (H := Scenario.toy_lib) "iv" "s3cret" None = (inr c, kf) /\
    decrypt (H := Scenario.toy_lib) c kf = (inr "s3cret", kf) /\
    ("s3cret" <> "" -> is_encrypted (H := Scenario.toy_lib) c = true) /\
    (forall s, PyStr.startswith s ENCRYPTED_PREFIX = false ->
               (PyStr.len s <= 50)%nat -> is_encrypted (H := Scenario.toy_lib) s = false).
Proof.
  apply (secret_roundtrip (H0 := toy_laws) "iv" "s3cret" None).
  - exact I.
  - reflexivity.
Defined.

(** The plaintext of one surrogate, U+D800: [encrypt] raises. *)
Example encrypt_lone_surrogate :
  exists kf,
    encrypt (H := Scenario.toy_lib) "iv" Scenario.lone_surrogate None
    = (inl (UnicodeEncodeError
              "'utf-8' codec can't encode character '\ud800' in position 0: surrogates not allowed"),
       kf).
Proof. eexists. vm_compute. reflexivity. Qed.

(** The empty plaintext is returned as it is, and the empty string is not
    recognised as encrypted. *)
Lemma encrypt_empty_not_recognised :
  exists c kf,
    encrypt (H := Scenario.toy_lib) "iv" "" None = (inr c, kf) /\
    is_encrypted (H := Scenario.toy_lib) c = false.
Proof. exists "", None. split; reflexivity. Qed.

End SecretSpec.

(** ** The order of timestamps *)

Lemma ltb_lt (a b : string) : String.ltb a b = true <-> String_as_OT.lt a b.
Proof.
  rewrite <- String_as_OT.cmp_lt. unfold String.ltb, String_as_OT.cmp.
  destruct (String.compare a b); split; congruence.
Qed.

Lemma ltb_trans (a b c : string) :
  String.ltb a b = true -> String.ltb b c = true -> String.ltb a c = true.
Proof. rewrite !ltb_lt. apply String_as_OT.lt_trans. Qed.

Lemma ltb_irrefl (a : string) : String.ltb a a = false.
Proof.
  destruct (String.ltb a a) eqn:E; [|reflexivity].
  apply ltb_lt in E. apply String_as_OT.lt_not_eq in E. now elim E.
Qed.

Lemma ltb_asym (a b : string) : String.ltb a b = true -> String.ltb b a = false.
Proof.
  intros Hab. destruct (String.ltb b a) eqn:Hba; [|reflexivity].
  pose proof (ltb_trans _ _ _ Hab Hba) as Haa. now rewrite ltb_irrefl in Haa.
Qed.

Lemma ltb_false (a b : string) : String.ltb a b = false -> a = b \/ String.ltb b a = true.
Proof.
  unfold String.ltb. rewrite (String.compare_antisym b a).
  destruct (String.compare a b) eqn:E; cbn; intros Hab; try discriminate; auto.
  left. now apply String.compare_eq_iff.
Qed.

Lemma not_ltb_trans (a b c : string) :
  String.ltb a b = false -> String.ltb b c = false -> String.ltb a c = false.
Proof.
  intros Hab Hbc. destruct (String.ltb a c) eqn:Hac; [|reflexivity].
  destruct (ltb_false _ _ Hab) as [->|Hba]; [congruence|].
  pose proof (ltb_trans _ _ _ Hba Hac). congruence.
Qed.

(** ** The checkpoint store *)
Module StoreSpec.
Import SafeSyncService.
Import Store.

Lemma insert_desc_perm (x : SyncCheckpoint.t) (l : list SyncCheckpoint.t) :
  Permutation (insert_desc x l) (x :: l).
Proof.
  induction l as [|y l IH]; cbn; [reflexivity|].
  destruct (String.ltb (key x) (key y)); [|reflexivity].
  rewrite IH. apply perm_swap.
Qed.

Lemma sort_desc_perm (l : list SyncCheckpoint.t) : Permutation (sort_desc l) l.
Proof.
  induction l as [|x l IH]; cbn; [reflexivity|].
  fold (sort_desc l). rewrite insert_desc_perm. now constructor.
Qed.

Lemma insert_desc_sorted (x : SyncCheckpoint.t) (l : list SyncCheckpoint.t) :
  StronglySorted newer_first l -> StronglySorted newer_first (insert_desc x l).
Proof.
  induction l as [|y l IH]; intros Hs; cbn.
  - repeat constructor.
  - apply StronglySorted_inv in Hs as [Hs Hy].
    destruct (String.ltb (key x) (key y)) eqn:E.
    + constructor; [now apply IH|].
      rewrite (Forall_forall (newer_first y)). intros z Hz.
      rewrite (insert_desc_perm x l) in Hz.
      apply elem_of_cons in Hz as [->|Hz].
      * now apply ltb_asym.
      * rewrite Forall_forall in Hy. now apply Hy.
    + constructor; [now constructor|].
      constructor; [exact E|].
      eapply Forall_impl; [exact Hy|].
      intros z Hz. eapply not_ltb_trans; eauto.
Qed.

Lemma sort_desc_sorted (l : list SyncCheckpoint.t) : StronglySorted newer_first (sort_desc l).
Proof.
  induction l as [|x l IH]; cbn; [constructor|].
  now apply insert_desc_sorted.
Qed.

Lemma list_checkpoints_unfold (self : t) (env : string) (w : World) :
  list_checkpoints self env w
  = match sorted_by_timestamp (loaded env w) with
    | inl e => (inl e, w)
    | inr l => (inr l, w)
    end.
Proof.
  unfold list_checkpoints, glob_checkpoint_files, mbind, St_bind, loaded.
  now destruct (sorted_by_timestamp _).
Qed.

Lemma sorted_by_timestamp_ok (l : list SyncCheckpoint.t) :
  (List.length l <= 1)%nat \/ Forall (fun cp => is_Some (SyncCheckpoint.timestamp cp)) l ->
  exists l', sorted_by_timestamp l = inr l' /\
             Permutation l' l /\ StronglySorted newer_first l'.
Proof.
  intros Hl. destruct l as [|a [|b l]].
  - exists []. repeat constructor.
  - exists [a]. repeat constructor.
  - destruct Hl as [Hl|Hl]; [cbn in Hl; lia|].
    exists (sort_desc (a :: b :: l)). split; [|split].
    + unfold sorted_by_timestamp.
      replace (forallb _ (a :: b :: l)) with true; [reflexivity|].
      symmetry. apply forallb_forall. intros cp Hcp.
      rewrite Forall_forall in Hl. apply bool_decide_eq_true, Hl.
      now apply list_elem_of_In.
    + apply sort_desc_perm.
    + apply sort_desc_sorted.
Qed.

(** A file is passed over when it holds no JSON object, an object with a
    key that is no field of the record, or an object without one of the
    three required fields. *)
Lemma load_checkpoint_raises (f : MetaFile) :
  (exists e, load_checkpoint f = inl e) <->
  match f with
  | NotAnObject => True
  | Document d =>
      doc_other_keys d <> [] \/ doc_timestamp d = None \/
      doc_env_name d = None \/ doc_backup_path d = None
  end.
Proof.
  destruct f as [|d]; cbn; [split; eauto|].
  destruct (doc_other_keys d) as [|k ks]; [|split; [left; congruence|eauto]].
  destruct (doc_timestamp d) as [ts|]; [|split; [tauto|eauto]].
  destruct (doc_env_name d) as [en|]; [|split; [tauto|eauto]].
  destruct (doc_backup_path d) as [bp|]; [|split; [tauto|eauto]].
  split; [intros [e He]; discriminate|].
  intros [?|[?|[?|?]]]; congruence.
Qed.

Lemma elem_of_loaded (env : string) (w : World) (cp : SyncCheckpoint.t) :
  cp ∈ loaded env w <->
  exists name f, (name, f) ∈ checkpoint_files w /\
                 PyStr.wildcard ("checkpoint-" +:+ env +:+ "-*.json") name = true /\
                 load_checkpoint f = inr cp.
Proof.
  unfold loaded, load_all. rewrite list_elem_of_omap. split.
  - intros ([name f] & Hin & Hload).
    apply list_elem_of_In, filter_In in Hin as [Hin Hm].
    exists name, f. split; [now apply list_elem_of_In|]. split; [exact Hm|].
    cbn in Hload. destruct (load_checkpoint f); congruence.
  - intros (name & f & Hin & Hm & Hload).
    exists (name, f). split.
    + apply list_elem_of_In, filter_In. split; [now apply list_elem_of_In|exact Hm].
    + cbn. now rewrite Hload.
Qed.

(** The listing returns when the sort has nothing to compare or only
    strings to compare. *)
Lemma list_checkpoints_returns (self : t) (env : string) (w : World) :
  (List.length (loaded env w) <= 1)%nat
  \/ Forall (fun cp => is_Some (SyncCheckpoint.timestamp cp)) (loaded env w) ->
  exists l,
    list_checkpoints self env w = (inr l, w) /\
    Permutation l (loaded env w) /\
    StronglySorted newer_first l.
Proof.
  intros Hl. destruct (sorted_by_timestamp_ok _ Hl) as (l & Hs & Hp & Hsorted).
  exists l. now rewrite list_checkpoints_unfold, Hs.
Qed.

(** C10, as amended.  When at most one record of the environment loads,
    or every record that loads has a string for timestamp, the listing
    does not raise and leaves the world as it is; it returns the records
    that load, each once, the files that raise being passed over, sorted
    by timestamp, latest first. *)
Theorem list_checkpoints_skips_and_sorts (self : t) (env : string) (w : World) :
  (List.length (loaded env w) <= 1)%nat
  \/ Forall (fun cp => is_Some (SyncCheckpoint.timestamp cp)) (loaded env w) ->
  exists l,
    list_checkpoints self env w = (inr l, w) /\
    Permutation l (loaded env w) /\
    StronglySorted newer_first l /\
    (forall cp, cp ∈ l <->
       exists name f, (name, f) ∈ checkpoint_files w /\
                      PyStr.wildcard ("checkpoint-" +:+ env +:+ "-*.json") name = true /\
                      load_checkpoint f = inr cp).
Proof.
  intros Hl. destruct (list_checkpoints_returns self env w Hl) as (l & Hrun & Hp & Hsorted).
  exists l. repeat split; auto.
  - intros Hcp. apply elem_of_loaded. now rewrite <- Hp.
  - intros Hcp. rewrite Hp. now apply elem_of_loaded.
Qed.

Lemma list_checkpoints_skips_and_sorts_witness :
  List.length (List.filter (listed "prod") (checkpoint_files Scenario.mixed_store)) = 4 /\
  List.map SyncCheckpoint.timestamp (loaded "prod" Scenario.mixed_store)
  = [Some "20240101-120000"; Some "20240102-120000"] /\
  exists l,
    list_checkpoints Scenario.service "prod" Scenario.mixed_store
      = (inr l, Scenario.mixed_store) /\
    List.map SyncCheckpoint.timestamp l = [Some "20240102-120000"; Some "20240101-120000"] /\
    Permutation l (loaded "prod" Scenario.mixed_store) /\
    StronglySorted newer_first l /\
    (forall cp, cp ∈ l <->
       exists name f, (name, f) ∈ checkpoint_files Scenario.mixed_store /\
                      PyStr.wildcard ("checkpoint-" +:+ "prod" +:+ "-*.json") name = true /\
                      load_checkpoint f = inr cp).
Proof.
  split; [vm_compute; reflexivity|].
  split; [vm_compute; reflexivity|].
  destruct (list_checkpoints_skips_and_sorts Scenario.service "prod" Scenario.mixed_store)
    as (l & Hrun & Hperm & Hsorted & Hmember).
  - right. vm_compute. repeat (constructor; [eexists; reflexivity|]). constructor.
  - exists l. split; [exact Hrun|]. split; [|auto].
    pose proof Hrun as Hl. vm_compute in Hl. injection Hl as <-. reflexivity.
Defined.

Example two_records_listed :
  Forall (fun cp => is_Some (SyncCheckpoint.timestamp cp)) (loaded "app" Scenario.two_checkpoints)
  /\ List.length (loaded "app" Scenario.two_checkpoints) = 2.
Proof.
  split; [|vm_compute; reflexivity].
  vm_compute. repeat (constructor; [eexists; reflexivity|]). constructor.
Qed.

(** Two records without a timestamp: both load, and the sort raises. *)
Lemma list_checkpoints_raises_on_null_timestamps :
  exists msg,
    list_checkpoints Scenario.service "prod" Scenario.edited_store
    = (inl (TypeError msg), Scenario.edited_store).
Proof. eexists. vm_compute. reflexivity. Qed.

(** C6, on two environments of which one is named as the other with a
    suffix.  Each got one checkpoint from [_create_checkpoint].  The
    listing of app holds two records, the older being the one of
    app-staging; [cleanup_checkpoints] with [keep = 1] removes the backup
    directory of app-staging and no metadata file, and the listing of app
    still holds two records. *)
Theorem cleanup_overlapping_names :
  let w := Scenario.two_checkpoints in
  let foreign := "/home/u/.envsync/checkpoints/backup-app-staging-20240101-100000" in
  exists before after w',
    list_checkpoints Scenario.app_service "app" w = (inr before, w) /\
    List.map SyncCheckpoint.env_name before = [Some "app"; Some "app-staging"] /\
    cleanup_checkpoints Scenario.app_service "app" 1 w = (inr tt, w') /\
    list_checkpoints Scenario.app_service "app" w' = (inr after, w') /\
    List.length after = 2 /\
    Nat.min 1 (List.length before) = 1 /\
    checkpoint_files w' = checkpoint_files w /\
    is_Some (trees w !! foreign) /\
    trees w' !! foreign = None.
Proof.
  eexists _, _, _.
  split; [vm_compute; reflexivity|].
  split; [vm_compute; reflexivity|].
  split; [vm_compute; reflexivity|].
  split; [vm_compute; reflexivity|].
  split; [vm_compute; reflexivity|].
  split; [vm_compute; reflexivity|].
  split; [vm_compute; reflexivity|].
  split; [vm_compute; eexists; reflexivity|].
  vm_compute; reflexivity.
Qed.

End StoreSpec.

(** ** The structure scanner *)
Module ScannerSpec.
Import ProjectScanner.
Import Markers.

Lemma markers_of_known (kind : string) : incl (markers_of kind) known_markers.
Proof.
  unfold markers_of.
  destruct (List.find _ PROJECT_MARKERS) as [km|] eqn:E; [|intros x []].
  apply find_some in E as [Hin _].
  intros m Hm. apply in_flat_map. eauto.
Qed.

Section Detection.
Context `{Oracle}.
Variable ctx : EnvContext.t.
Variable full_path : string.

Let host := EnvEntry.host (EnvContext.entry ctx).
Let user := EnvEntry.user (EnvContext.entry ctx).

Variable present : string -> bool.
Hypothesis Hpresent : answers_markers ctx full_path present.

Lemma marker_found_spec (marker : string) (w : World) :
  In marker known_markers ->
  marker_found ctx full_path marker w
  = (inr (present marker), record_event (Ran host user (marker_test full_path marker)) w).
Proof.
  intros Hin. destruct (Hpresent w marker Hin) as (r & Hr & Hfound).
  unfold marker_found, SSHClientWrapper.client_run, SSHClientWrapper.run.
  unfold mbind, St_bind, shell. fold (marker_test full_path marker).
  unfold host, user. rewrite Hr. unfold mret, St_ret. now rewrite Hfound.
Qed.

Lemma any_marker_spec (markers : list string) (w : World) :
  incl markers known_markers ->
  exists w', any_marker ctx full_path markers w = (inr (existsb present markers), w').
Proof.
  revert w. induction markers as [|m markers IH]; intros w Hincl.
  - exists w. reflexivity.
  - cbn [any_marker existsb].
    rewrite (bind_ok _ _ _ _ _ (marker_found_spec m w (Hincl m (or_introl eq_refl)))).
    destruct (present m); [eexists; reflexivity|].
    apply IH. intros x Hx. apply Hincl. now right.
Qed.

Lemma detect_kind_spec (kinds : list (string * list string)) (w : World) :
  incl (flat_map snd kinds) known_markers ->
  exists w',
    detect_kind ctx full_path kinds w
    = (inr (fst <$> List.find (fun km => existsb present km.2) kinds), w').
Proof.
  revert w. induction kinds as [|[kind markers] kinds IH]; intros w Hincl.
  - exists w. reflexivity.
  - cbn [detect_kind List.find].
    cbn [flat_map snd] in Hincl.
    destruct (any_marker_spec markers w) as (w1 & Hany).
    { intros x Hx. apply Hincl, in_or_app. now left. }
    rewrite (bind_ok _ _ _ _ _ Hany). cbn [snd].
    destruct (existsb present markers); [eexists; reflexivity|].
    apply IH. intros x Hx. apply Hincl, in_or_app. now right.
Qed.

Lemma present_markers_total (markers : list string) (w : World) :
  incl markers known_markers ->
  exists found w', present_markers ctx full_path markers w = (inr found, w').
Proof.
  revert w. induction markers as [|m markers IH]; intros w Hincl.
  - exists [], w. reflexivity.
  - cbn [present_markers].
    rewrite (bind_ok _ _ _ _ _ (marker_found_spec m w (Hincl m (or_introl eq_refl)))).
    destruct (IH (record_event (Ran host user (marker_test full_path m)) w)) as (found & w' & Hrest).
    { intros x Hx. apply Hincl. now right. }
    rewrite (bind_ok _ _ _ _ _ Hrest). eexists _, _. reflexivity.
Qed.

End Detection.

Lemma classify_subdirs_keep (ctx : EnvContext.t) (full_path : string) (lines : list string) :
  forall acc,
    let r := List.fold_left (fun acc line => classify_subdir ctx full_path line acc) lines acc in
    ProjectComponent.path r.1 = ProjectComponent.path acc.1 /\
    ProjectComponent.type r.1 = ProjectComponent.type acc.1 /\
    ProjectStructure.components r.2 = ProjectStructure.components acc.2.
Proof.
  induction lines as [|line lines IH]; intros acc; [cbn; auto|].
  cbn [List.fold_left]. cbn zeta.
  destruct (IH (classify_subdir ctx full_path line acc)) as (Hp & Ht & Hc).
  rewrite Hp, Ht, Hc. clear.
  unfold classify_subdir. destruct acc as [component structure].
  destruct (String.eqb line "" || String.eqb line full_path); [auto|].
  destruct (_is_non_code_dir (PyStr.path_name line)); cbn; auto.
Qed.

Section FirstKind.
Context `{Oracle}.

(** C8.  In a directory the scan reaches, with [present] telling which
    marker files are there, the kinds are tried in the order python,
    node, go, rust, java, ruby, php; the first kind that has a marker
    present gives the one component recorded for the directory, whatever
    the other kinds have; and the scan of the directory is the same as
    with no level left below it: nothing below is visited. *)
Theorem first_kind_wins (ctx : EnvContext.t) (rel_path : string)
    (structure : ProjectStructure.t) (levels : nat) (w : World)
    (present : string -> bool) (listing : CommandResult.t)
    (kind : string) (markers : list string) :
  let host := EnvEntry.host (EnvContext.entry ctx) in
  let user := EnvEntry.user (EnvContext.entry ctx) in
  let full_path := full_path_of ctx rel_path in
  shell_outcome w host user ("ls -la " +:+ full_path +:+ " 2>/dev/null | head -100")
    = inr listing ->
  CommandResult.code listing = 0%Z ->
  answers_markers ctx full_path present ->
  (forall w', exists r,
      shell_outcome w' host user
        ("find " +:+ full_path +:+ " -maxdepth 2 -type d 2>/dev/null | head -50") = inr r) ->
  List.find (fun km => existsb present km.2) PROJECT_MARKERS = Some (kind, markers) ->
  List.map fst PROJECT_MARKERS = ["python"; "node"; "go"; "rust"; "java"; "ruby"; "php"] /\
  exists component structure' w',
    scan_levels (S levels) ctx rel_path structure w = (inr structure', w') /\
    ProjectStructure.components structure'
      = ProjectStructure.components structure ++ [component] /\
    ProjectComponent.type component = kind /\
    ProjectComponent.path component = rel_path /\
    scan_levels 1 ctx rel_path structure w = (inr structure', w').
Proof.
  intros host user full_path Hls Hcode Hpresent Hfind Hfirst.
  split; [reflexivity|].
  set (w1 := record_event
               (Ran host user ("ls -la " +:+ full_path +:+ " 2>/dev/null | head -100")) w).
  assert (Hrun : SSHClientWrapper.client_run ctx
                   ("ls -la " +:+ full_path +:+ " 2>/dev/null | head -100") None w
                 = (inr listing, w1)).
  { unfold SSHClientWrapper.client_run, SSHClientWrapper.run, shell.
    fold host user. now rewrite Hls. }
  destruct (detect_kind_spec ctx full_path present Hpresent PROJECT_MARKERS w1) as (w2 & Hkind);
    [apply incl_refl|].
  rewrite Hfirst in Hkind. cbn [fmap option_fmap option_map fst] in Hkind.
  destruct (present_markers_total ctx full_path present Hpresent (markers_of kind) w2)
    as (found & w3 & Hfound); [apply markers_of_known|].
  destruct (Hfind w3) as (r & Hr).
  set (component0 := ProjectComponent.Build rel_path kind found [] []).
  set (result :=
         if (CommandResult.code r =? 0)%Z
         then List.fold_left (fun acc line => classify_subdir ctx full_path line acc)
                (PyStr.splitlines (PyStr.strip_ws (CommandResult.stdout r)))
                (component0, structure)
         else (component0, structure)).
  assert (Hkeep : ProjectComponent.path result.1 = rel_path /\
                  ProjectComponent.type result.1 = kind /\
                  ProjectStructure.components result.2 = ProjectStructure.components structure).
  { unfold result. destruct (CommandResult.code r =? 0)%Z; [|cbn; auto].
    apply (classify_subdirs_keep ctx full_path _ (component0, structure)). }
  destruct Hkeep as (Hp & Ht & Hc).
  set (structure1 := if String.eqb rel_path "" then result.2 else add_code rel_path result.2).
  assert (Hanalyze :
            _analyze_component ctx rel_path kind structure w2
            = (inr (result.1, structure1),
               record_event
                 (Ran host user
                    ("find " +:+ full_path +:+ " -maxdepth 2 -type d 2>/dev/null | head -50"))
                 w3)).
  { unfold _analyze_component. fold full_path.
    rewrite (bind_ok _ _ _ _ _ Hfound).
    unfold SSHClientWrapper.client_run, SSHClientWrapper.run, shell, mbind, St_bind.
    fold host user. rewrite Hr. fold component0. fold result.
    unfold structure1. destruct result as [c s]. reflexivity. }
  assert (Hscan : forall n,
             scan_levels (S n) ctx rel_path structure w
             = (inr (append_component result.1 structure1),
                record_event
                  (Ran host user
                     ("find " +:+ full_path +:+ " -maxdepth 2 -type d 2>/dev/null | head -50"))
                  w3)).
  { intros n. cbn [scan_levels]. fold full_path.
    rewrite (bind_ok _ _ _ _ _ Hrun). rewrite Hcode. cbn [Z.eqb negb].
    rewrite (bind_ok _ _ _ _ _ Hkind).
    rewrite (bind_ok _ _ _ _ _ Hanalyze). reflexivity. }
  exists result.1, (append_component result.1 structure1).
  eexists.
  split; [apply Hscan|]. split; [|split; [exact Ht|split; [exact Hp|apply Hscan]]].
  cbn [append_component ProjectStructure.components]. f_equal.
  unfold structure1. destruct (String.eqb rel_path ""); [exact Hc|exact Hc].
Qed.

End FirstKind.
End ScannerSpec.

Lemma first_kind_wins_witness :
  List.map fst ProjectScanner.PROJECT_MARKERS
    = ["python"; "node"; "go"; "rust"; "java"; "ruby"; "php"] /\
  exists component structure' w',
    ProjectScanner.scan_levels (H := Scenario.polyglot) 6
      (EnvContext.Build "dev" Scenario.dev) ""
      (ProjectStructure.Build "/srv/dev" "dev" [] ∅ ∅ "") Scenario.empty_world
      = (inr structure', w') /\
    ProjectStructure.components structure' = [] ++ [component] /\
    ProjectComponent.type component = "node" /\
    ProjectComponent.path component = "" /\
    ProjectScanner.scan_levels (H := Scenario.polyglot) 1
      (EnvContext.Build "dev" Scenario.dev) ""
      (ProjectStructure.Build "/srv/dev" "dev" [] ∅ ∅ "") Scenario.empty_world
      = (inr structure', w').
Proof.
  apply (ScannerSpec.first_kind_wins (H := Scenario.polyglot)
           (EnvContext.Build "dev" Scenario.dev) ""
           (ProjectStructure.Build "/srv/dev" "dev" [] ∅ ∅ "") 5 Scenario.empty_world
           Scenario.polyglot_present (CommandResult.Build 0 "total 0" "")
           "node" ["package.json"; "package-lock.json"; "yarn.lock"; "pnpm-lock.yaml"]).
  - reflexivity.
  - reflexivity.
  - intros w marker Hin.
    repeat (destruct Hin as [<-|Hin]; [eexists; split; reflexivity|]).
    destruct Hin.
  - intros w'. eexists. reflexivity.
  - reflexivity.
Defined.

(** ** Computations that only ask *)

Lemma only_asks_refl (w : World) : only_asks w w.
Proof.
  repeat split. exists []. split; [now rewrite app_nil_r|constructor].
Qed.

Lemma only_asks_trans (w1 w2 w3 : World) :
  only_asks w1 w2 -> only_asks w2 w3 -> only_asks w1 w3.
Proof.
  intros (Ht & Hc & Hr & evs & Hl & He) (Ht' & Hc' & Hr' & evs' & Hl' & He').
  repeat split; try congruence.
  exists (evs ++ evs'). split.
  - now rewrite Hl', Hl, app_assoc.
  - now apply Forall_app.
Qed.

Create HintDb asks.

Lemma asks_ret {A : Type} (x : A) : Asks (mret x).
Proof. intros w r w' E. injection E as _ <-. apply only_asks_refl. Qed.

Lemma asks_raise {A : Type} (e : exn) : Asks (raise (A := A) e).
Proof. intros w r w' E. injection E as _ <-. apply only_asks_refl. Qed.

Lemma asks_bind {A B : Type} (m : M A) (f : A -> M B) :
  Asks m -> (forall x, Asks (f x)) -> Asks (m ≫= f).
Proof.
  intros Hm Hf w r w' E. unfold mbind, St_bind in E.
  destruct (m w) as [[e|x] w1] eqn:Em.
  - injection E as _ <-. eapply Hm, Em.
  - eapply only_asks_trans; [eapply Hm, Em|eapply Hf, E].
Qed.

Lemma asks_fmap {A B : Type} (m : M A) (f : A -> B) : Asks m -> Asks (f <$> m).
Proof.
  intros Hm w r w' E. unfold fmap, St_fmap in E.
  destruct (m w) as [[e|x] w1] eqn:Em; injection E as _ <-; eapply Hm, Em.
Qed.

Lemma asks_try {A : Type} (m : M A) (h : exn -> M A) :
  Asks m -> (forall e, Asks (h e)) -> Asks (try_except m h).
Proof.
  intros Hm Hh w r w' E. unfold try_except in E.
  destruct (m w) as [[e|x] w1] eqn:Em.
  - eapply only_asks_trans; [eapply Hm, Em|eapply Hh, E].
  - injection E as _ <-. eapply Hm, Em.
Qed.

Lemma asks_for_each {A T : Type} (l : list A) (body : A -> T -> M T) :
  (forall x s, Asks (body x s)) -> forall s, Asks (for_each l body s).
Proof.
  intros Hb. induction l as [|x l IH]; intros s; cbn [for_each].
  - apply asks_ret.
  - apply asks_bind; [apply Hb|apply IH].
Qed.

Lemma asks_shell `{Oracle} (host user : option string) (command : string) :
  Asks (shell host user command).
Proof.
  intros w r w' E. unfold shell in E. injection E as _ <-.
  repeat split. exists [Ran host user command]. split; [reflexivity|].
  repeat constructor. unfold asked. eauto.
Qed.

Lemma asks_time `{Oracle} (format : string) : Asks (time_strftime format).
Proof. intros w r w' E. injection E as _ <-. apply only_asks_refl. Qed.

#[global] Hint Resolve asks_ret asks_raise asks_shell asks_time : asks.

(** Case analysis on whatever a computation branches on. *)
Ltac asks_step :=
  match goal with
  | |- Asks (mret _) => apply asks_ret
  | |- Asks (raise _) => apply asks_raise
  | |- Asks (_ ≫= _) => apply asks_bind; [|intros]
  | |- Asks (_ <$> _) => apply asks_fmap
  | |- Asks (try_except _ _) => apply asks_try; [|intros]
  | |- Asks (for_each _ _ _) => apply asks_for_each; intros
  | |- Asks (if ?b then _ else _) => destruct b
  | |- Asks (match ?x with _ => _ end) => destruct x
  | |- Asks (let '(_, _) := ?x in _) => destruct x
  | |- Asks _ => solve [eauto with asks]
  end.

Ltac asks := repeat asks_step.

Section AsksGit.
Context `{Oracle}.

Lemma asks_client_run (ctx : EnvContext.t) (command : string) (cwd : option string) :
  Asks (SSHClientWrapper.client_run ctx command cwd).
Proof. unfold SSHClientWrapper.client_run, SSHClientWrapper.run. apply asks_shell. Qed.

Lemma asks_check_ok (res : CommandResult.t) (context : string) :
  Asks (SSHClientWrapper.check_ok res context).
Proof. unfold SSHClientWrapper.check_ok. asks. Qed.

Hint Resolve asks_client_run asks_check_ok : asks.

Lemma asks_git (ctx : EnvContext.t) (args : string) : Asks (GitRepo._git ctx args).
Proof. unfold GitRepo._git. asks. Qed.

Hint Resolve asks_git : asks.

Lemma asks_ensure_repo (ctx : EnvContext.t) : Asks (GitRepo.ensure_repo ctx).
Proof. unfold GitRepo.ensure_repo. asks. Qed.

Lemma asks_current_branch (ctx : EnvContext.t) : Asks (GitRepo.current_branch ctx).
Proof. unfold GitRepo.current_branch. asks. Qed.

Lemma asks_head_commit (ctx : EnvContext.t) : Asks (GitRepo.head_commit ctx).
Proof. unfold GitRepo.head_commit. asks. Qed.

Lemma asks_upstream (ctx : EnvContext.t) : Asks (GitRepo.upstream ctx).
Proof. unfold GitRepo.upstream. asks. Qed.

Hint Resolve asks_ensure_repo asks_current_branch asks_head_commit asks_upstream : asks.

Lemma asks_ahead_behind (ctx : EnvContext.t) : Asks (GitRepo.ahead_behind ctx).
Proof. unfold GitRepo.ahead_behind. asks. Qed.

Hint Resolve asks_ahead_behind : asks.

Lemma asks_status (ctx : EnvContext.t) : Asks (GitRepo.status ctx).
Proof. unfold GitRepo.status. asks. Qed.

End AsksGit.

#[global] Hint Resolve asks_client_run asks_check_ok asks_git asks_ensure_repo
  asks_head_commit asks_status : asks.

Section AsksScan.
Context `{Oracle}.

Lemma asks_marker_found (ctx : EnvContext.t) (full_path marker : string) :
  Asks (ProjectScanner.marker_found ctx full_path marker).
Proof. unfold ProjectScanner.marker_found. asks. Qed.

Hint Resolve asks_marker_found : asks.

Lemma asks_any_marker (ctx : EnvContext.t) (full_path : string) (markers : list string) :
  Asks (ProjectScanner.any_marker ctx full_path markers).
Proof.
  induction markers as [|m markers IH]; cbn [ProjectScanner.any_marker]; asks.
Qed.

Hint Resolve asks_any_marker : asks.

Lemma asks_detect_kind (ctx : EnvContext.t) (full_path : string)
    (kinds : list (string * list string)) :
  Asks (ProjectScanner.detect_kind ctx full_path kinds).
Proof.
  induction kinds as [|[kind markers] kinds IH]; cbn [ProjectScanner.detect_kind]; asks.
Qed.

Lemma asks_present_markers (ctx : EnvContext.t) (full_path : string) (markers : list string) :
  Asks (ProjectScanner.present_markers ctx full_path markers).
Proof.
  induction markers as [|m markers IH]; cbn [ProjectScanner.present_markers]; asks.
Qed.

Hint Resolve asks_detect_kind asks_present_markers : asks.

Lemma asks_analyze_component (ctx : EnvContext.t) (rel_path proj_type : string)
    (structure : ProjectStructure.t) :
  Asks (ProjectScanner._analyze_component ctx rel_path proj_type structure).
Proof. unfold ProjectScanner._analyze_component. asks. Qed.

Hint Resolve asks_analyze_component : asks.

Lemma asks_scan_levels (levels : nat) :
  forall (ctx : EnvContext.t) (rel_path : string) (structure : ProjectStructure.t),
    Asks (ProjectScanner.scan_levels levels ctx rel_path structure).
Proof.
  induction levels as [|levels IH]; intros ctx rel_path structure;
    cbn [ProjectScanner.scan_levels]; asks.
Qed.

Lemma asks_load_cache (env : string) : Asks (ProjectScanner._load_cache env).
Proof. intros w r w' E. injection E as _ <-. apply only_asks_refl. Qed.

Lemma asks_save_cache (env : string) (structure : ProjectStructure.t) :
  Asks (ProjectScanner._save_cache env structure).
Proof.
  intros w r w' E. injection E as _ <-.
  repeat split. exists []. split; [now rewrite app_nil_r|constructor].
Qed.

Hint Resolve asks_scan_levels asks_load_cache asks_save_cache : asks.

Lemma asks_scan_fresh (ctx : EnvContext.t) (env : string) :
  Asks (ProjectScanner.scan_fresh ctx env).
Proof.
  unfold ProjectScanner.scan_fresh, ProjectScanner._scan_directory. asks.
Qed.

Hint Resolve asks_scan_fresh : asks.

Lemma asks_scan (config : Config) (env : string) (force : bool) :
  Asks (ProjectScanner.scan config env force).
Proof. unfold ProjectScanner.scan, ProjectScanner._ctx. asks. Qed.

Hint Resolve asks_scan : asks.

Lemma asks_scan_step (self : SafeSyncService.t) (source : string) (code_only : bool)
    (components : option (list string)) :
  Asks (SafeSyncService.scan_step self source code_only components).
Proof. unfold SafeSyncService.scan_step. asks. Qed.

End AsksScan.

(** ** The sync orchestrator *)
Module SyncSpec.
Import SafeSyncService.

Lemma log_rsync_effect `{Oracle} (args : list string) (out : ProcOutcome) (w : World) :
  log (rsync_effect args out w) = log w.
Proof.
  unfold rsync_effect. destruct (Rsync.parse args) as [rq|]; [|reflexivity].
  now destruct (Rsync.dry_run rq).
Qed.

Lemma checkpoint_files_rsync_effect `{Oracle} (args : list string) (out : ProcOutcome) (w : World) :
  checkpoint_files (rsync_effect args out w) = checkpoint_files w.
Proof.
  unfold rsync_effect. destruct (Rsync.parse args) as [rq|]; [|reflexivity].
  now destruct (Rsync.dry_run rq).
Qed.

Section Sync.
Context `{Oracle}.

Lemma ctx_ok (self : t) (env : string) (entry : EnvEntry.t) (w : World) :
  config self !! env = Some entry ->
  _ctx self env w = (inr (EnvContext.Build env entry), w).
Proof. intros E. unfold _ctx. now rewrite E. Qed.

Lemma ctx_unknown (self : t) (env : string) (w : World) :
  config self !! env = None ->
  _ctx self env w = (inl (ValueError ("环境未配置: " +:+ env)), w).
Proof. intros E. unfold _ctx. now rewrite E. Qed.

Lemma auto_commit_returns (ctx : EnvContext.t) (message : string) (w : World) :
  exists w', _auto_commit ctx message w = (inr tt, w').
Proof.
  unfold _auto_commit, try_except.
  match goal with |- context [match ?m w with _ => _ end] => destruct (m w) as [[e|[]] w1] end;
    eexists; reflexivity.
Qed.

(** C3.  The scan and the dirty check went through, the checkpoint [cp]
    was made, and the transfer started next exits with a code other than
    0 and 23.  Then [sync] returns a failed result with an error message
    that carries [cp], and the world it leaves is the world as the
    transfer left it: the transfer is the last command started, nothing
    is restored. *)
Theorem fatal_transfer_keeps_checkpoint
    (self : t) (source target : string) (strat : strategy)
    (verify auto_commit code_only : bool) (components : option (list string))
    (entry_src entry_dst : EnvEntry.t) (extra_excludes synced_components : list string)
    (cp : SyncCheckpoint.t) (out : ProcOutcome) (w0 w1 w2 w3 : World) :
  config self !! source = Some entry_src ->
  config self !! target = Some entry_dst ->
  let ctx_src := EnvContext.Build source entry_src in
  let ctx_dst := EnvContext.Build target entry_dst in
  let args := transfer_args ctx_src ctx_dst
                (match strat with safe => true | force => false end) extra_excludes in
  scan_step self source code_only components w0 = (inr (extra_excludes, synced_components), w1) ->
  dirty_step strat ctx_dst w1 = (inr tt, w2) ->
  _create_checkpoint self ctx_dst w2 = (inr cp, w3) ->
  spawn_outcome w3 args = inr out ->
  fatal (po_returncode out) = true ->
  exists msg w4,
    sync self source target strat true verify auto_commit code_only components w0
    = (inr (SyncResult.Build false source target (Some cp) 0 0 false false [] (Some msg)), w4) /\
    w4 = record_event (Spawned args) (rsync_effect args out w3) /\
    log w4 = log w3 ++ [Spawned args].
Proof.
  intros Hsrc Hdst ctx_src ctx_dst args Hscan Hdirty Hcp Hout Hfatal.
  assert (Hdo : _do_sync ctx_src ctx_dst (match strat with safe => true | force => false end)
                  extra_excludes w3
                = (inl (RuntimeError ("rsync 同步失败: " +:+
                                      match po_stderr out with
                                      | EmptyString => po_stdout out
                                      | err => err
                                      end)),
                   record_event (Spawned args) (rsync_effect args out w3))).
  { unfold _do_sync. fold args.
    rewrite (bind_ok _ _ _ _ _ (subprocess_run_ok _ _ _ Hout)).
    cbn [CompletedProcess.returncode CompletedProcess.stdout CompletedProcess.stderr].
    now rewrite Hfatal. }
  eexists _, _. split; [|split; [reflexivity|]].
  - unfold sync.
    rewrite (bind_ok _ _ _ _ _ (ctx_ok _ _ _ _ Hsrc)).
    rewrite (bind_ok _ _ _ _ _ (ctx_ok _ _ _ _ Hdst)).
    fold ctx_src ctx_dst.
    apply try_ok.
    rewrite (bind_ok _ _ _ _ _ Hscan).
    rewrite (bind_ok _ _ _ _ _ Hdirty).
    assert (Hstep : checkpoint_step self true ctx_dst w2 = (inr (Some cp), w3)).
    { unfold checkpoint_step, fmap, St_fmap. now rewrite Hcp. }
    rewrite (bind_ok _ _ _ _ _ Hstep).
    erewrite try_raise.
    2:{ unfold transfer_steps. apply bind_raise. exact Hdo. }
    reflexivity.
  - cbn [log record_event]. now rewrite log_rsync_effect.
Qed.

(** C4.  The steps up to the transfer went through, the transfer exits
    with 0 or 23, and the verification pass prints a line that is neither
    blank nor the header.  Then [sync], asked to verify, returns a result
    with [verified = false] and [success = true]. *)
Theorem verification_mismatch_is_not_failure
    (self : t) (source target : string) (strat : strategy)
    (backup auto_commit code_only : bool) (components : option (list string))
    (entry_src entry_dst : EnvEntry.t) (extra_excludes synced_components : list string)
    (checkpoint : option SyncCheckpoint.t) (out vout : ProcOutcome) (ln : string)
    (w0 w1 w2 w3 : World) :
  config self !! source = Some entry_src ->
  config self !! target = Some entry_dst ->
  let ctx_src := EnvContext.Build source entry_src in
  let ctx_dst := EnvContext.Build target entry_dst in
  let args := transfer_args ctx_src ctx_dst
                (match strat with safe => true | force => false end) extra_excludes in
  scan_step self source code_only components w0 = (inr (extra_excludes, synced_components), w1) ->
  dirty_step strat ctx_dst w1 = (inr tt, w2) ->
  checkpoint_step self backup ctx_dst w2 = (inr checkpoint, w3) ->
  spawn_outcome w3 args = inr out ->
  fatal (po_returncode out) = false ->
  let w4 := record_event (Spawned args) (rsync_effect args out w3) in
  spawn_outcome w4 (verify_args ctx_src ctx_dst extra_excludes) = inr vout ->
  In ln (PyStr.splitlines (po_stdout vout)) ->
  diff_line ln = true ->
  exists result w5,
    sync self source target strat backup true auto_commit code_only components w0
    = (inr result, w5) /\
    SyncResult.success result = true /\
    SyncResult.verified result = false /\
    SyncResult.error result = None /\
    SyncResult.checkpoint result = checkpoint.
Proof.
  intros Hsrc Hdst ctx_src ctx_dst args Hscan Hdirty Hcp Hout Hfatal w4 Hvout Hin Hline.
  set (lines := PyStr.splitlines (po_stdout out)).
  assert (Hdo : _do_sync ctx_src ctx_dst (match strat with safe => true | force => false end)
                  extra_excludes w3
                = (inr (count_synced lines, count_deleted lines), w4)).
  { unfold _do_sync. fold args.
    rewrite (bind_ok _ _ _ _ _ (subprocess_run_ok _ _ _ Hout)).
    cbn [CompletedProcess.returncode CompletedProcess.stdout CompletedProcess.stderr].
    now rewrite Hfatal. }
  set (vargs := verify_args ctx_src ctx_dst extra_excludes) in *.
  assert (Hverify : _verify_sync ctx_src ctx_dst extra_excludes w4
                    = (inr false, record_event (Spawned vargs) (rsync_effect vargs vout w4))).
  { unfold _verify_sync. fold vargs.
    rewrite (bind_ok _ _ _ _ _ (subprocess_run_ok _ _ _ Hvout)).
    cbn [CompletedProcess.returncode CompletedProcess.stdout CompletedProcess.stderr].
    destruct (fatal (po_returncode vout)); [reflexivity|].
    unfold mret, St_ret. do 2 f_equal.
    apply Nat.eqb_neq. intros Hlen.
    apply length_zero_iff_nil in Hlen.
    assert (Hln : In ln (List.filter diff_line (PyStr.splitlines (po_stdout vout))))
      by (apply filter_In; auto).
    rewrite Hlen in Hln. destruct Hln. }
  destruct (auto_commit_returns ctx_dst ("Synced from " +:+ source)
              (record_event (Spawned vargs) (rsync_effect vargs vout w4))) as (w5 & Hcommit).
  assert (Hsteps : exists w6,
             transfer_steps source target strat true auto_commit code_only ctx_src ctx_dst
                            extra_excludes synced_components checkpoint w3
             = (inr (SyncResult.Build true source target checkpoint
                       (count_synced lines) (count_deleted lines) false code_only
                       synced_components None), w6)).
  { unfold transfer_steps.
    rewrite (bind_ok _ _ _ _ _ Hdo).
    rewrite (bind_ok _ _ _ _ _ Hverify).
    destruct auto_commit.
    - rewrite (bind_ok _ _ _ _ _ Hcommit). eexists. reflexivity.
    - eexists. reflexivity. }
  destruct Hsteps as (w6 & Hsteps).
  eexists _, w6. split.
  - unfold sync.
    rewrite (bind_ok _ _ _ _ _ (ctx_ok _ _ _ _ Hsrc)).
    rewrite (bind_ok _ _ _ _ _ (ctx_ok _ _ _ _ Hdst)).
    fold ctx_src ctx_dst.
    apply try_ok.
    rewrite (bind_ok _ _ _ _ _ Hscan).
    rewrite (bind_ok _ _ _ _ _ Hdirty).
    rewrite (bind_ok _ _ _ _ _ Hcp).
    apply try_ok. exact Hsteps.
  - cbn. auto.
Qed.

Lemma check_clean_target_dirty (ctx : EnvContext.t) (status : GitStatus.t) (w1 w2 w3 : World) :
  GitRepo.ensure_repo ctx w1 = (inr tt, w2) ->
  GitRepo.status ctx w2 = (inr status, w3) ->
  GitStatus.dirty status = true ->
  _check_clean_target ctx w1
  = (inl (RuntimeError ("目标 " +:+ EnvContext.display ctx +:+ " 有未提交变更，请先处理：" +:+
                        PyStr.newline +:+
                        PyStr.join PyStr.newline (firstn 10 (GitStatus.short_status status)))),
     w3).
Proof.
  intros Hrepo Hstatus Hdirty. unfold _check_clean_target.
  erewrite try_raise.
  2:{ rewrite (bind_ok _ _ _ _ _ Hrepo). rewrite (bind_ok _ _ _ _ _ Hstatus).
      rewrite Hdirty. reflexivity. }
  reflexivity.
Qed.

(** C1, as amended.  Both environments are configured, the structure
    scan (if asked for) went through, the target is a git repository and
    its status reports uncommitted changes.  Then [sync] with the safe
    strategy returns a failed result whose error is the dirty-target
    message with the first ten status lines; the result carries no
    checkpoint; no transfer was spawned, and the directories and the
    checkpoint directory are as before. *)
Theorem dirty_target_aborts
    (self : t) (source target : string)
    (backup verify auto_commit code_only : bool) (components : option (list string))
    (entry_src entry_dst : EnvEntry.t) (extra_excludes synced_components : list string)
    (status : GitStatus.t) (w0 w1 w2 w3 : World) :
  config self !! source = Some entry_src ->
  config self !! target = Some entry_dst ->
  let ctx_dst := EnvContext.Build target entry_dst in
  scan_step self source code_only components w0 = (inr (extra_excludes, synced_components), w1) ->
  GitRepo.ensure_repo ctx_dst w1 = (inr tt, w2) ->
  GitRepo.status ctx_dst w2 = (inr status, w3) ->
  GitStatus.dirty status = true ->
  let msg := "目标 " +:+ EnvContext.display ctx_dst +:+ " 有未提交变更，请先处理：" +:+
             PyStr.newline +:+
             PyStr.join PyStr.newline (firstn 10 (GitStatus.short_status status)) in
  sync self source target safe backup verify auto_commit code_only components w0
    = (inr (SyncResult.Build false source target None 0 0 false false [] (Some msg)), w3) /\
  trees w3 = trees w0 /\
  checkpoint_files w3 = checkpoint_files w0 /\
  (forall args, In (Spawned args) (log w3) -> In (Spawned args) (log w0)).
Proof.
  intros Hsrc Hdst ctx_dst Hscan Hrepo Hstatus Hdirty msg.
  split.
  - unfold sync.
    rewrite (bind_ok _ _ _ _ _ (ctx_ok _ _ _ _ Hsrc)).
    rewrite (bind_ok _ _ _ _ _ (ctx_ok _ _ _ _ Hdst)).
    fold ctx_dst.
    erewrite try_raise.
    2:{ rewrite (bind_ok _ _ _ _ _ Hscan).
        apply bind_raise. cbn [dirty_step].
        exact (check_clean_target_dirty _ _ _ _ _ Hrepo Hstatus Hdirty). }
    reflexivity.
  - assert (Hasks : only_asks w0 w3).
    { eapply only_asks_trans; [eapply asks_scan_step, Hscan|].
      eapply only_asks_trans; [eapply asks_ensure_repo, Hrepo|].
      eapply asks_status, Hstatus. }
    destruct Hasks as (Ht & Hc & _ & evs & Hl & Hevs).
    repeat split; auto.
    intros args Hin. rewrite Hl in Hin. apply in_app_or in Hin as [Hin|Hin]; [exact Hin|].
    rewrite Forall_forall in Hevs.
    destruct (Hevs _ (proj2 (list_elem_of_In _ _) Hin)) as (h & u & c & Hev). discriminate.
Qed.

(** Around C1: what [sync] does when a step before the dirty test does
    not go through. *)

(** The structure scan raises: a failed result with the error of the scan. *)
Lemma sync_scan_raises
    (self : t) (source target : string) (strat : strategy)
    (backup verify auto_commit code_only : bool) (components : option (list string))
    (entry_src entry_dst : EnvEntry.t) (e : exn) (w0 w1 : World) :
  config self !! source = Some entry_src ->
  config self !! target = Some entry_dst ->
  scan_step self source code_only components w0 = (inl e, w1) ->
  sync self source target strat backup verify auto_commit code_only components w0
  = (inr (failed source target None e), w1).
Proof.
  intros Hsrc Hdst Hscan. unfold sync.
  rewrite (bind_ok _ _ _ _ _ (ctx_ok _ _ _ _ Hsrc)).
  rewrite (bind_ok _ _ _ _ _ (ctx_ok _ _ _ _ Hdst)).
  erewrite try_raise; [reflexivity|].
  apply bind_raise. exact Hscan.
Qed.

(** A query of git raises a [RuntimeError], as it does when the target is
    no git repository: [_check_clean_target] raises it again. *)
Lemma check_clean_target_reraises (ctx : EnvContext.t) (msg : string) (w1 w2 : World) :
  GitRepo.ensure_repo ctx w1 = (inl (RuntimeError msg), w2) ->
  _check_clean_target ctx w1 = (inl (RuntimeError msg), w2).
Proof.
  intros Hrepo. unfold _check_clean_target.
  erewrite try_raise; [|apply bind_raise; exact Hrepo].
  reflexivity.
Qed.

(** With the safe strategy, a target that is no git repository stops
    [sync] before the checkpoint: [ensure_repo] raises a [RuntimeError],
    [_check_clean_target] raises it again, and [sync] returns a failed
    result that carries this error and no checkpoint. *)
Lemma sync_target_without_git
    (self : t) (source target : string)
    (backup verify auto_commit code_only : bool) (components : option (list string))
    (entry_src entry_dst : EnvEntry.t) (extra_excludes synced_components : list string)
    (msg : string) (w0 w1 w2 : World) :
  config self !! source = Some entry_src ->
  config self !! target = Some entry_dst ->
  scan_step self source code_only components w0 = (inr (extra_excludes, synced_components), w1) ->
  GitRepo.ensure_repo (EnvContext.Build target entry_dst) w1 = (inl (RuntimeError msg), w2) ->
  sync self source target safe backup verify auto_commit code_only components w0
  = (inr (failed source target None (RuntimeError msg)), w2).
Proof.
  intros Hsrc Hdst Hscan Hrepo. unfold sync.
  rewrite (bind_ok _ _ _ _ _ (ctx_ok _ _ _ _ Hsrc)).
  rewrite (bind_ok _ _ _ _ _ (ctx_ok _ _ _ _ Hdst)).
  erewrite try_raise; [reflexivity|].
  rewrite (bind_ok _ _ _ _ _ Hscan).
  apply bind_raise. cbn [dirty_step].
  now apply check_clean_target_reraises.
Qed.

(** Any other exception of the queries is passed over: the dirty test is
    skipped. *)
Lemma check_clean_target_skips (ctx : EnvContext.t) (e : exn) (w1 w2 : World) :
  GitRepo.ensure_repo ctx w1 = (inl e, w2) ->
  is_RuntimeError e = false ->
  _check_clean_target ctx w1 = (inr tt, w2).
Proof.
  intros Hrepo He. unfold _check_clean_target.
  erewrite try_raise; [|apply bind_raise; exact Hrepo].
  now rewrite He.
Qed.

End Sync.

Lemma dirty_target_aborts_witness :
  exists msg w3,
    sync (H := Scenario.dirty_target) Scenario.service "dev" "prod" safe true true false false None
         Scenario.dev_prod_files
      = (inr (SyncResult.Build false "dev" "prod" None 0 0 false false [] (Some msg)), w3) /\
    trees w3 = trees Scenario.dev_prod_files /\
    checkpoint_files w3 = checkpoint_files Scenario.dev_prod_files /\
    (forall args, In (Spawned args) (log w3) -> In (Spawned args) (log Scenario.dev_prod_files)).
Proof.
  eexists _, _.
  eapply (dirty_target_aborts (H := Scenario.dirty_target) Scenario.service "dev" "prod"
            true true false false None Scenario.dev Scenario.prod [] []).
  - reflexivity.
  - reflexivity.
  - reflexivity.
  - vm_compute. reflexivity.
  - vm_compute. reflexivity.
  - reflexivity.
Defined.

(** The source is not configured: [sync] raises, although the status of
    the target reports uncommitted changes. *)
Lemma sync_unknown_source_raises :
  (exists status w,
      GitRepo.status (H := Scenario.dirty_target) (EnvContext.Build "prod" Scenario.prod)
                     Scenario.dev_prod_files = (inr status, w) /\
      GitStatus.dirty status = true) /\
  sync (H := Scenario.dirty_target) Scenario.service "qa" "prod" safe true true false false None
       Scenario.dev_prod_files
  = (inl (ValueError "环境未配置: qa"), Scenario.dev_prod_files).
Proof.
  split; [|reflexivity].
  eexists _, _. split; vm_compute; reflexivity.
Qed.

Lemma fatal_transfer_keeps_checkpoint_witness :
  let args := transfer_args Scenario.dev_ctx Scenario.prod_ctx true [] in
  exists msg w4,
    sync (H := Scenario.broken_link) Scenario.service "dev" "prod" safe true true false false None
         Scenario.dev_prod_files
      = (inr (SyncResult.Build false "dev" "prod" (Some Scenario.noon_checkpoint)
                0 0 false false [] (Some msg)), w4) /\
    w4 = record_event (Spawned args)
           (rsync_effect (H := Scenario.broken_link) args Scenario.connection_closed
              Scenario.before_broken_transfer) /\
    log w4 = log Scenario.before_broken_transfer ++ [Spawned args].
Proof.
  apply (fatal_transfer_keeps_checkpoint (H := Scenario.broken_link) Scenario.service
            "dev" "prod" safe true false false None Scenario.dev Scenario.prod [] []
            Scenario.noon_checkpoint Scenario.connection_closed
            Scenario.dev_prod_files Scenario.dev_prod_files
            (dirty_step (H := Scenario.broken_link) safe Scenario.prod_ctx
               Scenario.dev_prod_files).2
            Scenario.before_broken_transfer).
  - reflexivity.
  - reflexivity.
  - reflexivity.
  - vm_compute. reflexivity.
  - vm_compute. reflexivity.
  - vm_compute. reflexivity.
  - reflexivity.
Defined.

Lemma verification_mismatch_is_not_failure_witness :
  exists result w5,
    sync (H := Scenario.unfaithful) Scenario.service "dev" "prod" safe true true false false None
         Scenario.dev_prod_files = (inr result, w5) /\
    SyncResult.success result = true /\
    SyncResult.verified result = false /\
    SyncResult.error result = None /\
    SyncResult.checkpoint result
      = Some (SyncCheckpoint.Build (Some "20240101-120000") (Some "prod")
                (Some "/home/u/.envsync/checkpoints/backup-prod-20240101-120000")
                (Some "4f2a9c1") []).
Proof.
  eapply (verification_mismatch_is_not_failure (H := Scenario.unfaithful) Scenario.service
            "dev" "prod" safe true false false None Scenario.dev Scenario.prod [] [] _
            {| po_returncode := 0;
               po_stdout := ">f+++++++++ app/main.py" +:+ PyStr.newline;
               po_stderr := ""; po_skipped := fun _ => false |}
            {| po_returncode := 0;
               po_stdout := ">f.st...... app/main.py" +:+ PyStr.newline;
               po_stderr := ""; po_skipped := fun _ => false |}
            ">f.st...... app/main.py").
  - reflexivity.
  - reflexivity.
  - reflexivity.
  - vm_compute. reflexivity.
  - vm_compute. reflexivity.
  - reflexivity.
  - reflexivity.
  - reflexivity.
  - vm_compute. left. reflexivity.
  - reflexivity.
Defined.

End SyncSpec.

(** ** Rollback *)
Module RollbackSpec.
Import SafeSyncService.
Import Store.
Import StoreSpec.

Lemma find_checkpoint_unfold (self : t) (env : string) (checkpoint_id : option string)
    (l : list SyncCheckpoint.t) (w : World) :
  list_checkpoints self env w = (inr l, w) ->
  _find_checkpoint self env checkpoint_id w = (inr (resolve l checkpoint_id), w).
Proof.
  intros Hl. unfold _find_checkpoint. rewrite (bind_ok _ _ _ _ _ Hl).
  destruct l as [|latest l]; [reflexivity|].
  destruct checkpoint_id; reflexivity.
Qed.

Lemma resolve_unknown (l : list SyncCheckpoint.t) (id : string) :
  (forall cp, In cp l -> SyncCheckpoint.timestamp cp <> Some id) ->
  resolve l (Some id) = None.
Proof.
  intros Hno. destruct l as [|latest l]; [reflexivity|].
  cbn [resolve].
  destruct (List.find _ (latest :: l)) as [cp|] eqn:E; [|reflexivity].
  apply find_some in E as [Hin Hts].
  apply bool_decide_eq_true in Hts. now apply Hno in Hin.
Qed.

Section Rollback.
Context `{Oracle}.

Lemma swallow_returns (m : M unit) (w : World) :
  exists w', try_except m (fun _ => mret tt) w = (inr tt, w').
Proof.
  unfold try_except. destruct (m w) as [[e|[]] w1]; eexists; reflexivity.
Qed.

(** The restore of a checkpoint whose backup path is a string: the
    [try] block of [rollback]. *)
Lemma restore_outcome (self : t) (ctx : EnvContext.t) (cp : SyncCheckpoint.t)
    (backup : string) (w : World) :
  SyncCheckpoint.backup_path cp = Some backup ->
  let args := restore_args (PyStr.rstrip "/" backup +:+ "/") (EnvContext.rsync_spec ctx) in
  exists b w',
    try_except
      (backup_spec ← match SyncCheckpoint.backup_path cp with
                     | Some p => mret (PyStr.rstrip "/" p +:+ "/")
                     | None => raise (AttributeError
                                 "'NoneType' object has no attribute 'rstrip'")
                     end;
       let target_spec := EnvContext.rsync_spec ctx in
       proc ← subprocess_run (restore_args backup_spec target_spec);
       if fatal (CompletedProcess.returncode proc)
       then raise (RuntimeError ("rsync 恢复失败: " +:+ CompletedProcess.stderr proc))
       else
         _ ← match SyncCheckpoint.git_commit cp with
             | None | Some EmptyString => mret tt
             | Some commit =>
                 try_except (GitRepo.reset_hard ctx commit) (fun _ => mret tt)
             end;
         mret true)
      (fun _ => mret false) w = (inr b, w') /\
    match spawn_outcome w args with
    | inl _ => b = false
    | inr out => b = negb (fatal (po_returncode out))
    end.
Proof.
  intros Hpath args. rewrite Hpath.
  unfold try_except at 1.
  rewrite bind_ret_l. cbn zeta. fold args.
  destruct (spawn_outcome w args) as [e|out] eqn:Hout.
  - rewrite (bind_raise _ _ _ _ _ (subprocess_run_raise _ _ _ Hout)).
    eexists _, _. split; reflexivity.
  - rewrite (bind_ok _ _ _ _ _ (subprocess_run_ok _ _ _ Hout)).
    cbn [CompletedProcess.returncode CompletedProcess.stdout CompletedProcess.stderr].
    destruct (fatal (po_returncode out)).
    + eexists _, _. split; reflexivity.
    + set (w1 := record_event (Spawned args) (rsync_effect args out w)).
      assert (Hgit : exists w2,
                 match SyncCheckpoint.git_commit cp with
                 | None | Some EmptyString => mret tt
                 | Some commit =>
                     try_except (GitRepo.reset_hard ctx commit) (fun _ => mret tt)
                 end w1 = (inr tt, w2)).
      { destruct (SyncCheckpoint.git_commit cp) as [[|c commit]|].
        - eexists; reflexivity.
        - apply swallow_returns.
        - eexists; reflexivity. }
      destruct Hgit as (w2 & Hgit).
      rewrite (bind_ok _ _ _ _ _ Hgit).
      eexists _, _. split; reflexivity.
Qed.

(** C5, as amended.  For a configured target, and a checkpoint directory
    whose listing does not raise, [rollback] returns a boolean.  It is
    [false] when the listing is empty and when no record has the
    identifier asked for.  When a checkpoint resolves, the boolean is
    [false] if its backup path is not a string, if the restore cannot be
    started or exits with a code other than 0 and 23, and [true] in every
    other case, whatever the hard reset to the captured revision does. *)
Theorem rollback_returns_boolean (self : t) (target : string) (checkpoint_id : option string)
    (entry : EnvEntry.t) (w : World) :
  config self !! target = Some entry ->
  (List.length (loaded target w) <= 1)%nat
  \/ Forall (fun cp => is_Some (SyncCheckpoint.timestamp cp)) (loaded target w) ->
  let ctx := EnvContext.Build target entry in
  exists l b w',
    list_checkpoints self target w = (inr l, w) /\
    rollback self target checkpoint_id w = (inr b, w') /\
    (l = [] -> b = false) /\
    (forall id, checkpoint_id = Some id ->
       (forall cp, In cp l -> SyncCheckpoint.timestamp cp <> Some id) -> b = false) /\
    (forall cp, resolve l checkpoint_id = Some cp ->
       match SyncCheckpoint.backup_path cp with
       | None => b = false
       | Some backup =>
           match spawn_outcome w (restore_args (PyStr.rstrip "/" backup +:+ "/")
                                               (EnvContext.rsync_spec ctx)) with
           | inl _ => b = false
           | inr out => b = negb (fatal (po_returncode out))
           end
       end).
Proof.
  intros Hcfg Hstore ctx.
  destruct (list_checkpoints_returns self target w Hstore) as (l & Hl & _).
  pose proof (find_checkpoint_unfold self target checkpoint_id l w Hl) as Hfind.
  exists l.
  unfold rollback.
  rewrite (bind_ok _ _ _ _ _ (SyncSpec.ctx_ok _ _ _ _ Hcfg)).
  rewrite (bind_ok _ _ _ _ _ Hfind). fold ctx.
  destruct (resolve l checkpoint_id) as [cp|] eqn:Hres.
  - destruct (SyncCheckpoint.backup_path cp) as [backup|] eqn:Hpath.
    + destruct (restore_outcome self ctx cp backup w Hpath) as (b & w' & Hrun & Hb).
      rewrite Hpath in Hrun.
      exists b, w'. split; [exact Hl|]. split; [exact Hrun|].
      split; [intros ->; discriminate|]. split.
      * intros id -> Hno. rewrite (resolve_unknown l id Hno) in Hres. discriminate.
      * intros cp' [= <-]. rewrite Hpath. exact Hb.
    + exists false, w. split; [exact Hl|]. split.
      * reflexivity.
      * split; [reflexivity|]. split; [reflexivity|].
        intros cp' [= <-]. now rewrite Hpath.
  - exists false, w. repeat split; try reflexivity; try exact Hl.
    intros cp [=].
Qed.

End Rollback.

(** The target is not configured: [rollback] raises. *)
Lemma rollback_unknown_target_raises :
  rollback (H := Scenario.calm) Scenario.service "qa" None Scenario.empty_world
  = (inl (ValueError "环境未配置: qa"), Scenario.empty_world).
Proof. reflexivity. Qed.

Lemma rollback_returns_boolean_witness :
  let ctx := Scenario.prod_ctx in
  let w := Scenario.before_broken_transfer in
  exists l b w',
    list_checkpoints Scenario.service "prod" w = (inr l, w) /\
    rollback (H := Scenario.reset_refused) Scenario.service "prod" None w = (inr b, w') /\
    (l = [] -> b = false) /\
    (forall id, None = Some id ->
       (forall cp, In cp l -> SyncCheckpoint.timestamp cp <> Some id) -> b = false) /\
    (forall cp, resolve l None = Some cp ->
       match SyncCheckpoint.backup_path cp with
       | None => b = false
       | Some backup =>
           match spawn_outcome (Oracle := Scenario.reset_refused) w
                   (restore_args (PyStr.rstrip "/" backup +:+ "/")
                                 (EnvContext.rsync_spec ctx)) with
           | inl _ => b = false
           | inr out => b = negb (fatal (po_returncode out))
           end
       end).
Proof.
  apply (rollback_returns_boolean (H := Scenario.reset_refused) Scenario.service "prod" None
           Scenario.prod Scenario.before_broken_transfer).
  - reflexivity.
  - left. vm_compute. lia.
Defined.

(** The restore succeeds and the hard reset is refused: the rollback
    reports success. *)
Example rollback_despite_refused_reset :
  exists w',
    rollback (H := Scenario.reset_refused) Scenario.service "prod" None
             Scenario.before_broken_transfer = (inr true, w') /\
    In (Ran None None "git -C /srv/prod reset --hard 4f2a9c1") (log w').
Proof. eexists. split; [vm_compute; reflexivity|]. vm_compute. tauto. Qed.

End RollbackSpec.

(** ** The checkpoint round trip *)
Module RoundTripSpec.
Import SafeSyncService.
Import Store.
Import StoreSpec.
Import RollbackSpec.

(** *** Strings *)

Lemma rstrip_app (c : ascii) (s : string) :
  PyStr.rstrip c (s +:+ String c EmptyString) = PyStr.rstrip c s.
Proof.
  induction s as [|a s IH].
  - change (EmptyString +:+ String c EmptyString) with (String c EmptyString).
    cbn [PyStr.rstrip]. now rewrite Ascii.eqb_refl.
  - change (String a s +:+ String c EmptyString) with (String a (s +:+ String c EmptyString)).
    cbn [PyStr.rstrip]. now rewrite IH.
Qed.

Lemma rstrip_idem (c : ascii) (s : string) :
  PyStr.rstrip c (PyStr.rstrip c s) = PyStr.rstrip c s.
Proof.
  induction s as [|a s IH]; [reflexivity|].
  cbn [PyStr.rstrip].
  destruct (PyStr.rstrip c s) as [|b r] eqn:E.
  - destruct (Ascii.eqb a c) eqn:Ea; [reflexivity|].
    cbn [PyStr.rstrip]. now rewrite Ea.
  - cbn [PyStr.rstrip] in *. now rewrite IH.
Qed.

Lemma address_dir (dir : string) : address (dir +:+ "/") = address dir.
Proof. apply rstrip_app. Qed.

Lemma address_backup_spec (dir : string) : address (PyStr.rstrip "/" dir +:+ "/") = address dir.
Proof. unfold address. now rewrite rstrip_app, rstrip_idem. Qed.

Lemma address_idem (spec : string) : address (address spec) = address spec.
Proof. apply rstrip_idem. Qed.

Lemma wildcard_star (pat s : string) :
  PyStr.wildcard (String "*" pat) s
  = PyStr.wildcard pat s ||
    match s with
    | EmptyString => false
    | String c s' => negb (Ascii.eqb c "/") && PyStr.wildcard (String "*" pat) s'
    end.
Proof. destruct s; reflexivity. Qed.

Lemma wildcard_refl (a : string) : PyStr.wildcard a a = true.
Proof.
  induction a as [|c a IH]; [reflexivity|].
  destruct (Ascii.eqb c "*") eqn:Estar.
  - apply Ascii.eqb_eq in Estar as ->. rewrite wildcard_star.
    cbn [Ascii.eqb Bool.eqb negb andb]. rewrite wildcard_star, IH. apply orb_true_r.
  - cbn [PyStr.wildcard]. rewrite Estar.
    destruct (Ascii.eqb c "?") eqn:Eq.
    + apply Ascii.eqb_eq in Eq as ->. exact IH.
    + now rewrite Ascii.eqb_refl.
Qed.

Lemma wildcard_app_same (a pat s : string) :
  PyStr.wildcard pat s = true -> PyStr.wildcard (a +:+ pat) (a +:+ s) = true.
Proof.
  intros Hm. induction a as [|c a IH]; [exact Hm|].
  change (String c a +:+ pat) with (String c (a +:+ pat)).
  change (String c a +:+ s) with (String c (a +:+ s)).
  destruct (Ascii.eqb c "*") eqn:Estar.
  - apply Ascii.eqb_eq in Estar as ->. rewrite wildcard_star.
    cbn [Ascii.eqb Bool.eqb negb andb]. rewrite wildcard_star, IH. apply orb_true_r.
  - cbn [PyStr.wildcard]. rewrite Estar.
    destruct (Ascii.eqb c "?") eqn:Eq.
    + apply Ascii.eqb_eq in Eq as ->. exact IH.
    + now rewrite Ascii.eqb_refl.
Qed.

Lemma wildcard_star_suffix (t suffix : string) :
  PyStr.contains "/" t = false ->
  PyStr.wildcard (String "*" suffix) (t +:+ suffix) = true.
Proof.
  induction t as [|c t IH]; intros Hno.
  - change (EmptyString +:+ suffix) with suffix.
    rewrite wildcard_star, wildcard_refl. reflexivity.
  - change (String c t +:+ suffix) with (String c (t +:+ suffix)).
    rewrite wildcard_star.
    cbn [PyStr.contains] in Hno. apply orb_false_iff in Hno as [Hc Ht].
    rewrite (IH Ht).
    assert (Hne : Ascii.eqb c "/" = false).
    { destruct (Ascii.eqb c "/") eqn:E; [|reflexivity].
      apply Ascii.eqb_eq in E as ->. destruct t; discriminate Hc. }
    rewrite Hne. apply orb_true_r.
Qed.

Lemma app_assoc_string (a b c : string) : (a +:+ b) +:+ c = a +:+ (b +:+ c).
Proof.
  induction a as [|x a IH]; [reflexivity|].
  change (String x a +:+ b) with (String x (a +:+ b)).
  change (String x (a +:+ b) +:+ c) with (String x ((a +:+ b) +:+ c)).
  change (String x a +:+ (b +:+ c)) with (String x (a +:+ (b +:+ c))).
  now rewrite IH.
Qed.

(** The metadata file of a checkpoint is one of those its environment lists. *)
Lemma checkpoint_name_listed (env ts : string) :
  PyStr.contains "/" ts = false ->
  PyStr.wildcard ("checkpoint-" +:+ env +:+ "-*.json") (checkpoint_name env ts) = true.
Proof.
  intros Hno. unfold checkpoint_name.
  replace ("checkpoint-" +:+ env +:+ "-*.json")
    with (("checkpoint-" +:+ env +:+ "-") +:+ "*.json")
    by (rewrite !app_assoc_string; reflexivity).
  replace ("checkpoint-" +:+ env +:+ "-" +:+ ts +:+ ".json")
    with (("checkpoint-" +:+ env +:+ "-") +:+ (ts +:+ ".json"))
    by (rewrite !app_assoc_string; reflexivity).
  apply wildcard_app_same, wildcard_star_suffix, Hno.
Qed.

(** *** The transfer *)

Lemma mirror_lookup (leave : string -> bool) (del : bool) (s d : Tree) (p : string) :
  Rsync.mirror leave del s d !! p
  = if leave p then d !! p
    else match s !! p with
         | Some c => Some c
         | None => if del then None else d !! p
         end.
Proof.
  unfold Rsync.mirror. rewrite lookup_union, !map_lookup_filter.
  destruct (s !! p) as [c|], (d !! p) as [c'|], (leave p) eqn:El, del; cbn;
    repeat case_guard; cbn in *; try reflexivity; try congruence;
    try (exfalso; intuition congruence).
Qed.

Lemma parse_backup_args (ctx : EnvContext.t) (backup_dir : string) :
  Rsync.parse (backup_args ctx backup_dir)
  = Some {| Rsync.dry_run := false; Rsync.checksum := false;
            Rsync.delete := false; Rsync.gitignore_filter := false;
            Rsync.excludes := RsyncConfig.standard_patterns;
            Rsync.src := EnvContext.rsync_spec ctx;
            Rsync.dst := backup_dir +:+ "/" |}.
Proof. reflexivity. Qed.

Lemma parse_restore_args (backup_spec target_spec : string) :
  Rsync.parse (restore_args backup_spec target_spec)
  = Some {| Rsync.dry_run := false; Rsync.checksum := false;
            Rsync.delete := true; Rsync.gitignore_filter := false;
            Rsync.excludes := RsyncConfig.standard_patterns;
            Rsync.src := backup_spec;
            Rsync.dst := target_spec |}.
Proof. reflexivity. Qed.

Lemma put_file_elem (name : string) (c : MetaFile) (l : list (string * MetaFile))
    (f : string * MetaFile) :
  f ∈ put_file name c l -> f = (name, c) \/ f ∈ l.
Proof.
  induction l as [|g l IH]; cbn [put_file].
  - intros Hf. apply list_elem_of_singleton in Hf. now left.
  - destruct (String.eqb g.1 name).
    + intros Hf. apply elem_of_cons in Hf as [->|Hf]; [now left|].
      right. now apply elem_of_cons; right.
    + intros Hf. apply elem_of_cons in Hf as [->|Hf].
      * right. now apply elem_of_cons; left.
      * destruct (IH Hf) as [->|Hl]; [now left|].
        right. now apply elem_of_cons; right.
Qed.

Lemma put_file_new (name : string) (c : MetaFile) (l : list (string * MetaFile)) :
  (name, c) ∈ put_file name c l.
Proof.
  induction l as [|g l IH]; cbn [put_file].
  - now apply list_elem_of_singleton.
  - destruct (String.eqb g.1 name); apply elem_of_cons; [now left|now right].
Qed.

Lemma load_to_dict (cp : SyncCheckpoint.t) : load_checkpoint (Document (to_dict cp)) = inr cp.
Proof. now destruct cp. Qed.

Lemma find_unique {A : Type} (P : A -> bool) (l : list A) (x : A) :
  In x l -> P x = true -> (forall y, In y l -> P y = true -> y = x) ->
  List.find P l = Some x.
Proof.
  intros Hin Hx Huniq.
  destruct (List.find P l) as [y|] eqn:E.
  - apply find_some in E as [Hy HPy]. f_equal. now apply Huniq.
  - now rewrite (find_none _ _ E x Hin) in Hx.
Qed.

Section RoundTrip.
Context `{Oracle}.

(** The quick check passes over no file of a destination that is empty. *)
Lemma quick_check_new_destination (w : World) (rq : Rsync.request) (p : string) :
  tree_at w (Rsync.dst rq) = ∅ ->
  quick_check_skips w rq p = false.
Proof.
  intros Hdst. unfold quick_check_skips, same_size_and_time. rewrite Hdst, lookup_empty.
  destruct (negb (Rsync.checksum rq)); [|reflexivity].
  now destruct (tree_at w (Rsync.src rq) !! p).
Qed.

Lemma capture_revision (ctx : EnvContext.t) (w : World) :
  exists gc w',
    try_except
      (_ ← GitRepo.ensure_repo ctx;
       commit ← GitRepo.head_commit ctx;
       mret (Some commit))
      (fun _ => mret None) w = (inr gc, w') /\
    only_asks w w'.
Proof.
  match goal with |- context [try_except ?m ?h w] => set (body := m); set (handler := h) end.
  assert (Hasks : Asks (try_except body handler)) by (unfold body, handler; asks).
  destruct (try_except body handler w) as [[e|gc] w'] eqn:E.
  - exfalso. unfold try_except in E.
    destruct (body w) as [[e'|x] w1]; discriminate.
  - exists gc, w'. split; [reflexivity|]. eapply Hasks, E.
Qed.

(** What a checkpoint whose backup exits with 0 into a new directory
    leaves behind. *)
Lemma create_checkpoint_ok (self : t) (env : string) (entry : EnvEntry.t)
    (spec ts backup_dir : string) (out : ProcOutcome) (w0 : World) :
  let ctx := EnvContext.Build env entry in
  spec = EnvContext.rsync_spec ctx ->
  ts = strftime w0 "%Y%m%d-%H%M%S" ->
  backup_dir = in_dir (checkpoint_dir self) (backup_name env ts) ->
  address spec <> address backup_dir ->
  trees w0 !! address backup_dir = None ->
  spawn_outcome (mkdir backup_dir w0).2 (backup_args ctx backup_dir) = inr out ->
  po_returncode out = 0%Z ->
  exists gc w1 backup,
    _create_checkpoint self ctx w0
      = (inr (SyncCheckpoint.Build (Some ts) (Some env) (Some backup_dir) gc []), w1) /\
    checkpoint_files w1
      = put_file (checkpoint_name env ts)
          (Document (to_dict (SyncCheckpoint.Build (Some ts) (Some env) (Some backup_dir) gc [])))
          (checkpoint_files w0) /\
    trees w1 !! address spec = trees w0 !! address spec /\
    trees w1 !! address backup_dir = Some backup /\
    (forall p, backup !! p
               = if RsyncConfig.standard_deny p then None else tree_at w0 spec !! p).
Proof.
  intros ctx Hspec Hts Hdir Hne Hnew Hout Hcode. subst spec.
  set (spec := EnvContext.rsync_spec ctx) in *.
  set (wA := (mkdir backup_dir w0).2) in *.
  assert (HwA : wA = set_trees (insert (address backup_dir) ∅) w0).
  { unfold wA, mkdir. cbn [snd]. now rewrite Hnew. }
  set (args := backup_args ctx backup_dir) in *.
  set (wB := record_event (Spawned args) (rsync_effect args out wA)).
  destruct (capture_revision ctx wB) as (gc & wC & Hgit & Hasks).
  set (cp := SyncCheckpoint.Build (Some ts) (Some env) (Some backup_dir) gc []).
  set (backup := Rsync.mirror
                   (rsync_leaves wA
                      {| Rsync.dry_run := false; Rsync.checksum := false;
                         Rsync.delete := false; Rsync.gitignore_filter := false;
                         Rsync.excludes := RsyncConfig.standard_patterns;
                         Rsync.src := spec; Rsync.dst := backup_dir +:+ "/" |} out)
                   false (tree_at wA spec) (tree_at wA (backup_dir +:+ "/"))).
  assert (HwB : trees wB = <[address backup_dir := backup]> (trees wA)).
  { unfold wB, rsync_effect, args. rewrite parse_backup_args.
    cbn [Rsync.dry_run Rsync.dst Rsync.src Rsync.delete record_event trees set_trees].
    now rewrite address_dir. }
  exists gc, (set_checkpoint_files
                (put_file (checkpoint_name env ts) (Document (to_dict cp))) wC),
         backup.
  fold cp.
  destruct Hasks as (HtC & HcC & _).
  split; [|split; [|split; [|split]]].
  - assert (Htime : time_strftime "%Y%m%d-%H%M%S" w0 = (inr ts, w0))
      by (rewrite Hts; reflexivity).
    assert (Hmk : mkdir backup_dir w0 = (inr tt, wA)) by reflexivity.
    unfold _create_checkpoint.
    rewrite (bind_ok _ _ _ _ _ Htime). cbn zeta. cbn [EnvContext.name ctx].
    rewrite <- Hdir.
    rewrite (bind_ok _ _ _ _ _ Hmk). fold args.
    rewrite (bind_ok _ _ _ _ _ (subprocess_run_ok _ _ _ Hout)).
    cbn [CompletedProcess.returncode CompletedProcess.stdout CompletedProcess.stderr].
    rewrite Hcode. cbn [fatal Z.eqb orb negb].
    fold wB. rewrite (bind_ok _ _ _ _ _ Hgit). fold cp.
    reflexivity.
  - cbn [checkpoint_files set_checkpoint_files]. rewrite HcC.
    unfold wB. cbn [record_event checkpoint_files].
    rewrite SyncSpec.checkpoint_files_rsync_effect, HwA. reflexivity.
  - cbn [trees set_checkpoint_files]. rewrite HtC, HwB, HwA.
    cbn [trees set_trees]. now rewrite !lookup_insert_ne by congruence.
  - cbn [trees set_checkpoint_files]. rewrite HtC, HwB. apply lookup_insert_eq.
  - intros p. unfold backup. rewrite mirror_lookup.
    assert (Hsrc : tree_at wA spec = tree_at w0 spec).
    { unfold tree_at. rewrite HwA. cbn [trees set_trees].
      now rewrite lookup_insert_ne by congruence. }
    assert (Hdst : tree_at wA (backup_dir +:+ "/") = ∅).
    { unfold tree_at. rewrite HwA, address_dir. cbn [trees set_trees].
      now rewrite lookup_insert_eq. }
    unfold rsync_leaves.
    rewrite quick_check_new_destination by exact Hdst.
    cbn [Rsync.excludes Rsync.gitignore_filter Rsync.src andb orb].
    rewrite Hcode. cbn [Z.eqb negb andb]. rewrite !orb_false_r.
    fold (RsyncConfig.standard_deny p).
    rewrite Hsrc, Hdst, lookup_empty.
    destruct (RsyncConfig.standard_deny p); [reflexivity|].
    now destruct (tree_at w0 spec !! p).
Qed.

(** The restore of a complete backup, and the hard reset after it, leave
    every file outside the deny list as the backup found it. *)
Lemma restore_content (ctx : EnvContext.t) (cp : SyncCheckpoint.t)
    (backup_dir : string) (backup t0 : Tree) (w1 : World) :
  let spec := EnvContext.rsync_spec ctx in
  SyncCheckpoint.backup_path cp = Some backup_dir ->
  tree_at w1 spec = t0 ->
  trees w1 !! address backup_dir = Some backup ->
  (forall p, backup !! p = if RsyncConfig.standard_deny p then None else t0 !! p) ->
  (forall commit w p,
      SyncCheckpoint.git_commit cp = Some commit ->
      RsyncConfig.standard_deny p = false ->
      reset_hard_tree w (EnvContext.entry ctx) commit t0 !! p = t0 !! p) ->
  exists b w2,
    try_except
      (backup_spec ← match SyncCheckpoint.backup_path cp with
                     | Some p => mret (PyStr.rstrip "/" p +:+ "/")
                     | None => raise (AttributeError
                                 "'NoneType' object has no attribute 'rstrip'")
                     end;
       let target_spec := EnvContext.rsync_spec ctx in
       proc ← subprocess_run (restore_args backup_spec target_spec);
       if fatal (CompletedProcess.returncode proc)
       then raise (RuntimeError ("rsync 恢复失败: " +:+ CompletedProcess.stderr proc))
       else
         _ ← match SyncCheckpoint.git_commit cp with
             | None | Some EmptyString => mret tt
             | Some commit =>
                 try_except (GitRepo.reset_hard ctx commit) (fun _ => mret tt)
             end;
         mret true)
      (fun _ => mret false) w1 = (inr b, w2) /\
    (forall p, RsyncConfig.standard_deny p = false -> tree_at w2 spec !! p = t0 !! p) /\
    (forall out, spawn_outcome w1 (restore_args (PyStr.rstrip "/" backup_dir +:+ "/") spec)
                 = inr out ->
                 fatal (po_returncode out) = false -> b = true).
Proof.
  intros spec Hpath Henv Hbackup Hcomplete Hreset. rewrite Hpath.
  set (args := restore_args (PyStr.rstrip "/" backup_dir +:+ "/") spec).
  unfold try_except at 1. rewrite bind_ret_l. cbn zeta. fold spec. fold args.
  destruct (spawn_outcome w1 args) as [e|out] eqn:Hout.
  { rewrite (bind_raise _ _ _ _ _ (subprocess_run_raise _ _ _ Hout)).
    eexists _, _. split; [reflexivity|]. split; [|intros out' [=]].
    intros p _. change (tree_at w1 spec !! p = t0 !! p). now rewrite Henv. }
  rewrite (bind_ok _ _ _ _ _ (subprocess_run_ok _ _ _ Hout)).
  cbn [CompletedProcess.returncode CompletedProcess.stdout CompletedProcess.stderr].
  set (wR := record_event (Spawned args) (rsync_effect args out w1)).
  assert (HwR : tree_at wR spec = t0).
  { unfold wR, rsync_effect, args. rewrite parse_restore_args.
    cbn [Rsync.dry_run Rsync.dst Rsync.src Rsync.delete].
    unfold tree_at at 1. cbn [record_event trees set_trees].
    rewrite lookup_insert_eq. cbn [default].
    unfold id. apply map_eq. intros p. rewrite mirror_lookup.
    replace (tree_at w1 (PyStr.rstrip "/" backup_dir +:+ "/")) with backup
      by (unfold tree_at; now rewrite address_backup_spec, Hbackup).
    fold spec. rewrite Henv, Hcomplete.
    unfold rsync_leaves. cbn [Rsync.excludes Rsync.gitignore_filter andb orb].
    rewrite orb_false_r. fold (RsyncConfig.standard_deny p).
    destruct (RsyncConfig.standard_deny p); cbn [orb]; [reflexivity|].
    destruct (negb (po_returncode out =? 0)%Z && po_skipped out p); [reflexivity|].
    cbn [orb]. destruct (quick_check_skips _ _ p); [reflexivity|].
    now destruct (t0 !! p). }
  destruct (fatal (po_returncode out)) eqn:Hfatal.
  { eexists _, _. split; [reflexivity|]. split.
    - intros p _. change (tree_at wR spec !! p = t0 !! p). now rewrite HwR.
    - intros out' [= <-]. congruence. }
  assert (Hgit : exists w2,
             match SyncCheckpoint.git_commit cp with
             | None | Some EmptyString => mret tt
             | Some commit =>
                 try_except (GitRepo.reset_hard ctx commit) (fun _ => mret tt)
             end wR = (inr tt, w2) /\
             forall p, RsyncConfig.standard_deny p = false -> tree_at w2 spec !! p = t0 !! p).
  { destruct (SyncCheckpoint.git_commit cp) as [commit|] eqn:Hgc.
    2:{ exists wR. split; [reflexivity|]. intros p _. now rewrite HwR. }
    destruct commit as [|c commit].
    { exists wR. split; [reflexivity|]. intros p _. now rewrite HwR. }
    set (ref := String c commit) in *.
    unfold try_except, GitRepo.reset_hard, GitRepo._git, SSHClientWrapper.client_run,
      SSHClientWrapper.run.
    unfold mbind at 1, St_bind at 1, shell.
    match goal with
    | |- context [shell_outcome ?w ?h ?u ?cmd] =>
        destruct (shell_outcome w h u cmd) as [e|res];
        set (wG := record_event (Ran h u cmd) w)
    end.
    { exists wG. split; [reflexivity|]. intros p _.
      change (tree_at wR spec !! p = t0 !! p). now rewrite HwR. }
    unfold mbind at 1, St_bind at 1, working_tree_reset.
    set (wT := set_trees _ wG).
    assert (HwT : forall p, RsyncConfig.standard_deny p = false ->
                            tree_at wT spec !! p = t0 !! p).
    { intros p Hp. unfold wT, tree_at at 1. cbn [set_trees trees].
      fold spec. rewrite lookup_insert_eq. cbn [default]. unfold id.
      change (tree_at wG spec) with (tree_at wR spec). rewrite HwR.
      now apply Hreset. }
    exists wT. split; [|exact HwT].
    unfold SSHClientWrapper.check_ok.
    destruct (negb (CommandResult.code res =? 0)%Z); reflexivity. }
  destruct Hgit as (w2 & Hgit & Hkept).
  rewrite (bind_ok _ _ _ _ _ Hgit).
  eexists _, _. split; [reflexivity|]. split; [exact Hkept|reflexivity].
Qed.

(** C2, as amended.  The environment is configured and its directory
    exists; the backup location of the checkpoint is new; the backup
    transfer exits with 0; no record already listed for the environment
    carries the timestamp of the checkpoint; and a hard reset to the
    revision the checkpoint captured, if it captured one, changes no file
    outside the deny list (the working tree was clean).  Then a rollback
    to the checkpoint, started right after [_create_checkpoint] returned
    it, returns a boolean and leaves every file that matches no pattern of
    the shared exclude list with the content it had before the
    checkpoint; the boolean is [true] when the restore exits with 0 or 23. *)
Theorem checkpoint_roundtrip (self : t) (env : string) (entry : EnvEntry.t)
    (out : ProcOutcome) (cp : SyncCheckpoint.t) (w0 w1 : World) :
  let ctx := EnvContext.Build env entry in
  let spec := EnvContext.rsync_spec ctx in
  let ts := strftime w0 "%Y%m%d-%H%M%S" in
  let backup_dir := in_dir (checkpoint_dir self) (backup_name env ts) in
  config self !! env = Some entry ->
  is_Some (trees w0 !! address spec) ->
  trees w0 !! address backup_dir = None ->
  PyStr.contains "/" ts = false ->
  Forall (fun c => exists t, SyncCheckpoint.timestamp c = Some t /\ t <> ts) (loaded env w0) ->
  spawn_outcome (mkdir backup_dir w0).2 (backup_args ctx backup_dir) = inr out ->
  po_returncode out = 0%Z ->
  _create_checkpoint self ctx w0 = (inr cp, w1) ->
  (forall commit w p,
      SyncCheckpoint.git_commit cp = Some commit ->
      RsyncConfig.standard_deny p = false ->
      reset_hard_tree w entry commit (tree_at w0 spec) !! p = tree_at w0 spec !! p) ->
  exists b w2,
    rollback self env (SyncCheckpoint.timestamp cp) w1 = (inr b, w2) /\
    (forall p, RsyncConfig.standard_deny p = false ->
               tree_at w2 spec !! p = tree_at w0 spec !! p) /\
    (forall out', spawn_outcome w1 (restore_args (PyStr.rstrip "/" backup_dir +:+ "/") spec)
                  = inr out' ->
                  fatal (po_returncode out') = false -> b = true).
Proof.
  intros ctx spec ts backup_dir Hcfg Hexists Hnew Hts Hothers Hout Hcode Hcreate Hreset.
  assert (Hne : address spec <> address backup_dir).
  { intros Heq. rewrite Heq, Hnew in Hexists. now destruct Hexists. }
  destruct (create_checkpoint_ok self env entry spec ts backup_dir out w0
              eq_refl eq_refl eq_refl Hne Hnew Hout Hcode)
    as (gc & w1' & backup & Hcreate' & Hfiles & Henv & Hbackup & Hcomplete).
  fold ctx in Hcreate'. rewrite Hcreate' in Hcreate.
  injection Hcreate as Hcp Hw1. subst cp w1.
  set (cp := SyncCheckpoint.Build (Some ts) (Some env) (Some backup_dir) gc []) in *.
  assert (Hmember : forall c, c ∈ loaded env w1' -> c = cp \/ c ∈ loaded env w0).
  { intros c Hc. apply elem_of_loaded in Hc as (name & f & Hin & Hm & Hload).
    rewrite Hfiles in Hin. apply put_file_elem in Hin as [[= -> ->]|Hin].
    - left. rewrite load_to_dict in Hload. congruence.
    - right. apply elem_of_loaded. eauto. }
  assert (Hcp : cp ∈ loaded env w1').
  { apply elem_of_loaded. exists (checkpoint_name env ts), (Document (to_dict cp)).
    split; [rewrite Hfiles; apply put_file_new|].
    split; [now apply checkpoint_name_listed|apply load_to_dict]. }
  assert (Hstore : Forall (fun c => is_Some (SyncCheckpoint.timestamp c)) (loaded env w1')).
  { apply Forall_forall. intros c Hc. destruct (Hmember c Hc) as [->|Hold].
    - now exists ts.
    - rewrite Forall_forall in Hothers. destruct (Hothers c Hold) as (t & -> & _). now exists t. }
  destruct (list_checkpoints_returns self env w1' (or_intror Hstore))
    as (l & Hl & Hperm & _).
  assert (Hres : resolve l (Some ts) = Some cp).
  { assert (Hin : In cp l) by (apply list_elem_of_In; now rewrite Hperm).
    destruct l as [|latest l]; [destruct Hin|].
    cbn [resolve]. apply find_unique.
    - exact Hin.
    - now apply bool_decide_eq_true.
    - intros c Hc Hsame. apply bool_decide_eq_true in Hsame.
      apply list_elem_of_In in Hc. rewrite Hperm in Hc.
      destruct (Hmember c Hc) as [->|Hold]; [reflexivity|].
      rewrite Forall_forall in Hothers. destruct (Hothers c Hold) as (t & Ht & Hdiff).
      congruence. }
  pose proof (find_checkpoint_unfold self env (Some ts) l w1' Hl) as Hfind.
  rewrite Hres in Hfind.
  assert (Ht0 : tree_at w1' spec = tree_at w0 spec).
  { unfold tree_at. now rewrite Henv. }
  destruct (restore_content ctx cp backup_dir backup (tree_at w0 spec) w1'
              eq_refl Ht0 Hbackup Hcomplete Hreset) as (b & w2 & Hrun & Hkept & Htrue).
  exists b, w2. split; [|split; [exact Hkept|exact Htrue]].
  unfold rollback.
  rewrite (bind_ok _ _ _ _ _ (SyncSpec.ctx_ok _ _ _ _ Hcfg)).
  cbn [SyncCheckpoint.timestamp cp].
  rewrite (bind_ok _ _ _ _ _ Hfind). exact Hrun.
Qed.

End RoundTrip.

Lemma checkpoint_roundtrip_witness :
  let spec := EnvContext.rsync_spec Scenario.prod_ctx in
  exists b w2,
    rollback (H := Scenario.clean_repo) Scenario.service "prod"
             (SyncCheckpoint.timestamp Scenario.noon_checkpoint)
             Scenario.after_noon_checkpoint = (inr b, w2) /\
    (forall p, RsyncConfig.standard_deny p = false ->
               tree_at w2 spec !! p = tree_at Scenario.dev_prod_files spec !! p) /\
    (forall out',
        spawn_outcome (Oracle := Scenario.clean_repo) Scenario.after_noon_checkpoint
          (restore_args
             (PyStr.rstrip "/"
                (in_dir (checkpoint_dir Scenario.service)
                   (backup_name "prod"
                      (strftime (Oracle := Scenario.clean_repo) Scenario.dev_prod_files
                                "%Y%m%d-%H%M%S"))) +:+ "/") spec) = inr out' ->
        fatal (po_returncode out') = false -> b = true).
Proof.
  apply (checkpoint_roundtrip (H := Scenario.clean_repo) Scenario.service "prod" Scenario.prod
           {| po_returncode := 0; po_stdout := ""; po_stderr := "";
              po_skipped := fun _ => false |}
           Scenario.noon_checkpoint Scenario.dev_prod_files Scenario.after_noon_checkpoint).
  - reflexivity.
  - vm_compute. eexists. reflexivity.
  - vm_compute. reflexivity.
  - vm_compute. reflexivity.
  - vm_compute. constructor.
  - reflexivity.
  - reflexivity.
  - vm_compute. reflexivity.
  - intros commit w p _ _. reflexivity.
Defined.

(** A checkpoint of a working tree with an uncommitted edit, rolled back
    at once: the restore puts the edited file back, the hard reset to the
    captured revision replaces it by the committed one. *)
Lemma rollback_discards_uncommitted_edit :
  exists cp w1 w2,
    _create_checkpoint (H := Scenario.uncommitted_edit) Scenario.service Scenario.prod_ctx
                       Scenario.hotfixed = (inr cp, w1) /\
    rollback (H := Scenario.uncommitted_edit) Scenario.service "prod"
             (SyncCheckpoint.timestamp cp) w1 = (inr true, w2) /\
    RsyncConfig.standard_deny "app/main.py" = false /\
    tree_at Scenario.hotfixed "/srv/prod/" !! "app/main.py" = Some "print(1)  # hotfix" /\
    tree_at w2 "/srv/prod/" !! "app/main.py" = Some "print(1)".
Proof.
  eexists _, _, _.
  split; [vm_compute; reflexivity|].
  split; [vm_compute; reflexivity|].
  split; [vm_compute; reflexivity|].
  split; vm_compute; reflexivity.
Qed.

(** A backup that exits with 23 is accepted; the file it could not read
    is missing from the backup, and the restore deletes it. *)
Example rollback_after_partial_backup :
  exists cp w1 w2,
    _create_checkpoint (H := Scenario.unreadable_file) Scenario.service Scenario.prod_ctx
                       Scenario.with_data = (inr cp, w1) /\
    rollback (H := Scenario.unreadable_file) Scenario.service "prod"
             (SyncCheckpoint.timestamp cp) w1 = (inr true, w2) /\
    RsyncConfig.standard_deny "data.bin" = false /\
    tree_at Scenario.with_data "/srv/prod/" !! "data.bin" = Some "0101" /\
    tree_at w2 "/srv/prod/" !! "data.bin" = None.
Proof.
  eexists _, _, _.
  split; [vm_compute; reflexivity|].
  split; [vm_compute; reflexivity|].
  split; [vm_compute; reflexivity|].
  split; vm_compute; reflexivity.
Qed.

End RoundTripSpec.

(** ** Retention, on a checkpoint directory in good order *)
Module RetentionSpec.
Import SafeSyncService.
Import Store.
Import StoreSpec.

Lemma loaded_unfold (env : string) (w : World) :
  loaded env w = omap record_of (List.filter (listed env) (checkpoint_files w)).
Proof. reflexivity. Qed.

Lemma insert_desc_front (x : SyncCheckpoint.t) (l : list SyncCheckpoint.t) :
  Forall (newer_first x) l -> insert_desc x l = x :: l.
Proof.
  destruct l as [|y l]; [reflexivity|].
  intros Hx. apply Forall_cons in Hx as [Hy _].
  cbn [insert_desc]. unfold newer_first in Hy. now rewrite Hy.
Qed.

Lemma filter_insert_desc (keep : SyncCheckpoint.t -> bool) (x : SyncCheckpoint.t)
    (l : list SyncCheckpoint.t) :
  StronglySorted newer_first l ->
  List.filter keep (insert_desc x l)
  = if keep x then insert_desc x (List.filter keep l) else List.filter keep l.
Proof.
  induction l as [|y l IH]; intros Hs.
  - cbn. now destruct (keep x).
  - apply StronglySorted_inv in Hs as [Hs Hy].
    cbn [insert_desc]. destruct (String.ltb (key x) (key y)) eqn:E.
    + cbn [List.filter]. rewrite (IH Hs).
      destruct (keep y), (keep x); cbn [insert_desc]; now rewrite ?E.
    + assert (Hfront : Forall (newer_first x) (List.filter keep (y :: l))).
      { apply Forall_forall. intros z Hz.
        apply list_elem_of_In, filter_In in Hz as [Hz _].
        destruct Hz as [<-|Hz]; [exact E|].
        rewrite Forall_forall in Hy.
        eapply not_ltb_trans; [exact E|]. apply Hy. now apply list_elem_of_In. }
      change (List.filter keep (x :: y :: l))
        with (if keep x then x :: List.filter keep (y :: l) else List.filter keep (y :: l)).
      destruct (keep x); [|reflexivity].
      now rewrite insert_desc_front.
Qed.

Lemma filter_sort_desc (keep : SyncCheckpoint.t -> bool) (l : list SyncCheckpoint.t) :
  sort_desc (List.filter keep l) = List.filter keep (sort_desc l).
Proof.
  induction l as [|x l IH]; [reflexivity|].
  cbn [List.filter]. change (sort_desc (x :: l)) with (insert_desc x (sort_desc l)).
  rewrite filter_insert_desc by apply sort_desc_sorted.
  destruct (keep x); [|exact IH].
  change (sort_desc (x :: List.filter keep l))
    with (insert_desc x (sort_desc (List.filter keep l))).
  now rewrite IH.
Qed.

Lemma filter_drops_all {A : Type} (p : A -> bool) (l : list A) :
  (forall x, In x l -> p x = false) -> List.filter p l = [].
Proof.
  induction l as [|x l IH]; intros Hall; [reflexivity|].
  cbn [List.filter]. rewrite (Hall x (or_introl eq_refl)).
  apply IH. intros y Hy. apply Hall. now right.
Qed.

Lemma spared_iff (names : list string) (name : string) :
  spared names name = true <-> ~ In name names.
Proof.
  unfold spared. rewrite negb_true_iff. split.
  - intros Hno Hin. assert (Hex : existsb (String.eqb name) names = true).
    { apply existsb_exists. exists name. split; [exact Hin|apply String.eqb_refl]. }
    congruence.
  - intros Hno. destruct (existsb (String.eqb name) names) eqn:E; [|reflexivity].
    apply existsb_exists in E as (x & Hx & Heq). apply String.eqb_eq in Heq as ->.
    now elim Hno.
Qed.

(** Of a list without two records of the same file, sparing the files of
    all but the first [n] records keeps the first [n] records. *)
Lemma filter_keeps_head (env : string) (n : nat) (l : list SyncCheckpoint.t) :
  NoDup (List.map (file_of env) l) ->
  List.filter (fun cp => spared (List.map (file_of env) (skipn n l)) (file_of env cp)) l
  = firstn n l.
Proof.
  intros Hnd.
  set (names := List.map (file_of env) (skipn n l)).
  rewrite <- (firstn_skipn n l) at 1.
  rewrite <- (firstn_skipn n l), map_app in Hnd.
  apply NoDup_app in Hnd as (_ & Hdisj & _).
  rewrite List.filter_app.
  rewrite (filter_drops_all _ (skipn n l)).
  - rewrite app_nil_r. apply List.forallb_filter_id, forallb_forall.
    intros cp Hcp. apply spared_iff. intros Hin.
    apply (Hdisj (file_of env cp)); apply list_elem_of_In; [now apply in_map|exact Hin].
  - intros cp Hcp. destruct (spared names (file_of env cp)) eqn:E; [|reflexivity].
    apply spared_iff in E. elim E. now apply in_map.
Qed.

Lemma sorted_all_strings (l : list SyncCheckpoint.t) :
  Forall (fun cp => is_Some (SyncCheckpoint.timestamp cp)) l ->
  sorted_by_timestamp l = inr (sort_desc l).
Proof.
  intros Hl. destruct l as [|a [|b l]]; [reflexivity|reflexivity|].
  unfold sorted_by_timestamp.
  replace (forallb _ (a :: b :: l)) with true; [reflexivity|].
  symmetry. apply forallb_forall. intros cp Hcp.
  rewrite Forall_forall in Hl. apply bool_decide_eq_true, Hl. now apply list_elem_of_In.
Qed.

Lemma in_loaded (env : string) (files : list (string * MetaFile)) (cp : SyncCheckpoint.t) :
  In cp (omap record_of (List.filter (listed env) files)) ->
  exists f, In f files /\ listed env f = true /\ record_of f = Some cp.
Proof.
  intros Hcp. apply list_elem_of_In, list_elem_of_omap in Hcp as (f & Hf & Hrec).
  apply list_elem_of_In, filter_In in Hf as [Hf Hl]. eauto.
Qed.

(** What is listed once the files [names] are gone. *)
Lemma loaded_after_unlink (env : string) (names : list string)
    (files : list (string * MetaFile)) :
  (forall f cp, In f files -> listed env f = true -> record_of f = Some cp ->
                f.1 = file_of env cp) ->
  omap record_of (List.filter (listed env) (List.filter (fun f => spared names f.1) files))
  = List.filter (fun cp => spared names (file_of env cp))
                (omap record_of (List.filter (listed env) files)).
Proof.
  induction files as [|f files IH]; intros Hown; [reflexivity|].
  assert (IH' := IH (fun g cp Hg => Hown g cp (or_intror Hg))). clear IH.
  cbn [List.filter].
  destruct (listed env f) eqn:El.
  - destruct (record_of f) as [cp|] eqn:Er.
    + rewrite (Hown f cp (or_introl eq_refl) El Er) in *.
      destruct (spared names (file_of env cp)) eqn:Es.
      * cbn [List.filter omap list_omap]. rewrite El. cbn [omap list_omap].
        rewrite Er. cbn [List.filter]. rewrite Es. f_equal. exact IH'.
      * cbn [omap list_omap]. rewrite Er. cbn [List.filter]. rewrite Es. exact IH'.
    + destruct (spared names f.1).
      * cbn [List.filter]. rewrite El. cbn [omap list_omap]. rewrite Er. exact IH'.
      * cbn [omap list_omap]. rewrite Er. exact IH'.
  - destruct (spared names f.1); [|exact IH'].
    cbn [List.filter]. rewrite El. exact IH'.
Qed.

Lemma loaded_files_distinct (env : string) (files : list (string * MetaFile)) :
  NoDup (List.map fst files) ->
  (forall f cp, In f files -> listed env f = true -> record_of f = Some cp ->
                f.1 = file_of env cp) ->
  NoDup (List.map (file_of env) (omap record_of (List.filter (listed env) files))).
Proof.
  induction files as [|f files IH]; intros Hnd Hown; [constructor|].
  cbn [List.map] in Hnd. apply NoDup_cons in Hnd as [Hf Hnd].
  assert (IH' := IH Hnd (fun g cp Hg => Hown g cp (or_intror Hg))). clear IH.
  cbn [List.filter]. destruct (listed env f) eqn:El; [|exact IH'].
  cbn [omap list_omap]. destruct (record_of f) as [cp|] eqn:Er; [|exact IH'].
  cbn [List.map]. apply NoDup_cons. split; [|exact IH'].
  rewrite <- (Hown f cp (or_introl eq_refl) El Er).
  intros Hin. apply Hf. apply list_elem_of_In in Hin. apply in_map_iff in Hin as (cp' & Hname & Hcp').
  apply in_loaded in Hcp' as (g & Hg & Hlg & Hrg).
  rewrite <- (Hown g cp' (or_intror Hg) Hlg Hrg) in Hname.
  apply list_elem_of_In, in_map_iff. eauto.
Qed.

Lemma filter_none_named (name : string) (files : list (string * MetaFile)) :
  existsb (fun f => String.eqb f.1 name) files = false ->
  List.filter (fun f => negb (String.eqb f.1 name)) files = files.
Proof.
  intros Hno. apply List.forallb_filter_id, forallb_forall. intros f Hf.
  destruct (String.eqb f.1 name) eqn:E; [|reflexivity].
  assert (existsb (fun f => String.eqb f.1 name) files = true); [|congruence].
  apply existsb_exists. eauto.
Qed.

(** One turn of the loop of [cleanup_checkpoints], on a record with a
    backup path: the backup directory and the metadata file are gone
    afterwards, whether they were there or not. *)
Lemma remove_checkpoint_run (self : t) (env : string) (cp : SyncCheckpoint.t)
    (backup : string) (w : World) :
  SyncCheckpoint.backup_path cp = Some backup ->
  exists w',
    remove_checkpoint self env cp w = (inr tt, w') /\
    trees w' = delete (address backup) (trees w) /\
    checkpoint_files w'
      = List.filter (fun f => negb (String.eqb f.1 (file_of env cp))) (checkpoint_files w).
Proof.
  intros Hpath. unfold remove_checkpoint. rewrite Hpath. rewrite bind_ret_l.
  unfold mbind at 1, St_bind at 1, dir_exists.
  fold (file_of env cp).
  set (w1 := if bool_decide (is_Some (trees w !! address backup))
             then set_trees (delete (address backup)) w else w).
  assert (Hw1 : (if bool_decide (is_Some (trees w !! address backup))
                 then rmtree backup else mret tt) w = (inr tt, w1)).
  { unfold w1. now destruct (bool_decide _). }
  assert (Ht1 : trees w1 = delete (address backup) (trees w)).
  { unfold w1. destruct (bool_decide _) eqn:E; [reflexivity|].
    apply bool_decide_eq_false in E. symmetry. apply delete_id.
    now apply eq_None_not_Some. }
  assert (Hc1 : checkpoint_files w1 = checkpoint_files w).
  { unfold w1. now destruct (bool_decide _). }
  rewrite (bind_ok _ _ _ _ _ Hw1).
  unfold mbind, St_bind, meta_exists.
  destruct (existsb (fun f => String.eqb f.1 (file_of env cp)) (checkpoint_files w1)) eqn:E.
  - eexists. split; [reflexivity|]. cbn [meta_unlink snd trees checkpoint_files set_checkpoint_files].
    now rewrite Ht1, Hc1.
  - exists w1. split; [reflexivity|]. split; [exact Ht1|].
    rewrite <- Hc1. symmetry. now apply filter_none_named.
Qed.

Lemma filter_twice {A : Type} (p q : A -> bool) (l : list A) :
  List.filter p (List.filter q l) = List.filter (fun x => q x && p x) l.
Proof.
  induction l as [|x l IH]; [reflexivity|].
  cbn [List.filter]. destruct (q x); cbn [List.filter andb]; [|exact IH].
  destruct (p x); now rewrite IH.
Qed.

Lemma cleanup_loop (self : t) (env : string) (rest : list SyncCheckpoint.t) :
  Forall (fun cp => is_Some (SyncCheckpoint.backup_path cp)) rest ->
  forall w, exists w',
    for_each rest (fun cp _ => remove_checkpoint self env cp) tt w = (inr tt, w') /\
    checkpoint_files w'
      = List.filter (fun f => spared (List.map (file_of env) rest) f.1) (checkpoint_files w) /\
    (forall a, trees w !! a = None -> trees w' !! a = None) /\
    (forall cp backup, In cp rest -> SyncCheckpoint.backup_path cp = Some backup ->
                       trees w' !! address backup = None).
Proof.
  induction rest as [|cp rest IH]; intros Hpaths w.
  - exists w. split; [reflexivity|]. split.
    + symmetry. apply List.forallb_filter_id, forallb_forall. reflexivity.
    + split; [auto|]. intros cp backup [].
  - apply Forall_cons in Hpaths as [[backup Hpath] Hpaths].
    destruct (remove_checkpoint_run self env cp backup w Hpath) as (w1 & Hrun & Ht1 & Hc1).
    destruct (IH Hpaths w1) as (w' & Hloop & Hc' & Hmono & Hgone).
    exists w'. cbn [for_each]. rewrite (bind_ok _ _ _ _ _ Hrun).
    split; [exact Hloop|]. split; [|split].
    + rewrite Hc', Hc1, filter_twice. apply filter_ext. intros f.
      unfold spared. cbn [List.map existsb]. now rewrite negb_orb.
    + intros a Ha. apply Hmono. rewrite Ht1.
      destruct (decide (address backup = a)) as [<-|Hne];
        [apply lookup_delete_eq|now rewrite lookup_delete_ne].
    + intros cp' backup' [<-|Hin] Hpath'.
      * rewrite Hpath in Hpath'. injection Hpath' as <-.
        apply Hmono. rewrite Ht1. apply lookup_delete_eq.
      * now apply (Hgone cp').
Qed.

(** Retention on a checkpoint directory in good order, the slice
    [checkpoints[keep:]] being the listing without its first [k] records. *)
Lemma cleanup_cut (self : t) (env : string) (keep : Z) (k : nat) (w : World) :
  own_records env w ->
  slice_from keep (sort_desc (loaded env w)) = skipn k (sort_desc (loaded env w)) ->
  exists l w',
    list_checkpoints self env w = (inr l, w) /\
    cleanup_checkpoints self env keep w = (inr tt, w') /\
    list_checkpoints self env w' = (inr (firstn k l), w') /\
    List.length l = List.length (loaded env w) /\
    (forall cp, In cp (skipn k l) ->
       ~ In (file_of env cp) (List.map fst (checkpoint_files w')) /\
       forall backup, SyncCheckpoint.backup_path cp = Some backup ->
                      trees w' !! address backup = None).
Proof.
  intros [Hnd Hown] Hslice.
  set (files := checkpoint_files w) in *.
  assert (Hname : forall f cp, In f files -> listed env f = true -> record_of f = Some cp ->
                               f.1 = file_of env cp)
    by (intros f cp Hf Hl Hr; now apply (Hown f cp)).
  assert (Hstrings : Forall (fun cp => is_Some (SyncCheckpoint.timestamp cp)) (loaded env w)).
  { apply Forall_forall. intros cp Hcp. apply list_elem_of_In, in_loaded in Hcp as (f & Hf & Hl & Hr).
    now apply (Hown f cp). }
  set (l := sort_desc (loaded env w)) in *.
  assert (Hl : list_checkpoints self env w = (inr l, w)).
  { rewrite list_checkpoints_unfold, sorted_all_strings by exact Hstrings. reflexivity. }
  assert (Hpaths : Forall (fun cp => is_Some (SyncCheckpoint.backup_path cp)) (skipn k l)).
  { apply Forall_forall. intros cp Hcp.
    assert (Hin : cp ∈ loaded env w).
    { rewrite <- (sort_desc_perm (loaded env w)). fold l.
      apply list_elem_of_In. apply list_elem_of_In in Hcp.
      rewrite <- (firstn_skipn k l). apply in_or_app. now right. }
    apply list_elem_of_In, in_loaded in Hin as (f & Hf & Hlf & Hr).
    now apply (Hown f cp). }
  destruct (cleanup_loop self env (skipn k l) Hpaths w) as (w' & Hloop & Hfiles & _ & Hgone).
  set (names := List.map (file_of env) (skipn k l)) in *.
  assert (Hloaded : loaded env w'
                    = List.filter (fun cp => spared names (file_of env cp)) (loaded env w)).
  { rewrite !loaded_unfold, Hfiles. now apply loaded_after_unlink. }
  assert (Hstrings' : Forall (fun cp => is_Some (SyncCheckpoint.timestamp cp)) (loaded env w')).
  { rewrite Hloaded. apply Forall_forall. intros cp Hcp.
    apply list_elem_of_In, filter_In in Hcp as [Hcp _].
    rewrite Forall_forall in Hstrings. now apply Hstrings, list_elem_of_In. }
  exists l, w'. split; [exact Hl|]. split; [|split; [|split]].
  - unfold cleanup_checkpoints. rewrite (bind_ok _ _ _ _ _ Hl), Hslice. exact Hloop.
  - rewrite list_checkpoints_unfold, sorted_all_strings by exact Hstrings'.
    rewrite Hloaded, filter_sort_desc. fold l. unfold names.
    rewrite filter_keeps_head; [reflexivity|].
    unfold l. rewrite (sort_desc_perm (loaded env w)).
    rewrite loaded_unfold. now apply loaded_files_distinct.
  - unfold l. apply Permutation_length, sort_desc_perm.
  - intros cp Hcp. split; [|intros backup Hpath; now apply (Hgone cp)].
    rewrite Hfiles. intros Hin. apply in_map_iff in Hin as (f & Hname' & Hf).
    apply filter_In in Hf as [_ Hs]. apply spared_iff in Hs. apply Hs.
    rewrite Hname'. unfold names. now apply in_map.
Qed.

(** Retention on a checkpoint directory in good order.  The listing of
    the environment has afterwards the length [min keep n]: it is the
    listing before cut after its first [keep] records, the most recent
    ones; the backup directory and the metadata file of each older record
    are gone, whether or not the directory was there. *)
Theorem cleanup_keeps_latest (self : t) (env : string) (keep : Z) (w : World) :
  (0 <= keep)%Z ->
  own_records env w ->
  exists l w',
    list_checkpoints self env w = (inr l, w) /\
    cleanup_checkpoints self env keep w = (inr tt, w') /\
    list_checkpoints self env w' = (inr (firstn (Z.to_nat keep) l), w') /\
    List.length (firstn (Z.to_nat keep) l) = Nat.min (Z.to_nat keep) (List.length l) /\
    (forall cp, In cp (skipn (Z.to_nat keep) l) ->
       ~ In (file_of env cp) (List.map fst (checkpoint_files w')) /\
       forall backup, SyncCheckpoint.backup_path cp = Some backup ->
                      trees w' !! address backup = None).
Proof.
  intros Hkeep Hown.
  destruct (cleanup_cut self env keep (Z.to_nat keep) w Hown)
    as (l & w' & Hl & Hclean & Hl' & _ & Hgone).
  { unfold slice_from. destruct (keep <? 0)%Z eqn:E; [apply Z.ltb_lt in E; lia|reflexivity]. }
  exists l, w'. repeat split; try assumption; try apply length_firstn; now apply Hgone.
Qed.

(** With a negative [keep] the slice [checkpoints[keep:]] holds the last
    [-keep] records of the listing: on a checkpoint directory in good
    order these, the oldest ones, are removed and the others are kept; all
    records are removed when there are no more than [-keep]. *)
Theorem cleanup_negative_keep (self : t) (env : string) (keep : Z) (w : World) :
  (keep < 0)%Z ->
  own_records env w ->
  exists l w',
    list_checkpoints self env w = (inr l, w) /\
    cleanup_checkpoints self env keep w = (inr tt, w') /\
    let kept := List.length l - Z.to_nat (- keep) in
    list_checkpoints self env w' = (inr (firstn kept l), w') /\
    (forall cp, In cp (skipn kept l) ->
       ~ In (file_of env cp) (List.map fst (checkpoint_files w')) /\
       forall backup, SyncCheckpoint.backup_path cp = Some backup ->
                      trees w' !! address backup = None).
Proof.
  intros Hkeep Hown.
  destruct (cleanup_cut self env keep
              (List.length (loaded env w) - Z.to_nat (- keep)) w Hown)
    as (l & w' & Hl & Hclean & Hl' & Hlen & Hgone).
  { unfold slice_from. apply Z.ltb_lt in Hkeep. rewrite Hkeep.
    now rewrite (Permutation_length (sort_desc_perm (loaded env w))). }
  exists l, w'. cbn zeta. rewrite Hlen. auto.
Qed.

(** Three checkpoints of app-staging, of three days: the directory is in
    good order. *)
Example three_nights_in_order : own_records "app-staging" Scenario.three_nights.
Proof.
  split.
  - apply (bool_decide_unpack _). vm_compute. reflexivity.
  - intros f cp Hin Hl Hr. vm_compute in Hin.
    destruct Hin as [<-|[<-|[<-|[]]]];
      vm_compute in Hr; injection Hr as <-;
      (split; [vm_compute; reflexivity|split; eexists; reflexivity]).
Qed.

Lemma cleanup_keeps_latest_witness :
  exists l w',
    list_checkpoints Scenario.app_service "app-staging" Scenario.three_nights
      = (inr l, Scenario.three_nights) /\
    List.map SyncCheckpoint.timestamp l
      = [Some "20240103-100000"; Some "20240102-100000"; Some "20240101-100000"] /\
    cleanup_checkpoints Scenario.app_service "app-staging" 1 Scenario.three_nights
      = (inr tt, w') /\
    list_checkpoints Scenario.app_service "app-staging" w' = (inr (firstn 1 l), w').
Proof.
  destruct (cleanup_keeps_latest Scenario.app_service "app-staging" 1 Scenario.three_nights
              ltac:(lia) three_nights_in_order) as (l & w' & Hl & Hclean & Hl' & _).
  exists l, w'. repeat split; try assumption.
  assert (E : list_checkpoints Scenario.app_service "app-staging" Scenario.three_nights
              = (inr l, Scenario.three_nights)) by exact Hl.
  vm_compute in E. injection E as <-. reflexivity.
Defined.

Lemma cleanup_negative_keep_witness :
  exists l w',
    list_checkpoints Scenario.app_service "app-staging" Scenario.three_nights
      = (inr l, Scenario.three_nights) /\
    List.map SyncCheckpoint.timestamp l
      = [Some "20240103-100000"; Some "20240102-100000"; Some "20240101-100000"] /\
    cleanup_checkpoints Scenario.app_service "app-staging" (-1) Scenario.three_nights
      = (inr tt, w') /\
    list_checkpoints Scenario.app_service "app-staging" w' = (inr (firstn 2 l), w').
Proof.
  destruct (cleanup_negative_keep Scenario.app_service "app-staging" (-1) Scenario.three_nights
              ltac:(lia) three_nights_in_order) as (l & w' & Hl & Hclean & Hl' & _).
  exists l, w'.
  assert (E : list_checkpoints Scenario.app_service "app-staging" Scenario.three_nights
              = (inr l, Scenario.three_nights)) by exact Hl.
  vm_compute in E. injection E as <-.
  repeat split; try assumption.
Defined.

End RetentionSpec.

(** * Further properties of the code *)

(** ** Running computations, backwards *)

Lemma bind_inr {S A B : Type} (m : St S A) (f : A -> St S B) (w w' : S) (y : B) :
  (m ≫= f) w = (inr y, w') ->
  exists x w1, m w = (inr x, w1) /\ f x w1 = (inr y, w').
Proof.
  unfold mbind, St_bind. destruct (m w) as [[e|x] w1]; [discriminate|]. eauto.
Qed.

Lemma bind_cases {S A B : Type} (m : St S A) (f : A -> St S B) (w w' : S) (r : exn + B) :
  (m ≫= f) w = (r, w') ->
  (exists e, m w = (inl e, w') /\ r = inl e) \/
  (exists x w1, m w = (inr x, w1) /\ f x w1 = (r, w')).
Proof.
  unfold mbind, St_bind. destruct (m w) as [[e|x] w1].
  - intros [= <- <-]. left. eauto.
  - right. eauto.
Qed.

(** ** Reversed strings *)

Lemma rev_app_append (s acc : string) : String.rev_app s acc = String.rev s +:+ acc.
Proof.
  unfold String.rev. revert acc.
  induction s as [|c s IH]; intros acc; [reflexivity|].
  cbn [String.rev_app]. rewrite (IH (String c acc)), (IH (String c EmptyString)).
  now rewrite RoundTripSpec.app_assoc_string.
Qed.

Lemma rev_append (a b : string) : String.rev (a +:+ b) = String.rev b +:+ String.rev a.
Proof.
  induction a as [|c a IH].
  - change (EmptyString +:+ b) with b. unfold String.rev at 3. cbn [String.rev_app].
    induction (String.rev b) as [|d r IHr]; [reflexivity|].
    change (String d r +:+ EmptyString) with (String d (r +:+ EmptyString)).
    now rewrite <- IHr.
  - change (String c a +:+ b) with (String c (a +:+ b)).
    unfold String.rev at 1 3. cbn [String.rev_app].
    rewrite !rev_app_append, IH. now rewrite RoundTripSpec.app_assoc_string.
Qed.

Lemma endswith_char (c : ascii) (s : string) :
  PyStr.endswith (s +:+ String c EmptyString) (String c EmptyString) = true.
Proof.
  unfold PyStr.endswith. rewrite rev_append.
  change (String.rev (String c EmptyString)) with (String c EmptyString).
  change (String c EmptyString +:+ String.rev s) with (String c (String.rev s)).
  cbn [String.prefix]. destruct (ascii_dec c c); [|congruence]. now destruct (String.rev s).
Qed.

Lemma rev_nonempty (c : ascii) (s : string) : String.rev (String c s) <> EmptyString.
Proof.
  unfold String.rev. cbn [String.rev_app]. rewrite rev_app_append.
  destruct (String.rev s); discriminate.
Qed.

Lemma prefix_char_append (c : ascii) (a b : string) :
  String.prefix (String c EmptyString) (a +:+ b)
  = match a with
    | EmptyString => String.prefix (String c EmptyString) b
    | _ => String.prefix (String c EmptyString) a
    end.
Proof.
  destruct a as [|d a]; [reflexivity|].
  change (String d a +:+ b) with (String d (a +:+ b)).
  cbn [String.prefix]. destruct (ascii_dec c d); [|reflexivity].
  now destruct (a +:+ b), a.
Qed.

(** The last character of [a +:+ b] is the last of [b], or of [a] when
    [b] is empty. *)
Lemma last_char_append (c : ascii) (a b : string) :
  String.prefix (String c EmptyString) (String.rev (a +:+ b))
  = match b with
    | EmptyString => String.prefix (String c EmptyString) (String.rev a)
    | _ => String.prefix (String c EmptyString) (String.rev b)
    end.
Proof.
  rewrite rev_append, prefix_char_append.
  destruct b as [|d b]; [reflexivity|].
  destruct (String.rev (String d b)) eqn:E; [|reflexivity].
  now apply rev_nonempty in E.
Qed.

(** What [rstrip] returns does not end with the character stripped. *)
Lemma rstrip_last (c : ascii) (s : string) :
  String.prefix (String c EmptyString) (String.rev (PyStr.rstrip c s)) = false.
Proof.
  induction s as [|a s IH]; [reflexivity|].
  cbn [PyStr.rstrip]. destruct (PyStr.rstrip c s) as [|b r] eqn:E.
  - destruct (Ascii.eqb a c) eqn:Ea; [reflexivity|].
    change (String.rev (String a EmptyString)) with (String a EmptyString).
    cbn [String.prefix]. destruct (ascii_dec c a) as [->|]; [|reflexivity].
    now rewrite Ascii.eqb_refl in Ea.
  - change (String a (String b r)) with (String a EmptyString +:+ String b r).
    rewrite last_char_append. exact IH.
Qed.

(** ** utils/envs.py *)
Module EnvSpec.
Import EnvContext.

(** The host part of a specification, empty for a local environment. *)
Lemma rsync_spec_shape (self : t) :
  exists host_part,
    rsync_spec self = host_part +:+ (PyStr.rstrip "/" (EnvEntry.path (entry self)) +:+ "/") /\
    (host_part = EmptyString \/ exists h, host_part = h +:+ ":").
Proof.
  unfold rsync_spec. destruct (is_remote self).
  - exists (user_prefix self +:+ host_text self +:+ ":"). split.
    + now rewrite !RoundTripSpec.app_assoc_string.
    + right. exists (user_prefix self +:+ host_text self).
      now rewrite !RoundTripSpec.app_assoc_string.
  - exists EmptyString. split; [reflexivity|now left].
Qed.

(** What [rsync_spec] returns ends with one slash, never with two,
    however many slashes end the configured path: to rsync it names the
    content of the directory. *)
Theorem rsync_spec_one_trailing_slash (self : t) :
  PyStr.endswith (rsync_spec self) "/" = true /\
  PyStr.endswith (rsync_spec self) "//" = false.
Proof.
  destruct (rsync_spec_shape self) as (host_part & -> & Hhost).
  set (p := PyStr.rstrip "/" (EnvEntry.path (entry self))).
  rewrite <- RoundTripSpec.app_assoc_string. split; [apply endswith_char|].
  unfold PyStr.endswith. rewrite rev_append.
  change (String.rev "//") with "//"%string.
  change (String.rev "/") with "/"%string.
  change ("/" +:+ String.rev (host_part +:+ p)) with (String "/" (String.rev (host_part +:+ p))).
  change (String.prefix "//" (String "/" (String.rev (host_part +:+ p))))
    with (String.prefix "/" (String.rev (host_part +:+ p))).
  rewrite last_char_append.
  pose proof (rstrip_last "/" (EnvEntry.path (entry self))) as Hp. fold p in Hp.
  destruct p as [|c p]; [|exact Hp].
  destruct Hhost as [->|[h ->]]; [reflexivity|].
  now rewrite last_char_append.
Qed.

End EnvSpec.

(** ** utils/git.py *)
Module GitSpec.
Import GitRepo.

Lemma prefix_cons (a b : ascii) (p s : string) :
  String.prefix (String a p) (String b s) = Ascii.eqb a b && String.prefix p s.
Proof.
  cbn [String.prefix]. destruct (ascii_dec a b) as [->|Hne].
  - now rewrite Ascii.eqb_refl.
  - apply Ascii.eqb_neq in Hne. now rewrite Hne.
Qed.

(** A line of the short status counts for at most one of the three
    counters. *)
Lemma line_counted_once (ln : string) (b : bool) :
  is_changed ln = Some b ->
  (if is_staged ln then 1 else 0) + (if b then 1 else 0)
  + (if PyStr.startswith ln "??" then 1 else 0) <= 1.
Proof.
  destruct ln as [|c rest]; [intros [= <-]; vm_compute; lia|].
  unfold is_changed, is_staged, PyStr.startswith.
  rewrite prefix_cons, (Ascii.eqb_sym "?" c).
  destruct (Ascii.eqb c " ") eqn:Esp.
  - apply Ascii.eqb_eq in Esp as ->.
    destruct rest as [|d rest]; [discriminate|]. intros [= <-].
    change (Ascii.eqb " " "?") with false. cbn [negb andb].
    destruct (negb _); lia.
  - intros [= <-]. cbn [negb andb].
    destruct (Ascii.eqb c "?"); cbn [negb andb]; [|lia].
    destruct (String.prefix _ _); lia.
Qed.

Lemma counts_bounded (lines : list string) (changed : nat) :
  count_changed lines = Some changed ->
  List.length (List.filter is_staged lines) + changed
  + List.length (List.filter (fun ln => PyStr.startswith ln "??") lines)
  <= List.length lines.
Proof.
  revert changed. induction lines as [|ln lines IH]; intros changed.
  - intros [= <-]. cbn. lia.
  - cbn [count_changed].
    destruct (is_changed ln) as [b|] eqn:Eb; [|discriminate].
    destruct (count_changed lines) as [n|]; [|discriminate].
    intros [= <-]. specialize (IH n eq_refl).
    pose proof (line_counted_once ln b Eb) as Hone.
    rewrite !DiffSpec.length_filter_cons. cbn [List.length].
    destruct b; lia.
Qed.

Lemma counted_lines (lines : list string) (changed : nat) :
  count_changed lines = Some changed -> Forall (fun ln => ln <> " "%string) lines.
Proof.
  revert changed. induction lines as [|ln lines IH]; intros changed; [constructor|].
  cbn [count_changed].
  destruct (is_changed ln) as [b|] eqn:Eb; [|discriminate].
  destruct (count_changed lines) as [n|]; [|discriminate].
  intros _. constructor; [|now apply (IH n)].
  intros ->. discriminate Eb.
Qed.

(** Whenever [status] returns: [dirty] tells whether the short status
    holds a line; no line is empty; the three counters count distinct
    lines, so that their sum is at most the number of lines; and no line
    is a single space, on which [ln[1]] raises. *)
Theorem status_counts `{Oracle} (ctx : EnvContext.t) (st : GitStatus.t) (w w' : World) :
  status ctx w = (inr st, w') ->
  (GitStatus.dirty st = true <-> GitStatus.short_status st <> []) /\
  Forall (fun ln => ln <> EmptyString /\ ln <> " "%string) (GitStatus.short_status st) /\
  GitStatus.staged st + GitStatus.changed st + GitStatus.untracked st
  <= List.length (GitStatus.short_status st).
Proof.
  intros Hrun. unfold status in Hrun.
  apply bind_inr in Hrun as (_ & w1 & _ & Hrun).
  apply bind_inr in Hrun as (branch & w2 & _ & Hrun).
  apply bind_inr in Hrun as (head & w3 & _ & Hrun).
  apply bind_inr in Hrun as (up & w4 & _ & Hrun).
  apply bind_inr in Hrun as ([ahead behind] & w5 & _ & Hrun).
  apply bind_inr in Hrun as (res & w6 & _ & Hrun).
  apply bind_inr in Hrun as (_ & w7 & _ & Hrun).
  cbn zeta in Hrun.
  set (lines := List.filter nonempty (PyStr.splitlines (CommandResult.stdout res))) in *.
  destruct (count_changed lines) as [changed|] eqn:Ec; [|discriminate].
  injection Hrun as <- _.
  cbn [GitStatus.dirty GitStatus.short_status GitStatus.staged GitStatus.changed
       GitStatus.untracked].
  split; [|split].
  - destruct lines; split; congruence.
  - pose proof (counted_lines lines changed Ec) as Hsp.
    rewrite Forall_forall in Hsp. apply Forall_forall. intros ln Hln. split.
    + apply list_elem_of_In, filter_In in Hln as [_ Hne].
      unfold nonempty in Hne. intros ->. discriminate Hne.
    + now apply Hsp.
  - now apply counts_bounded.
Qed.

End GitSpec.

Lemma status_counts_witness :
  exists st w',
    GitRepo.status (H := Scenario.dirty_target) Scenario.prod_ctx Scenario.dev_prod_files
      = (inr st, w') /\
    GitStatus.short_status st = [" M app/main.py"; "?? notes.txt"]%string /\
    (GitStatus.dirty st = true <-> GitStatus.short_status st <> []) /\
    Forall (fun ln => ln <> EmptyString /\ ln <> " "%string) (GitStatus.short_status st) /\
    GitStatus.staged st + GitStatus.changed st + GitStatus.untracked st
    <= List.length (GitStatus.short_status st).
Proof.
  eexists _, _. split; [vm_compute; reflexivity|]. split; [reflexivity|].
  eapply (GitSpec.status_counts (H := Scenario.dirty_target) Scenario.prod_ctx _
            Scenario.dev_prod_files).
  vm_compute. reflexivity.
Defined.

(** ** core/scanner.py: the exclude rules of a structure *)
Module ExcludesSpec.
Import ProjectScanner.

Lemma leb_ltb (a b : string) : String.leb a b = negb (String.ltb b a).
Proof.
  unfold String.leb, String.ltb. rewrite (String.compare_antisym a b).
  now destruct (String.compare b a).
Qed.

#[local] Instance leb_transitive : Transitive (fun a b : string => Is_true (String.leb a b)).
Proof.
  intros a b c Hab Hbc. apply Is_true_true in Hab, Hbc. apply Is_true_true.
  rewrite leb_ltb in *. apply negb_true_iff in Hab, Hbc. apply negb_true_iff.
  exact (not_ltb_trans c b a Hbc Hab).
Qed.

#[local] Instance leb_total : Total (fun a b : string => Is_true (String.leb a b)).
Proof.
  intros a b. destruct (String.leb_total a b) as [E|E]; [left|right]; now apply Is_true_true.
Qed.

Lemma strongly_sorted_impl {A : Type} (R R' : A -> A -> Prop) (l : list A) :
  (forall x y, R x y -> R' x y) -> StronglySorted R l -> StronglySorted R' l.
Proof.
  intros Himpl Hs. induction Hs as [|x xs Hs IH Hx]; constructor; [exact IH|].
  eapply Forall_impl; [exact Hx|]. intros y Hy. now apply Himpl.
Qed.

(** [get_rsync_excludes] gives one exclude rule for each directory of
    [all_non_code_dirs], the directories in ascending order, none twice. *)
Theorem excludes_sorted_once (self : ProjectStructure.t) :
  exists dirs,
    get_rsync_excludes self = List.map (fun d => "--exclude=" +:+ d) dirs /\
    StronglySorted (fun a b => String.leb a b = true) dirs /\
    NoDup dirs /\
    (forall d, In d dirs <-> d ∈ ProjectStructure.all_non_code_dirs self).
Proof.
  exists (sorted_strings (ProjectStructure.all_non_code_dirs self)).
  split; [reflexivity|]. unfold sorted_strings.
  set (R := fun a b : string => Is_true (String.leb a b)).
  set (l := elements (ProjectStructure.all_non_code_dirs self)).
  pose proof (merge_sort_Permutation R l) as Hperm.
  split; [|split].
  - apply (strongly_sorted_impl R); [|apply StronglySorted_merge_sort; apply _].
    intros x y Hxy. now apply Is_true_true.
  - rewrite Hperm. apply NoDup_elements.
  - intros d. rewrite <- list_elem_of_In, Hperm. apply elem_of_elements.
Qed.

End ExcludesSpec.

(** ** core/scanner.py: the scan cache *)
Module ScanCacheSpec.
Import ProjectScanner.

Section Cache.
Context `{Oracle}.

Lemma scan_fresh_saved (ctx : EnvContext.t) (env : string) (st : ProjectStructure.t)
    (w w1 : World) :
  scan_fresh ctx env w = (inr st, w1) -> scan_files w1 !! env = Some (Some st).
Proof.
  intros Hrun. unfold scan_fresh in Hrun.
  apply bind_inr in Hrun as (st0 & w2 & _ & Hrun).
  apply bind_inr in Hrun as (scan_time & w3 & _ & Hrun).
  cbn zeta in Hrun.
  apply bind_inr in Hrun as (u & w4 & Hsave & Hrun).
  injection Hrun as Hst Hw. injection Hsave as Hw4. subst.
  cbn [scan_files set_scan_files]. apply lookup_insert_eq.
Qed.

(** A scan that follows another one while the cache file is less than
    an hour old returns what the first scan returned, and starts no
    command: the world stays as it is. *)
Theorem rescan_uses_cache (config : Config) (env : string) (force : bool)
    (st : ProjectStructure.t) (w w1 : World) :
  scan config env force w = (inr st, w1) ->
  cache_fresh w1 env = true ->
  scan config env false w1 = (inr st, w1).
Proof.
  intros Hrun Hfresh. unfold scan in *.
  apply bind_inr in Hrun as (ctx & w0 & Hctx & Hrun).
  unfold _ctx in Hctx. destruct (config !! env) as [entry|] eqn:Hcfg; [|discriminate].
  injection Hctx as <- <-.
  assert (Hsaved : scan_files w1 !! env = Some (Some st)).
  { destruct force; cbn [negb] in Hrun.
    - eapply scan_fresh_saved, Hrun.
    - apply bind_inr in Hrun as (cached & w2 & Hload & Hrun).
      injection Hload as <- <-.
      destruct (scan_files w !! env) as [content|] eqn:Hfile.
      + destruct (cache_fresh w env).
        * destruct content as [st'|]; [|eapply scan_fresh_saved, Hrun].
          injection Hrun as <- <-. exact Hfile.
        * eapply scan_fresh_saved, Hrun.
      + eapply scan_fresh_saved, Hrun. }
  unfold _ctx. rewrite Hcfg. rewrite bind_ret_l. cbn [negb].
  unfold mbind, St_bind, _load_cache. now rewrite Hsaved, Hfresh.
Qed.

End Cache.
End ScanCacheSpec.

Lemma rescan_uses_cache_witness :
  exists st w1,
    ProjectScanner.scan (H := Scenario.polyglot_cached) Scenario.two_envs "dev" false
      Scenario.empty_world = (inr st, w1) /\
    List.map ProjectComponent.type (ProjectStructure.components st) = ["node"]%string /\
    log w1 <> [] /\
    ProjectScanner.scan (H := Scenario.polyglot_cached) Scenario.two_envs "dev" false w1
      = (inr st, w1).
Proof.
  eexists _, _. split; [vm_compute; reflexivity|].
  split; [reflexivity|]. split; [discriminate|].
  eapply (ScanCacheSpec.rescan_uses_cache (H := Scenario.polyglot_cached)
            Scenario.two_envs "dev" false _ Scenario.empty_world).
  - vm_compute. reflexivity.
  - reflexivity.
Defined.

(** ** core/scanner.py: what a scan records *)
Module ScanShapeSpec.
Import ProjectScanner.
Import Markers.

Section Shape.
Context `{Oracle}.

Lemma detect_kind_known (ctx : EnvContext.t) (full_path : string)
    (kinds : list (string * list string)) (kind : string) (w w' : World) :
  detect_kind ctx full_path kinds w = (inr (Some kind), w') ->
  In kind (List.map fst kinds).
Proof.
  revert w w'. induction kinds as [|[proj_type markers] kinds IH]; intros w w' Hrun.
  - discriminate Hrun.
  - cbn [detect_kind] in Hrun.
    apply bind_inr in Hrun as (found & w1 & _ & Hrun).
    destruct found.
    + injection Hrun as <- _. now left.
    + right. eapply IH, Hrun.
Qed.

Lemma present_markers_incl (ctx : EnvContext.t) (full_path : string)
    (markers found : list string) (w w' : World) :
  present_markers ctx full_path markers w = (inr found, w') -> incl found markers.
Proof.
  revert w w' found. induction markers as [|m markers IH]; intros w w' found Hrun.
  - injection Hrun as <- _. apply incl_refl.
  - cbn [present_markers] in Hrun.
    apply bind_inr in Hrun as (b & w1 & _ & Hrun).
    apply bind_inr in Hrun as (others & w2 & Hothers & Hrun).
    injection Hrun as <- _. apply IH in Hothers.
    destruct b.
    + intros x [<-|Hx]; [now left|right; now apply Hothers].
    + intros x Hx. right. now apply Hothers.
Qed.

Lemma classify_subdirs_frame (ctx : EnvContext.t) (full_path : string) (lines : list string) :
  forall acc,
    let r := List.fold_left (fun acc line => classify_subdir ctx full_path line acc) lines acc in
    ProjectComponent.type r.1 = ProjectComponent.type acc.1 /\
    ProjectComponent.marker_files r.1 = ProjectComponent.marker_files acc.1 /\
    ProjectStructure.components r.2 = ProjectStructure.components acc.2 /\
    ProjectStructure.root_path r.2 = ProjectStructure.root_path acc.2 /\
    ProjectStructure.env_name r.2 = ProjectStructure.env_name acc.2.
Proof.
  induction lines as [|line lines IH]; intros acc; [cbn; auto|].
  cbn [List.fold_left]. cbn zeta.
  destruct (IH (classify_subdir ctx full_path line acc)) as (Ht & Hm & Hc & Hr & He).
  rewrite Ht, Hm, Hc, Hr, He. clear.
  unfold classify_subdir. destruct acc as [component structure].
  destruct (String.eqb line "" || String.eqb line full_path); [auto|].
  destruct (_is_non_code_dir (PyStr.path_name line)); cbn; auto.
Qed.

Lemma analyze_component_shape (ctx : EnvContext.t) (rel_path proj_type : string)
    (structure structure' : ProjectStructure.t) (component : ProjectComponent.t)
    (w w' : World) :
  _analyze_component ctx rel_path proj_type structure w = (inr (component, structure'), w') ->
  ProjectComponent.type component = proj_type /\
  incl (ProjectComponent.marker_files component) (markers_of proj_type) /\
  ProjectStructure.components structure' = ProjectStructure.components structure /\
  ProjectStructure.root_path structure' = ProjectStructure.root_path structure /\
  ProjectStructure.env_name structure' = ProjectStructure.env_name structure.
Proof.
  intros Hrun. unfold _analyze_component in Hrun.
  apply bind_inr in Hrun as (found & w1 & Hfound & Hrun).
  apply present_markers_incl in Hfound.
  apply bind_inr in Hrun as (result & w2 & _ & Hrun).
  set (component0 := ProjectComponent.Build rel_path proj_type found [] []) in *.
  set (r := if (CommandResult.code result =? 0)%Z
            then List.fold_left
                   (fun acc line => classify_subdir ctx (full_path_of ctx rel_path) line acc)
                   (PyStr.splitlines (PyStr.strip_ws (CommandResult.stdout result)))
                   (component0, structure)
            else (component0, structure)) in *.
  assert (Hkeep : ProjectComponent.type r.1 = proj_type /\
                  ProjectComponent.marker_files r.1 = found /\
                  ProjectStructure.components r.2 = ProjectStructure.components structure /\
                  ProjectStructure.root_path r.2 = ProjectStructure.root_path structure /\
                  ProjectStructure.env_name r.2 = ProjectStructure.env_name structure).
  { unfold r. destruct (CommandResult.code result =? 0)%Z; [|cbn; auto].
    apply (classify_subdirs_frame ctx _ _ (component0, structure)). }
  destruct r as [c s]. cbn [fst snd] in Hkeep.
  destruct Hkeep as (Ht & Hm & Hc & Hr & He).
  injection Hrun as <- <- _. rewrite Hm.
  destruct (String.eqb rel_path ""); cbn; auto.
Qed.

(** What a scan of a directory adds to a structure. *)
Lemma scan_levels_adds (levels : nat) :
  forall (ctx : EnvContext.t) (rel_path : string) (structure structure' : ProjectStructure.t)
         (w w' : World),
    scan_levels levels ctx rel_path structure w = (inr structure', w') ->
    (exists added,
        ProjectStructure.components structure'
        = ProjectStructure.components structure ++ added /\
        Forall known_component added) /\
    ProjectStructure.root_path structure' = ProjectStructure.root_path structure /\
    ProjectStructure.env_name structure' = ProjectStructure.env_name structure.
Proof.
  assert (Hnone : forall st : ProjectStructure.t,
             (exists added,
                 ProjectStructure.components st = ProjectStructure.components st ++ added /\
                 Forall known_component added) /\
             ProjectStructure.root_path st = ProjectStructure.root_path st /\
             ProjectStructure.env_name st = ProjectStructure.env_name st).
  { intros st. split; [|auto]. exists []. now rewrite app_nil_r. }
  induction levels as [|levels IH]; intros ctx rel_path structure structure' w w' Hrun.
  - injection Hrun as <- _. apply Hnone.
  - cbn [scan_levels] in Hrun.
    apply bind_inr in Hrun as (listing & w1 & _ & Hrun).
    destruct (negb (CommandResult.code listing =? 0)%Z); [injection Hrun as <- _; apply Hnone|].
    apply bind_inr in Hrun as (kind & w2 & Hkind & Hrun).
    destruct kind as [proj_type|].
    + apply detect_kind_known in Hkind.
      apply bind_inr in Hrun as ([component st1] & w3 & Hanalyze & Hrun).
      apply analyze_component_shape in Hanalyze as (Ht & Hm & Hc & Hr & He).
      injection Hrun as <- _.
      cbn [append_component ProjectStructure.components ProjectStructure.root_path
           ProjectStructure.env_name].
      split; [|auto]. exists [component]. rewrite Hc. split; [reflexivity|].
      constructor; [|constructor]. unfold known_component. now rewrite Ht.
    + apply bind_inr in Hrun as (found & w3 & _ & Hrun).
      destruct (negb (CommandResult.code found =? 0)%Z); [injection Hrun as <- _; apply Hnone|].
      clear Hkind. revert structure w3 Hrun.
      induction (PyStr.splitlines (PyStr.strip_ws (CommandResult.stdout found)))
        as [|line lines IHlines]; intros structure w3 Hrun.
      * injection Hrun as <- _. apply Hnone.
      * cbn [for_each] in Hrun.
        apply bind_inr in Hrun as (st1 & w4 & Hline & Hrun).
        apply IHlines in Hrun as ((added2 & Hc2 & Hk2) & Hr2 & He2).
        assert (Hstep : (exists added,
                            ProjectStructure.components st1
                            = ProjectStructure.components structure ++ added /\
                            Forall known_component added) /\
                        ProjectStructure.root_path st1 = ProjectStructure.root_path structure /\
                        ProjectStructure.env_name st1 = ProjectStructure.env_name structure).
        { destruct (String.eqb line "" || String.eqb line (full_path_of ctx rel_path)).
          - injection Hline as <- _. apply Hnone.
          - destruct (_is_non_code_dir (PyStr.path_name line)).
            + injection Hline as <- _. split; [|auto]. exists []. now rewrite app_nil_r.
            + eapply IH, Hline. }
        destruct Hstep as ((added1 & Hc1 & Hk1) & Hr1 & He1).
        split; [|split; congruence].
        exists (added1 ++ added2). rewrite Hc2, Hc1, app_assoc.
        split; [reflexivity|now apply Forall_app].
Qed.

(** A scan that does not read the cache labels the structure with the
    name and the path of the environment; every component it records is
    of one of the kinds of [PROJECT_MARKERS], and its marker files are
    markers of that kind. *)
Theorem forced_scan_shape (config : Config) (env : string) (st : ProjectStructure.t)
    (w w' : World) :
  scan config env true w = (inr st, w') ->
  exists entry,
    config !! env = Some entry /\
    ProjectStructure.root_path st = EnvEntry.path entry /\
    ProjectStructure.env_name st = env /\
    Forall known_component (ProjectStructure.components st).
Proof.
  intros Hrun. unfold scan in Hrun.
  apply bind_inr in Hrun as (ctx & w0 & Hctx & Hrun).
  unfold _ctx in Hctx. destruct (config !! env) as [entry|]; [|discriminate].
  injection Hctx as <- <-. exists entry. split; [reflexivity|].
  cbn [negb] in Hrun. unfold scan_fresh in Hrun.
  apply bind_inr in Hrun as (st0 & w1 & Hscan & Hrun).
  apply bind_inr in Hrun as (scan_time & w2 & _ & Hrun).
  cbn zeta in Hrun.
  apply bind_inr in Hrun as (u & w3 & _ & Hrun).
  injection Hrun as <- _.
  apply scan_levels_adds in Hscan as ((added & Hc & Hk) & Hr & He).
  cbn [set_scan_time ProjectStructure.root_path ProjectStructure.env_name
       ProjectStructure.components].
  cbn in Hc, Hr, He. rewrite Hc, Hr, He. auto.
Qed.

End Shape.
End ScanShapeSpec.

Lemma forced_scan_shape_witness :
  exists st w' entry,
    ProjectScanner.scan (H := Scenario.polyglot) Scenario.two_envs "dev" true Scenario.empty_world
      = (inr st, w') /\
    Scenario.two_envs !! "dev" = Some entry /\
    ProjectStructure.root_path st = EnvEntry.path entry /\
    ProjectStructure.env_name st = "dev"%string /\
    Forall Markers.known_component (ProjectStructure.components st).
Proof.
  destruct (ProjectScanner.scan (H := Scenario.polyglot) Scenario.two_envs "dev" true
              Scenario.empty_world) as [[e|st] w'] eqn:E.
  - vm_compute in E. discriminate E.
  - exists st, w'.
    destruct (ScanShapeSpec.forced_scan_shape (H := Scenario.polyglot) Scenario.two_envs "dev"
                st Scenario.empty_world w' E) as (entry & H1 & H2 & H3 & H4).
    exists entry. auto.
Defined.

(** ** core/safe_sync.py: the boundary of [sync] *)
Module SyncBoundarySpec.
Import SafeSyncService.

Section Boundary.
Context `{Oracle}.

Lemma transfer_steps_result (source target : string) (strat : strategy)
    (verify auto_commit code_only : bool) (ctx_src ctx_dst : EnvContext.t)
    (extra_excludes synced_components : list string) (checkpoint : option SyncCheckpoint.t)
    (result : SyncResult.t) (w w' : World) :
  transfer_steps source target strat verify auto_commit code_only ctx_src ctx_dst
                 extra_excludes synced_components checkpoint w = (inr result, w') ->
  exists synced deleted verified,
    result = SyncResult.Build true source target checkpoint synced deleted verified
               code_only synced_components None /\
    (verify = false -> verified = false).
Proof.
  intros Hrun. unfold transfer_steps in Hrun.
  apply bind_inr in Hrun as ([synced deleted] & w1 & _ & Hrun).
  apply bind_inr in Hrun as (verified & w2 & Hverify & Hrun).
  apply bind_inr in Hrun as (u & w3 & _ & Hrun).
  injection Hrun as <- _. exists synced, deleted, verified. split; [reflexivity|].
  intros ->. now injection Hverify as <- _.
Qed.

(** For two configured environments [sync] returns a result, whatever
    happens inside: it raises nothing.  The result names the two
    environments; it is a success exactly when it carries no error; a
    failure counts no file, is not verified and lists no component; and a
    checkpoint is carried only when a backup was asked for. *)
Theorem sync_always_returns (self : t) (source target : string) (strat : strategy)
    (backup verify auto_commit code_only : bool) (components : option (list string))
    (entry_src entry_dst : EnvEntry.t) (w : World) :
  config self !! source = Some entry_src ->
  config self !! target = Some entry_dst ->
  exists result w',
    sync self source target strat backup verify auto_commit code_only components w
      = (inr result, w') /\
    SyncResult.source result = source /\
    SyncResult.target result = target /\
    (SyncResult.success result = true <-> SyncResult.error result = None) /\
    (SyncResult.success result = false ->
       SyncResult.files_synced result = 0 /\ SyncResult.files_deleted result = 0 /\
       SyncResult.verified result = false /\ SyncResult.components_synced result = []) /\
    (backup = false -> SyncResult.checkpoint result = None) /\
    (verify = false -> SyncResult.verified result = false).
Proof.
  intros Hsrc Hdst. unfold sync.
  rewrite (bind_ok _ _ _ _ _ (SyncSpec.ctx_ok _ _ _ _ Hsrc)).
  rewrite (bind_ok _ _ _ _ _ (SyncSpec.ctx_ok _ _ _ _ Hdst)).
  set (ctx_src := EnvContext.Build source entry_src).
  set (ctx_dst := EnvContext.Build target entry_dst).
  match goal with |- context [try_except ?b ?h w] => set (body := b) end.
  unfold try_except at 1.
  destruct (body w) as [[e|result] w'] eqn:Hbody.
  - eexists _, _. split; [reflexivity|]. cbn. repeat split; auto; discriminate.
  - exists result, w'. split; [reflexivity|].
    unfold body in Hbody.
    apply bind_inr in Hbody as ([extra_excludes synced_components] & w1 & _ & Hbody).
    apply bind_inr in Hbody as (u & w2 & _ & Hbody).
    apply bind_inr in Hbody as (checkpoint & w3 & Hcp & Hbody).
    assert (Hnone : backup = false -> checkpoint = None).
    { intros ->. now injection Hcp as <- _. }
    unfold try_except in Hbody.
    destruct (transfer_steps _ _ _ _ _ _ _ _ _ _ _ w3) as [[e|r] w4] eqn:Hsteps.
    + injection Hbody as <- _. cbn. repeat split; auto; discriminate.
    + injection Hbody as <- _.
      apply transfer_steps_result in Hsteps as (synced & deleted & verified & -> & Hv).
      cbn. repeat split; auto; discriminate.
Qed.

Lemma scan_step_same (self : t) (source : string) (code_only : bool)
    (components components' : option (list string)) (w : World) :
  (exists e w1,
      scan_step self source code_only components w = (inl e, w1) /\
      scan_step self source code_only components' w = (inl e, w1)) \/
  (exists extra_excludes synced synced' w1,
      scan_step self source code_only components w = (inr (extra_excludes, synced), w1) /\
      scan_step self source code_only components' w = (inr (extra_excludes, synced'), w1)).
Proof.
  unfold scan_step. destruct code_only; [|right; eexists _, _, _, _; split; reflexivity].
  unfold mbind, St_bind.
  destruct (ProjectScanner.scan (config self) source false w) as [[e|st] w1].
  - left. eexists _, _. split; reflexivity.
  - right. eexists _, _, _, _. split; reflexivity.
Qed.

Lemma later_steps_same (self : t) (source target : string) (strat : strategy)
    (backup verify auto_commit code_only : bool) (ctx_src ctx_dst : EnvContext.t)
    (extra_excludes synced synced' : list string) (w : World) :
  let steps synced_components :=
    _ ← dirty_step strat ctx_dst;
    checkpoint ← checkpoint_step self backup ctx_dst;
    try_except
      (transfer_steps source target strat verify auto_commit code_only
                      ctx_src ctx_dst extra_excludes synced_components checkpoint)
      (fun e => mret (failed source target checkpoint e)) in
  exists r r' w',
    steps synced w = (r, w') /\ steps synced' w = (r', w') /\ same_outcome r r'.
Proof.
  cbn zeta. unfold mbind, St_bind.
  destruct (dirty_step strat ctx_dst w) as [[e|u] w2];
    [eexists _, _, _; split; [reflexivity|split; reflexivity]|].
  destruct (checkpoint_step self backup ctx_dst w2) as [[e|checkpoint] w3];
    [eexists _, _, _; split; [reflexivity|split; reflexivity]|].
  unfold try_except, transfer_steps, mbind, St_bind.
  destruct (_do_sync ctx_src ctx_dst _ extra_excludes w3) as [[e|[synced_ deleted]] w4];
    [eexists _, _, _; split; [reflexivity|split; reflexivity]|].
  destruct ((if verify then _verify_sync ctx_src ctx_dst extra_excludes else mret false) w4)
    as [[e|verified] w5];
    [eexists _, _, _; split; [reflexivity|split; reflexivity]|].
  destruct ((if auto_commit then _auto_commit ctx_dst ("Synced from " +:+ source) else mret tt) w5)
    as [[e|u'] w6];
    eexists _, _, _; (split; [reflexivity|split; reflexivity]).
Qed.

(** The [components] argument decides nothing but the list of kinds in
    the result: with another list [sync] leaves the same world, having
    started the same commands, and returns the same outcome but for
    [components_synced]. *)
Theorem components_only_filter_the_report (self : t) (source target : string)
    (strat : strategy) (backup verify auto_commit code_only : bool)
    (components components' : option (list string)) (w : World) :
  exists r r' w',
    sync self source target strat backup verify auto_commit code_only components w = (r, w') /\
    sync self source target strat backup verify auto_commit code_only components' w = (r', w') /\
    same_outcome r r'.
Proof.
  unfold sync, _ctx.
  destruct (config self !! source) as [entry_src|];
    [|eexists _, _, _; split; [reflexivity|split; reflexivity]].
  rewrite !bind_ret_l.
  destruct (config self !! target) as [entry_dst|];
    [|eexists _, _, _; split; [reflexivity|split; reflexivity]].
  rewrite !bind_ret_l.
  set (ctx_src := EnvContext.Build source entry_src).
  set (ctx_dst := EnvContext.Build target entry_dst).
  destruct (scan_step_same self source code_only components components' w)
    as [(e & w1 & E & E')|(extra_excludes & synced & synced' & w1 & E & E')].
  - exists (inr (failed source target None e)), (inr (failed source target None e)), w1.
    split; [|split; [|reflexivity]].
    + erewrite try_raise; [reflexivity|]. apply bind_raise. exact E.
    + erewrite try_raise; [reflexivity|]. apply bind_raise. exact E'.
  - destruct (later_steps_same self source target strat backup verify auto_commit code_only
                ctx_src ctx_dst extra_excludes synced synced' w1)
      as (r & r' & w' & Hr & Hr' & Hsame).
    cbn zeta in Hr, Hr'.
    unfold try_except at 1 3.
    rewrite (bind_ok _ _ _ _ _ E), (bind_ok _ _ _ _ _ E'), Hr, Hr'.
    destruct r as [e|a], r' as [e'|b]; cbn in Hsame; try contradiction.
    + subst e'. eexists _, _, _. split; [reflexivity|]. split; reflexivity.
    + eexists _, _, _. split; [reflexivity|]. split; [reflexivity|exact Hsame].
Qed.

End Boundary.
End SyncBoundarySpec.

(** ** core/safe_sync.py: what the transfer does to the target *)
Module TransferSpec.
Import SafeSyncService.

Lemma existsb_rev {A : Type} (p : A -> bool) (l : list A) : existsb p (rev l) = existsb p l.
Proof.
  induction l as [|x l IH]; [reflexivity|].
  cbn [rev existsb]. rewrite existsb_app, IH. cbn [existsb]. rewrite orb_false_r. apply orb_comm.
Qed.

(** How the model reads a command line of rsync. *)
Lemma parse_options (opts : list string) (s d : string) :
  Rsync.parse ("rsync" :: opts ++ [s; d])
  = Some {| Rsync.dry_run := existsb Rsync.short_n opts;
            Rsync.checksum := existsb (String.eqb "--checksum") opts;
            Rsync.delete := existsb (String.eqb "--delete") opts;
            Rsync.gitignore_filter := existsb (String.eqb "--filter=:- .gitignore") opts;
            Rsync.excludes := omap Rsync.exclude_pattern opts;
            Rsync.src := s;
            Rsync.dst := d |}.
Proof.
  unfold Rsync.parse. change (String.eqb "rsync" "rsync") with true. cbn match.
  rewrite rev_app_distr. cbn [rev app].
  now rewrite !existsb_rev, rev_involutive.
Qed.

Lemma build_rsync_args_options (dry_run checksum delete progress itemize : bool) :
  exists opts,
    RsyncConfig.build_rsync_args dry_run checksum delete progress itemize = "rsync" :: opts /\
    existsb Rsync.short_n opts = dry_run /\
    existsb (String.eqb "--checksum") opts = checksum /\
    existsb (String.eqb "--delete") opts = delete /\
    existsb (String.eqb "--filter=:- .gitignore") opts = true /\
    omap Rsync.exclude_pattern opts = RsyncConfig.standard_patterns.
Proof.
  destruct dry_run, checksum, delete, progress, itemize;
    (eexists; split; [reflexivity|]; repeat split; reflexivity).
Qed.

Lemma omap_app {A B : Type} (f : A -> option B) (l1 l2 : list A) :
  omap f (l1 ++ l2) = omap f l1 ++ omap f l2.
Proof.
  induction l1 as [|x l1 IH]; [reflexivity|].
  cbn. destruct (f x); cbn; now rewrite IH.
Qed.

(** An exclude rule reads as no other option. *)
Lemma exclude_rules_only (extra : list string) :
  Forall (fun arg => PyStr.startswith arg "--exclude=" = true) extra ->
  existsb Rsync.short_n extra = false /\
  existsb (String.eqb "--delete") extra = false /\
  existsb (String.eqb "--checksum") extra = false.
Proof.
  induction 1 as [|arg extra Harg _ (IH1 & IH2 & IH3)]; [repeat split; reflexivity|].
  cbn [existsb]. rewrite IH1, IH2, IH3, !orb_false_r.
  unfold PyStr.startswith in Harg.
  destruct arg as [|c1 arg]; [discriminate Harg|].
  rewrite GitSpec.prefix_cons in Harg. apply andb_true_iff in Harg as [E1 Harg].
  destruct arg as [|c2 arg]; [discriminate Harg|].
  rewrite GitSpec.prefix_cons in Harg. apply andb_true_iff in Harg as [E2 Harg].
  apply Ascii.eqb_eq in E1 as <-, E2 as <-.
  split; [|split].
  - unfold Rsync.short_n, PyStr.startswith.
    change (String.prefix "--" (String "-" (String "-" arg))) with (String.prefix "" arg).
    destruct arg; cbn [String.prefix negb andb]; now rewrite andb_false_r.
  - destruct arg as [|c3 arg]; [reflexivity|].
    destruct (String.eqb "--delete" (String "-" (String "-" (String c3 arg)))) eqn:E;
      [|reflexivity].
    apply String.eqb_eq in E. injection E as <- <-. discriminate Harg.
  - destruct arg as [|c3 arg]; [reflexivity|].
    destruct (String.eqb "--checksum" (String "-" (String "-" (String c3 arg)))) eqn:E;
      [|reflexivity].
    apply String.eqb_eq in E. injection E as <- <-. discriminate Harg.
Qed.

Lemma parse_transfer_args (src dst : EnvContext.t) (checksum : bool) (extra : list string) :
  Forall (fun arg => PyStr.startswith arg "--exclude=" = true) extra ->
  Rsync.parse (transfer_args src dst checksum extra)
  = Some {| Rsync.dry_run := false; Rsync.checksum := checksum;
            Rsync.delete := true; Rsync.gitignore_filter := true;
            Rsync.excludes := RsyncConfig.standard_patterns ++ omap Rsync.exclude_pattern extra;
            Rsync.src := EnvContext.rsync_spec src;
            Rsync.dst := EnvContext.rsync_spec dst |}.
Proof.
  intros Hextra. unfold transfer_args.
  destruct (build_rsync_args_options false checksum true true true)
    as (opts & -> & Hn & Hc & Hd & Hf & Hex).
  destruct (exclude_rules_only extra Hextra) as (Hn' & Hd' & Hc').
  change (("rsync" :: opts) ++ extra ++ [EnvContext.rsync_spec src; EnvContext.rsync_spec dst])
    with ("rsync" :: opts ++ extra ++ [EnvContext.rsync_spec src; EnvContext.rsync_spec dst]).
  rewrite app_assoc, parse_options.
  rewrite !existsb_app, omap_app, Hn, Hc, Hd, Hf, Hex, Hn', Hd', Hc'.
  now rewrite !orb_false_r.
Qed.

(** The verification pass is a dry run, whatever the extra arguments. *)
Lemma parse_verify_args (src dst : EnvContext.t) (extra : list string) :
  exists rq, Rsync.parse (verify_args src dst extra) = Some rq /\ Rsync.dry_run rq = true.
Proof.
  unfold verify_args.
  destruct (build_rsync_args_options true true true false true)
    as (opts & -> & Hn & _).
  change (("rsync" :: opts) ++ extra ++ [EnvContext.rsync_spec src; EnvContext.rsync_spec dst])
    with ("rsync" :: opts ++ extra ++ [EnvContext.rsync_spec src; EnvContext.rsync_spec dst]).
  rewrite app_assoc, parse_options. eexists. split; [reflexivity|].
  cbn [Rsync.dry_run]. now rewrite existsb_app, Hn.
Qed.

Lemma excluded_more (pats more : list string) (p : string) :
  Rsync.excluded pats p = true -> Rsync.excluded (pats ++ more) p = true.
Proof.
  unfold Rsync.excluded. rewrite !existsb_exists.
  intros (name & Hname & Hpat). exists name. split; [exact Hname|].
  rewrite existsb_app, Hpat. reflexivity.
Qed.

Section Transfer.
Context `{Oracle}.


Lemma no_line_counts (p : string -> bool) (lines : list string) :
  (List.length (List.filter p lines) =? 0)%nat = forallb (fun ln => negb (p ln)) lines.
Proof.
  induction lines as [|ln lines IH]; [reflexivity|].
  cbn [List.filter forallb]. destruct (p ln); [reflexivity|exact IH].
Qed.

(** The verification pass changes nothing: it is a dry run, whatever the
    extra arguments.  It raises only what starting the process raises; a
    fatal exit gives [False]; otherwise it gives [True] exactly when every
    line of the output is blank or starts with the header word. *)
Theorem verify_is_read_only (src dst : EnvContext.t) (extra : list string) (w : World) :
  exists r w',
    _verify_sync src dst extra w = (r, w') /\
    trees w' = trees w /\
    checkpoint_files w' = checkpoint_files w /\
    log w' = log w ++ [Spawned (verify_args src dst extra)] /\
    match spawn_outcome w (verify_args src dst extra) with
    | inl e => r = inl e
    | inr out =>
        r = inr (negb (fatal (po_returncode out))
                 && forallb (fun ln => negb (diff_line ln)) (PyStr.splitlines (po_stdout out)))
    end.
Proof.
  unfold _verify_sync, mbind, St_bind, subprocess_run.
  set (args := verify_args src dst extra).
  destruct (spawn_outcome w args) as [e|out] eqn:Hout.
  - eexists _, _. split; [reflexivity|]. repeat split.
  - destruct (parse_verify_args src dst extra) as (rq & Hparse & Hdry).
    assert (Hsame : rsync_effect args out w = w).
    { unfold rsync_effect, args. now rewrite Hparse, Hdry. }
    rewrite Hsame.
    cbn [CompletedProcess.returncode CompletedProcess.stdout CompletedProcess.stderr].
    destruct (fatal (po_returncode out)).
    + eexists _, _. split; [reflexivity|]. repeat split.
    + eexists _, _. split; [reflexivity|]. repeat split.
      cbn [negb andb]. now rewrite no_line_counts.
Qed.

End Transfer.
End TransferSpec.


(** ** core/safe_sync.py: making and finding checkpoints *)
Module CheckpointSpec.
Import SafeSyncService.
Import Store.

Section Checkpoints.
Context `{Oracle}.

Lemma subprocess_run_files (args : list string) (r : exn + CompletedProcess.t) (w w' : World) :
  subprocess_run args w = (r, w') ->
  checkpoint_files w' = checkpoint_files w /\ log w' = log w ++ [Spawned args].
Proof.
  unfold subprocess_run. destruct (spawn_outcome w args) as [e|out]; intros [= _ <-].
  - split; reflexivity.
  - cbn [record_event checkpoint_files log].
    now rewrite SyncSpec.checkpoint_files_rsync_effect, SyncSpec.log_rsync_effect.
Qed.

Lemma mkdir_files (dir : string) (w : World) :
  checkpoint_files (mkdir dir w).2 = checkpoint_files w /\ log (mkdir dir w).2 = log w.
Proof. unfold mkdir. cbn [snd]. now destruct (trees w !! address dir). Qed.

(** A backup that exits fatally ends the sync before anything is
    transferred: the result is a failure with the error of the backup and
    without a checkpoint, the backup is the last process started, and no
    metadata file is written. *)
Theorem failed_backup_aborts
    (self : t) (source target : string) (strat : strategy)
    (verify auto_commit code_only : bool) (components : option (list string))
    (entry_src entry_dst : EnvEntry.t) (extra_excludes synced_components : list string)
    (out : ProcOutcome) (w0 w1 w2 : World) :
  config self !! source = Some entry_src ->
  config self !! target = Some entry_dst ->
  let ctx_dst := EnvContext.Build target entry_dst in
  scan_step self source code_only components w0 = (inr (extra_excludes, synced_components), w1) ->
  dirty_step strat ctx_dst w1 = (inr tt, w2) ->
  let backup_dir :=
    in_dir (checkpoint_dir self) (backup_name target (strftime w2 "%Y%m%d-%H%M%S")) in
  let args := backup_args ctx_dst backup_dir in
  spawn_outcome (mkdir backup_dir w2).2 args = inr out ->
  fatal (po_returncode out) = true ->
  exists w3,
    sync self source target strat true verify auto_commit code_only components w0
    = (inr (failed source target None (RuntimeError ("备份失败: " +:+ po_stderr out))), w3) /\
    log w3 = log w2 ++ [Spawned args] /\
    checkpoint_files w3 = checkpoint_files w2.
Proof.
  intros Hsrc Hdst ctx_dst Hscan Hdirty backup_dir args Hout Hfatal.
  set (wA := (mkdir backup_dir w2).2) in *.
  set (w3 := record_event (Spawned args) (rsync_effect args out wA)).
  assert (Hcreate : _create_checkpoint self ctx_dst w2
                    = (inl (RuntimeError ("备份失败: " +:+ po_stderr out)), w3)).
  { unfold _create_checkpoint.
    assert (Htime : time_strftime "%Y%m%d-%H%M%S" w2 = (inr (strftime w2 "%Y%m%d-%H%M%S"), w2))
      by reflexivity.
    rewrite (bind_ok _ _ _ _ _ Htime). cbn zeta. cbn [EnvContext.name ctx_dst].
    fold backup_dir.
    assert (Hmk : mkdir backup_dir w2 = (inr tt, wA)) by reflexivity.
    rewrite (bind_ok _ _ _ _ _ Hmk). fold args.
    rewrite (bind_ok _ _ _ _ _ (subprocess_run_ok _ _ _ Hout)).
    cbn [CompletedProcess.returncode CompletedProcess.stdout CompletedProcess.stderr].
    now rewrite Hfatal. }
  exists w3. split; [|split].
  - unfold sync.
    rewrite (bind_ok _ _ _ _ _ (SyncSpec.ctx_ok _ _ _ _ Hsrc)).
    rewrite (bind_ok _ _ _ _ _ (SyncSpec.ctx_ok _ _ _ _ Hdst)).
    fold ctx_dst.
    erewrite try_raise; [reflexivity|].
    rewrite (bind_ok _ _ _ _ _ Hscan).
    rewrite (bind_ok _ _ _ _ _ Hdirty).
    apply bind_raise. unfold checkpoint_step, fmap, St_fmap. now rewrite Hcreate.
  - unfold w3. cbn [record_event log]. rewrite SyncSpec.log_rsync_effect.
    unfold wA. now rewrite (proj2 (mkdir_files backup_dir w2)).
  - unfold w3. cbn [record_event checkpoint_files].
    rewrite SyncSpec.checkpoint_files_rsync_effect.
    unfold wA. now rewrite (proj1 (mkdir_files backup_dir w2)).
Qed.

(** What [_create_checkpoint] returns and writes, when it returns. *)
Lemma create_checkpoint_inv (self : t) (ctx : EnvContext.t) (cp : SyncCheckpoint.t)
    (w0 w1 : World) :
  _create_checkpoint self ctx w0 = (inr cp, w1) ->
  let ts := strftime w0 "%Y%m%d-%H%M%S" in
  let env := EnvContext.name ctx in
  (exists gc, cp = SyncCheckpoint.Build (Some ts) (Some env)
                     (Some (in_dir (checkpoint_dir self) (backup_name env ts))) gc []) /\
  checkpoint_files w1
  = put_file (checkpoint_name env ts) (Document (to_dict cp)) (checkpoint_files w0).
Proof.
  intros Hrun ts env. unfold _create_checkpoint in Hrun.
  apply bind_inr in Hrun as (ts' & wa & Htime & Hrun).
  injection Htime as <- <-. cbn zeta in Hrun. fold ts env in Hrun.
  set (backup_dir := in_dir (checkpoint_dir self) (backup_name env ts)) in *.
  apply bind_inr in Hrun as (u & wb & Hmk & Hrun).
  assert (Hwb : wb = (mkdir backup_dir w0).2) by now rewrite Hmk.
  apply bind_inr in Hrun as (proc & wc & Hproc & Hrun).
  apply subprocess_run_files in Hproc as [Hfiles _].
  destruct (fatal (CompletedProcess.returncode proc)); [discriminate|].
  apply bind_inr in Hrun as (gc & wd & Hgit & Hrun).
  assert (Hasks : only_asks wc wd).
  { revert Hgit. match goal with |- ?m wc = _ -> _ => assert (Hm : Asks m) by asks end.
    apply Hm. }
  destruct Hasks as (_ & Hfiles' & _).
  cbn zeta in Hrun.
  apply bind_inr in Hrun as (u' & we & Hwrite & Hrun).
  injection Hrun as Hcp Hw1. injection Hwrite as Hwe. subst cp w1 we.
  split; [eauto|].
  cbn [checkpoint_files set_checkpoint_files].
  rewrite Hfiles', Hfiles, Hwb. now rewrite (proj1 (mkdir_files backup_dir w0)).
Qed.

(** A checkpoint that [_create_checkpoint] returned for an environment
    whose name holds no glob character is listed for its environment and
    is the one found under its timestamp, when no record listed before
    carries this timestamp (and the records listed before have strings
    for timestamps).  (The pattern of the listing is made of the name as
    it is, so that a bracket in the name would be read as a set of
    characters.) *)
Theorem created_checkpoint_is_found (self : t) (ctx : EnvContext.t)
    (cp : SyncCheckpoint.t) (w0 w1 : World) :
  let env := EnvContext.name ctx in
  let ts := strftime w0 "%Y%m%d-%H%M%S" in
  glob_literal env = true ->
  _create_checkpoint self ctx w0 = (inr cp, w1) ->
  PyStr.contains "/" ts = false ->
  Forall (fun c => exists t, SyncCheckpoint.timestamp c = Some t /\ t <> ts) (loaded env w0) ->
  SyncCheckpoint.timestamp cp = Some ts /\
  (exists l, list_checkpoints self env w1 = (inr l, w1) /\ In cp l) /\
  _find_checkpoint self env (Some ts) w1 = (inr (Some cp), w1).
Proof.
  intros env ts Hname Hrun Hslash Hothers.
  destruct (create_checkpoint_inv self ctx cp w0 w1 Hrun) as ((gc & Hcp) & Hfiles).
  fold env ts in Hcp, Hfiles.
  assert (Hts : SyncCheckpoint.timestamp cp = Some ts) by now rewrite Hcp.
  assert (Hmember : forall c, c ∈ loaded env w1 -> c = cp \/ c ∈ loaded env w0).
  { intros c Hc. apply StoreSpec.elem_of_loaded in Hc as (name & f & Hin & Hm & Hload).
    rewrite Hfiles in Hin. apply RoundTripSpec.put_file_elem in Hin as [[= -> ->]|Hin].
    - left. rewrite RoundTripSpec.load_to_dict in Hload. congruence.
    - right. apply StoreSpec.elem_of_loaded. eauto. }
  assert (Hnew : cp ∈ loaded env w1).
  { apply StoreSpec.elem_of_loaded. exists (checkpoint_name env ts), (Document (to_dict cp)).
    split; [rewrite Hfiles; apply RoundTripSpec.put_file_new|].
    split; [now apply RoundTripSpec.checkpoint_name_listed|apply RoundTripSpec.load_to_dict]. }
  assert (Hstore : Forall (fun c => is_Some (SyncCheckpoint.timestamp c)) (loaded env w1)).
  { apply Forall_forall. intros c Hc. destruct (Hmember c Hc) as [->|Hold].
    - now exists ts.
    - rewrite Forall_forall in Hothers. destruct (Hothers c Hold) as (t & -> & _). now exists t. }
  destruct (StoreSpec.list_checkpoints_returns self env w1 (or_intror Hstore))
    as (l & Hl & Hperm & _).
  assert (Hin : In cp l) by (apply list_elem_of_In; now rewrite Hperm).
  split; [exact Hts|]. split; [eauto|].
  rewrite (RollbackSpec.find_checkpoint_unfold self env (Some ts) l w1 Hl). do 2 f_equal.
  destruct l as [|latest l]; [destruct Hin|].
  cbn [resolve]. apply RoundTripSpec.find_unique.
  - exact Hin.
  - now apply bool_decide_eq_true.
  - intros c Hc Hsame. apply bool_decide_eq_true in Hsame.
    apply list_elem_of_In in Hc. rewrite Hperm in Hc.
    destruct (Hmember c Hc) as [->|Hold]; [reflexivity|].
    rewrite Forall_forall in Hothers. destruct (Hothers c Hold) as (t & Ht & Hdiff).
    congruence.
Qed.

End Checkpoints.
End CheckpointSpec.

Lemma failed_backup_aborts_witness :
  exists w3,
    SafeSyncService.sync (H := Scenario.full_disk) Scenario.service "dev" "prod"
      SafeSyncService.safe true true false false None Scenario.dev_prod_files
    = (inr (SafeSyncService.failed "dev" "prod" None
              (RuntimeError "备份失败: rsync: write failed: No space left on device")), w3) /\
    checkpoint_files w3 = [].
Proof.
  edestruct (CheckpointSpec.failed_backup_aborts (H := Scenario.full_disk) Scenario.service
               "dev" "prod" SafeSyncService.safe true false false None
               Scenario.dev Scenario.prod [] []
               {| po_returncode := 11; po_stdout := "";
                  po_stderr := "rsync: write failed: No space left on device";
                  po_skipped := fun _ => true |}
               Scenario.dev_prod_files Scenario.dev_prod_files)
    as (w3 & Hsync & Hlog & Hfiles).
  - reflexivity.
  - reflexivity.
  - reflexivity.
  - vm_compute. reflexivity.
  - reflexivity.
  - reflexivity.
  - exists w3. split; [exact Hsync|]. rewrite Hfiles. reflexivity.
Defined.

Lemma created_checkpoint_is_found_witness :
  exists cp w1,
    SafeSyncService._create_checkpoint (H := Scenario.calm) Scenario.app_service
      (EnvContext.Build "app-staging" Scenario.app_staging) Scenario.app_files = (inr cp, w1) /\
    SafeSyncService._find_checkpoint Scenario.app_service "app-staging"
      (Some "20240101-100000"%string) w1 = (inr (Some cp), w1).
Proof.
  destruct (SafeSyncService._create_checkpoint (H := Scenario.calm) Scenario.app_service
              (EnvContext.Build "app-staging" Scenario.app_staging) Scenario.app_files)
    as [[e|cp] w1] eqn:E.
  - vm_compute in E. discriminate E.
  - exists cp, w1. split; [reflexivity|].
    destruct (CheckpointSpec.created_checkpoint_is_found (H := Scenario.calm)
                Scenario.app_service (EnvContext.Build "app-staging" Scenario.app_staging)
                cp Scenario.app_files w1 eq_refl E) as (_ & _ & Hfound).
    + reflexivity.
    + vm_compute. constructor.
    + exact Hfound.
Defined.

Module FindSpec.
Import SafeSyncService.
Import Store.

(** Where the listing returns: without an id [_find_checkpoint] gives
    the first record of the listing, than which no listed record has a
    later timestamp; with an id it gives a listed record that carries
    this timestamp, and [None] exactly when no listed record does. *)
Theorem find_checkpoint_newest_or_named (self : t) (env : string) (w : World) :
  (List.length (loaded env w) <= 1)%nat
  \/ Forall (fun cp => is_Some (SyncCheckpoint.timestamp cp)) (loaded env w) ->
  exists l,
    list_checkpoints self env w = (inr l, w) /\
    _find_checkpoint self env None w = (inr (head l), w) /\
    (forall latest c, head l = Some latest -> In c l ->
       String.ltb (key latest) (key c) = false) /\
    (forall id, exists found,
       _find_checkpoint self env (Some id) w = (inr found, w) /\
       match found with
       | Some cp => In cp l /\ SyncCheckpoint.timestamp cp = Some id
       | None => forall c, In c l -> SyncCheckpoint.timestamp c <> Some id
       end).
Proof.
  intros Hstore.
  destruct (StoreSpec.list_checkpoints_returns self env w Hstore) as (l & Hl & _ & Hsorted).
  exists l. split; [exact Hl|]. split; [|split].
  - rewrite (RollbackSpec.find_checkpoint_unfold self env None l w Hl). now destruct l.
  - intros latest c Hhead Hc. destruct l as [|x l]; [discriminate|].
    injection Hhead as ->. destruct Hc as [<-|Hc]; [apply ltb_irrefl|].
    apply StronglySorted_inv in Hsorted as [_ Hall].
    rewrite Forall_forall in Hall. apply Hall. now apply list_elem_of_In.
  - intros id.
    rewrite (RollbackSpec.find_checkpoint_unfold self env (Some id) l w Hl).
    eexists. split; [reflexivity|].
    assert (Hres : resolve l (Some id)
                   = List.find (fun cp => bool_decide (SyncCheckpoint.timestamp cp = Some id)) l)
      by now destruct l.
    rewrite Hres.
    destruct (List.find _ l) as [cp|] eqn:E.
    + apply find_some in E as [Hin Hts]. split; [exact Hin|]. now apply bool_decide_eq_true in Hts.
    + intros c Hc Hts. pose proof (find_none _ _ E c Hc) as Hno. cbn beta in Hno.
      apply bool_decide_eq_false in Hno. contradiction.
Qed.

End FindSpec.

Lemma find_checkpoint_newest_or_named_witness :
  exists l,
    SafeSyncService.list_checkpoints Scenario.app_service "app-staging" Scenario.three_nights
      = (inr l, Scenario.three_nights) /\
    List.map SyncCheckpoint.timestamp l
      = [Some "20240103-100000"; Some "20240102-100000"; Some "20240101-100000"]%string /\
    SafeSyncService._find_checkpoint Scenario.app_service "app-staging" None Scenario.three_nights
      = (inr (head l), Scenario.three_nights).
Proof.
  destruct (FindSpec.find_checkpoint_newest_or_named Scenario.app_service "app-staging"
              Scenario.three_nights) as (l & Hl & Hnone & _).
  - right. vm_compute. repeat (constructor; [eexists; reflexivity|]). constructor.
  - exists l. split; [exact Hl|]. split; [|exact Hnone].
    assert (E : SafeSyncService.list_checkpoints Scenario.app_service "app-staging"
                  Scenario.three_nights = (inr l, Scenario.three_nights)) by exact Hl.
    vm_compute in E. injection E as <-. reflexivity.
Defined.

(** ** core/safe_sync.py: what retention leaves alone *)
Module ConfinedSpec.
Import SafeSyncService.
Import Store.

Lemma file_of_prefix (env : string) (cp : SyncCheckpoint.t) :
  PyStr.startswith (file_of env cp) ("checkpoint-" +:+ env +:+ "-") = true.
Proof.
  unfold PyStr.startswith, file_of, checkpoint_name.
  replace ("checkpoint-" +:+ env +:+ "-" +:+ format_value (SyncCheckpoint.timestamp cp)
           +:+ ".json")
    with (("checkpoint-" +:+ env +:+ "-")
          +:+ (format_value (SyncCheckpoint.timestamp cp) +:+ ".json"))
    by (rewrite !RoundTripSpec.app_assoc_string; reflexivity).
  apply SecretSpec.prefix_app.
Qed.

(** One turn of the loop, however it ends: no file appears, and only the
    file named after the environment and the timestamp can go. *)
Lemma remove_checkpoint_confined (self : t) (env : string) (cp : SyncCheckpoint.t)
    (r : exn + unit) (w w' : World) :
  remove_checkpoint self env cp w = (r, w') ->
  (forall f, In f (checkpoint_files w') -> In f (checkpoint_files w)) /\
  (forall f, In f (checkpoint_files w) -> f.1 <> file_of env cp -> In f (checkpoint_files w')).
Proof.
  unfold remove_checkpoint. fold (file_of env cp).
  destruct (SyncCheckpoint.backup_path cp) as [backup|].
  2:{ intros [= _ <-]. auto. }
  rewrite bind_ret_l. unfold mbind, St_bind, dir_exists, meta_exists.
  set (w1 := if bool_decide (is_Some (trees w !! address backup))
             then set_trees (delete (address backup)) w else w).
  assert (Hw1 : (if bool_decide (is_Some (trees w !! address backup))
                 then rmtree backup else mret tt) w = (inr tt, w1)).
  { unfold w1. now destruct (bool_decide _). }
  assert (Hc1 : checkpoint_files w1 = checkpoint_files w).
  { unfold w1. now destruct (bool_decide _). }
  rewrite Hw1.
  destruct (existsb _ (checkpoint_files w1)); intros [= _ <-].
  - cbn [meta_unlink snd checkpoint_files set_checkpoint_files]. rewrite Hc1. split.
    + intros f Hf. now apply filter_In in Hf as [Hf _].
    + intros f Hf Hne. apply filter_In. split; [exact Hf|].
      apply negb_true_iff. now apply String.eqb_neq.
  - rewrite Hc1. auto.
Qed.

Lemma cleanup_loop_confined (self : t) (env : string) (rest : list SyncCheckpoint.t) :
  forall (r : exn + unit) (w w' : World),
    for_each rest (fun cp _ => remove_checkpoint self env cp) tt w = (r, w') ->
    (forall f, In f (checkpoint_files w') -> In f (checkpoint_files w)) /\
    (forall f, In f (checkpoint_files w) ->
       PyStr.startswith f.1 ("checkpoint-" +:+ env +:+ "-") = false ->
       In f (checkpoint_files w')).
Proof.
  induction rest as [|cp rest IH]; intros r w w' Hrun.
  - injection Hrun as _ <-. auto.
  - cbn [for_each] in Hrun.
    assert (Hforeign : forall f : string * MetaFile,
               PyStr.startswith f.1 ("checkpoint-" +:+ env +:+ "-") = false ->
               f.1 <> file_of env cp).
    { intros f Hf Heq. rewrite Heq, file_of_prefix in Hf. discriminate. }
    apply bind_cases in Hrun as [(e & Hstep & _)|([] & w1 & Hstep & Hrun)].
    + apply remove_checkpoint_confined in Hstep as [Hsub Hkeep]. split; [exact Hsub|].
      intros f Hf Hpre. apply Hkeep; auto.
    + apply remove_checkpoint_confined in Hstep as [Hsub Hkeep].
      apply IH in Hrun as [Hsub' Hkeep']. split; [auto|].
      intros f Hf Hpre. apply Hkeep'; auto.
Qed.

(** However [cleanup_checkpoints] ends, it creates no metadata file and
    removes none whose name does not start with the word checkpoint, the
    name of the environment and a hyphen; and where the listing holds no
    more than [keep] records it changes nothing at all. *)
Theorem cleanup_is_confined (self : t) (env : string) (keep : Z)
    (r : exn + unit) (w w' : World) :
  cleanup_checkpoints self env keep w = (r, w') ->
  (forall f, In f (checkpoint_files w') -> In f (checkpoint_files w)) /\
  (forall f, In f (checkpoint_files w) ->
     PyStr.startswith f.1 ("checkpoint-" +:+ env +:+ "-") = false ->
     In f (checkpoint_files w')) /\
  (forall l, list_checkpoints self env w = (inr l, w) ->
     (Z.of_nat (List.length l) <= keep)%Z -> r = inr tt /\ w' = w).
Proof.
  intros Hrun. unfold cleanup_checkpoints in Hrun.
  assert (Hsame : forall x w1, list_checkpoints self env w = (x, w1) -> w1 = w).
  { intros x w1. rewrite StoreSpec.list_checkpoints_unfold.
    destruct (sorted_by_timestamp _); now intros [= _ <-]. }
  apply bind_cases in Hrun as [(e & Hl & _)|(l & w1 & Hl & Hrun)].
  - pose proof (Hsame _ _ Hl). subst w'. split; [auto|]. split; [auto|].
    intros l Hl'. rewrite Hl in Hl'. discriminate.
  - pose proof (Hsame _ _ Hl). subst w1.
    split; [|split].
    + eapply cleanup_loop_confined, Hrun.
    + eapply cleanup_loop_confined, Hrun.
    + intros l' Hl' Hlen. rewrite Hl in Hl'. injection Hl' as <-.
      unfold slice_from in Hrun.
      destruct (keep <? 0)%Z eqn:E; [apply Z.ltb_lt in E; lia|].
      rewrite skipn_all2 in Hrun by lia. now injection Hrun as <- <-.
Qed.

End ConfinedSpec.

Lemma cleanup_is_confined_witness :
  exists r w',
    SafeSyncService.cleanup_checkpoints Scenario.app_service "app-staging" 1
      Scenario.two_checkpoints = (r, w') /\
    In ("checkpoint-app-20240102-100000.json"%string,
        Document (SafeSyncService.to_dict
                    (SyncCheckpoint.Build (Some "20240102-100000"%string) (Some "app"%string)
                       (Some "/home/u/.envsync/checkpoints/backup-app-20240102-100000"%string)
                       None [])))
       (checkpoint_files w').
Proof.
  destruct (SafeSyncService.cleanup_checkpoints Scenario.app_service "app-staging" 1
              Scenario.two_checkpoints) as [r w'] eqn:E.
  exists r, w'. split; [reflexivity|].
  apply (ConfinedSpec.cleanup_is_confined Scenario.app_service "app-staging" 1 r
           Scenario.two_checkpoints w' E).
  - vm_compute. auto.
  - vm_compute. reflexivity.
Defined.

Lemma sync_target_without_git_witness :
  exists w2,
    SafeSyncService.sync (H := Scenario.calm) Scenario.service "dev" "prod"
      SafeSyncService.safe true true false false None Scenario.dev_prod_files
    = (inr (SafeSyncService.failed "dev" "prod" None
              (RuntimeError "prod: 路径不是 git 仓库: /srv/prod")), w2).
Proof.
  eexists.
  eapply (SyncSpec.sync_target_without_git (H := Scenario.calm) Scenario.service "dev" "prod"
            true true false false None Scenario.dev Scenario.prod [] []).
  - reflexivity.
  - reflexivity.
  - reflexivity.
  - vm_compute. reflexivity.
Defined.

(** ** core/diff.py: the report *)
Module ReportSpec.
Import DiffService.

Lemma classify_line_details (acc : tally) (ln : string) :
  List.length (detail_lines acc) = created acc + modified acc + deleted acc ->
  Forall (fun d => PyStr.startswith d "ADD " = true \/ PyStr.startswith d "MOD " = true
                   \/ PyStr.startswith d "DEL " = true) (detail_lines acc) ->
  let acc' := classify_line acc ln in
  List.length (detail_lines acc') = created acc' + modified acc' + deleted acc' /\
  Forall (fun d => PyStr.startswith d "ADD " = true \/ PyStr.startswith d "MOD " = true
                   \/ PyStr.startswith d "DEL " = true) (detail_lines acc').
Proof.
  intros Hlen Hall. cbn zeta. unfold classify_line.
  destruct (PyStr.blank ln); [auto|].
  destruct (PyStr.startswith ln "*deleting ").
  - cbn [detail_lines created modified deleted]. rewrite length_app. cbn [List.length].
    split; [lia|]. apply Forall_app. split; [exact Hall|].
    constructor; [|constructor]. right. right. apply SecretSpec.prefix_app.
  - destruct (PyStr.partition_space ln) as [[item sep] path].
    destruct (String.eqb path ""); [auto|].
    destruct (PyStr.contains "+++++++++" item);
      cbn [detail_lines created modified deleted]; rewrite length_app; cbn [List.length];
      (split; [lia|]); apply Forall_app; (split; [exact Hall|]);
      (constructor; [|constructor]).
    + left. apply SecretSpec.prefix_app.
    + right. left. apply SecretSpec.prefix_app.
Qed.

Lemma classify_output_details (stdout : string) :
  let t := classify_output stdout in
  List.length (detail_lines t) = created t + modified t + deleted t /\
  Forall (fun d => PyStr.startswith d "ADD " = true \/ PyStr.startswith d "MOD " = true
                   \/ PyStr.startswith d "DEL " = true) (detail_lines t).
Proof.
  cbn zeta. unfold classify_output.
  set (start := {| created := 0; modified := 0; deleted := 0; detail_lines := [] |}).
  assert (Hstart : List.length (detail_lines start)
                   = created start + modified start + deleted start /\
                   Forall (fun d => PyStr.startswith d "ADD " = true
                                    \/ PyStr.startswith d "MOD " = true
                                    \/ PyStr.startswith d "DEL " = true) (detail_lines start))
    by (split; [reflexivity|constructor]).
  revert Hstart. generalize start.
  induction (PyStr.splitlines stdout) as [|ln lines IH]; intros acc Hacc; [exact Hacc|].
  cbn [List.fold_left]. apply IH. destruct Hacc. now apply classify_line_details.
Qed.

Lemma parse_diff_args (src dst : EnvContext.t) :
  exists rq, Rsync.parse (diff_args src dst) = Some rq /\ Rsync.dry_run rq = true.
Proof. eexists. split; reflexivity. Qed.

Section Report.
Context `{Oracle}.

Lemma rsync_diff_frame (src dst : EnvContext.t) (r : exn + (list string * (nat * nat * nat)))
    (w w' : World) :
  _rsync_diff src dst w = (r, w') ->
  trees w' = trees w /\ report_files w' = report_files w /\
  checkpoint_files w' = checkpoint_files w.
Proof.
  unfold _rsync_diff, mbind, St_bind, subprocess_run.
  destruct (parse_diff_args src dst) as (rq & Hparse & Hdry).
  destruct (spawn_outcome w (diff_args src dst)) as [e|out].
  - intros [= _ <-]. auto.
  - assert (Hsame : rsync_effect (diff_args src dst) out w = w).
    { unfold rsync_effect. now rewrite Hparse, Hdry. }
    rewrite Hsame.
    cbn [CompletedProcess.returncode CompletedProcess.stdout CompletedProcess.stderr].
    destruct (SafeSyncService.fatal (po_returncode out)); intros [= _ <-]; auto.
Qed.

(** A comparison whose dry run does not exit fatally changes no directory
    and writes one report, under the name that the result carries, made
    of the names of the two environments and the time at which the
    comparison began.  The report has a header line, a line of hyphens as
    long as the header, and one line for each change counted, marked ADD,
    MOD or DEL; the summary gives the three counts and the name of the
    report. *)
Theorem compare_writes_one_report (config : Config) (report_dir env1 env2 : string)
    (entry1 entry2 : EnvEntry.t) (out : ProcOutcome) (w : World) :
  config !! env1 = Some entry1 ->
  config !! env2 = Some entry2 ->
  let ctx1 := EnvContext.Build env1 entry1 in
  let ctx2 := EnvContext.Build env2 entry2 in
  spawn_outcome w (diff_args ctx1 ctx2) = inr out ->
  SafeSyncService.fatal (po_returncode out) = false ->
  let name := report_dir +:+ "/diff-" +:+ env1 +:+ "-vs-" +:+ env2 +:+ "-"
              +:+ strftime w "%Y%m%d-%H%M%S" +:+ ".txt" in
  let t := classify_output (po_stdout out) in
  let header := "rsync dry-run diff " +:+ EnvContext.display ctx1 +:+ " -> "
                +:+ EnvContext.display ctx2 in
  exists report w',
    compare config report_dir env1 env2 w = (inr report, w') /\
    trees w' = trees w /\
    report_files w'
    = <[name := header :: PyStr.repeat_char "-" (PyStr.len header) :: detail_lines t]>
        (report_files w) /\
    DiffReport.output_path report = Some name /\
    DiffReport.summary_lines report
    = [ "新增: " +:+ PyStr.of_nat (created t); "修改: " +:+ PyStr.of_nat (modified t);
        "删除: " +:+ PyStr.of_nat (deleted t); "报告: " +:+ name ] /\
    List.length (detail_lines t) = created t + modified t + deleted t /\
    Forall (fun d => PyStr.startswith d "ADD " = true \/ PyStr.startswith d "MOD " = true
                     \/ PyStr.startswith d "DEL " = true) (detail_lines t).
Proof.
  intros H1 H2 ctx1 ctx2 Hout Hfatal name t header.
  destruct (classify_output_details (po_stdout out)) as [Hlen Hmarks]. fold t in Hlen, Hmarks.
  set (w1 := record_event (Spawned (diff_args ctx1 ctx2))
               (rsync_effect (diff_args ctx1 ctx2) out w)).
  assert (Hdiff : _rsync_diff ctx1 ctx2 w
                  = (inr (header :: PyStr.repeat_char "-" (PyStr.len header) :: detail_lines t,
                          (created t, modified t, deleted t)), w1)).
  { unfold _rsync_diff.
    rewrite (bind_ok _ _ _ _ _ (subprocess_run_ok _ _ _ Hout)).
    cbn [CompletedProcess.returncode CompletedProcess.stdout CompletedProcess.stderr].
    now rewrite Hfatal. }
  destruct (rsync_diff_frame _ _ _ _ _ Hdiff) as (Htrees & Hreports & _).
  eexists _, _. split; [|split; [|split; [|split; [|split; [|split]]]]].
  - unfold compare, _build_ctx. rewrite H1, H2. rewrite !bind_ret_l.
    unfold time_strftime at 1. unfold mbind at 1, St_bind at 1. fold ctx1 ctx2.
    rewrite (bind_ok _ _ _ _ _ Hdiff). cbn zeta. reflexivity.
  - cbn [trees set_report_files]. exact Htrees.
  - cbn [report_files set_report_files]. now rewrite Hreports.
  - reflexivity.
  - reflexivity.
  - exact Hlen.
  - exact Hmarks.
Qed.

(** A comparison that raises writes no report and changes no directory;
    and one of an environment that is not configured raises ValueError
    before any process is started. *)
Theorem compare_raise_leaves_no_report (config : Config) (report_dir env1 env2 : string)
    (e : exn) (w w' : World) :
  compare config report_dir env1 env2 w = (inl e, w') ->
  report_files w' = report_files w /\
  trees w' = trees w /\
  (config !! env1 = None \/ config !! env2 = None ->
   w' = w /\ exists env, e = ValueError ("环境未配置: " +:+ env)).
Proof.
  unfold compare, _build_ctx. intros Hrun.
  destruct (config !! env1) as [entry1|].
  2:{ apply bind_cases in Hrun as [(e' & Hm & He)|(x & w1 & Hm & _)]; [|discriminate Hm].
      injection He as ->. injection Hm as <- <-. repeat split; eauto. }
  rewrite bind_ret_l in Hrun.
  destruct (config !! env2) as [entry2|].
  2:{ apply bind_cases in Hrun as [(e' & Hm & He)|(x & w1 & Hm & _)]; [|discriminate Hm].
      injection He as ->. injection Hm as <- <-. repeat split; eauto. }
  rewrite bind_ret_l in Hrun. unfold time_strftime at 1 in Hrun.
  unfold mbind at 1, St_bind at 1 in Hrun.
  apply bind_cases in Hrun as [(e' & Hdiff & _)|([lines stats] & w1 & _ & Hrun)].
  - apply rsync_diff_frame in Hdiff as (Ht & Hr & _).
    split; [exact Hr|]. split; [exact Ht|]. intros [E|E]; discriminate E.
  - cbn zeta in Hrun. apply bind_cases in Hrun as [(e' & Hw & _)|(u & w2 & _ & Hrun)];
      discriminate.
Qed.

End Report.
End ReportSpec.

Lemma compare_writes_one_report_witness :
  exists report w',
    DiffService.compare (H := Scenario.drifted) Scenario.two_envs "/home/u/.envsync/reports"
      "dev" "prod" Scenario.empty_world = (inr report, w') /\
    DiffReport.summary_lines report
    = [ "新增: 1"; "修改: 1"; "删除: 1";
        "报告: /home/u/.envsync/reports/diff-dev-vs-prod-20240101-120000.txt" ]%string /\
    report_files w' !! "/home/u/.envsync/reports/diff-dev-vs-prod-20240101-120000.txt"%string
    = Some [ "rsync dry-run diff /srv/dev -> /srv/prod"; "----------------------------------------";
             "ADD notes/new.txt"; "MOD app/main.py"; "DEL   old.cfg" ]%string.
Proof.
  destruct (ReportSpec.compare_writes_one_report (H := Scenario.drifted) Scenario.two_envs
              "/home/u/.envsync/reports" "dev" "prod" Scenario.dev Scenario.prod
              {| po_returncode := 0; po_stdout := Scenario.three_changes; po_stderr := "";
                 po_skipped := fun _ => false |} Scenario.empty_world)
    as (report & w' & Hrun & _ & Hfiles & _ & Hsummary & _).
  - vm_compute. reflexivity.
  - vm_compute. reflexivity.
  - reflexivity.
  - reflexivity.
  - exists report, w'. split; [exact Hrun|]. split.
    + rewrite Hsummary. vm_compute. reflexivity.
    + rewrite Hfiles. vm_compute. reflexivity.
Defined.

Lemma compare_raise_leaves_no_report_witness :
  DiffService.compare (H := Scenario.drifted) Scenario.two_envs "/home/u/.envsync/reports"
    "dev" "qa" Scenario.empty_world
  = (inl (ValueError "环境未配置: qa"), Scenario.empty_world) /\
  report_files Scenario.empty_world = ∅.
Proof.
  split; [reflexivity|].
  apply (ReportSpec.compare_raise_leaves_no_report (H := Scenario.drifted) Scenario.two_envs
           "/home/u/.envsync/reports" "dev" "qa" (ValueError "环境未配置: qa")
           Scenario.empty_world Scenario.empty_world).
  reflexivity.
Defined.

(** ** utils/crypto.py: the key file and the old format *)
Module KeySpec.
Import SecretManager.

Section Keys.
Context `{CryptoLib}.

Lemma get_key_state (kf : option string) :
  (_get_or_create_key kf).2 = Some (default derived_key kf).
Proof. now destruct kf. Qed.

(** Neither [encrypt] nor [decrypt] writes over a key file that exists;
    where there is none, they leave none or create the one that holds the
    key derived on this machine, whatever else happens, an exception
    included. *)
Theorem key_file_written_once (entropy plaintext ciphertext : string)
    (key_file : option string) :
  let after_encrypt := (encrypt entropy plaintext key_file).2 in
  let after_decrypt := (decrypt ciphertext key_file).2 in
  match key_file with
  | Some key => after_encrypt = Some key /\ after_decrypt = Some key
  | None =>
      (after_encrypt = None \/ after_encrypt = Some derived_key) /\
      (after_decrypt = None \/ after_decrypt = Some derived_key)
  end.
Proof.
  cbn zeta.
  assert (Henc : (encrypt entropy plaintext key_file).2 = key_file
                 \/ (encrypt entropy plaintext key_file).2 = Some (default derived_key key_file)).
  { unfold encrypt. destruct (String.eqb plaintext ""); [now left|]. right.
    unfold mbind, St_bind. pose proof (get_key_state key_file) as Hk.
    destruct (_get_or_create_key key_file) as [[e|k] kf]; cbn [snd] in *; [exact Hk|].
    unfold Fernet. destruct (fernet_key_ok k); [|exact Hk].
    cbn [mret St_ret]. now destruct (encode plaintext). }
  assert (Hdec : (decrypt ciphertext key_file).2 = key_file
                 \/ (decrypt ciphertext key_file).2 = Some (default derived_key key_file)).
  { unfold decrypt. destruct (String.eqb ciphertext ""); [now left|]. right.
    unfold try_except, mbind, St_bind. pose proof (get_key_state key_file) as Hk.
    destruct (_get_or_create_key key_file) as [[e|k] kf]; cbn [snd] in *; [exact Hk|].
    unfold Fernet. destruct (fernet_key_ok k); [|exact Hk].
    cbn [mret St_ret].
    destruct (encode _); [exact Hk|].
    destruct (b64decode _); [|exact Hk].
    destruct (fernet_decrypt _ _); [|exact Hk].
    now destruct (decode _). }
  destruct key_file as [key|]; cbn [default] in *.
  - split; [now destruct Henc|now destruct Hdec].
  - tauto.
Qed.

End Keys.

Section Legacy.
Context `{CryptoLaws}.

(** [decrypt] takes a ciphertext of the old format, without the prefix:
    what Fernet made of a plaintext under the key in use, in base 64,
    decrypts to the plaintext. *)
Theorem decrypt_without_prefix (entropy p : string) (key_file : option string) :
  usable key_file ->
  utf8_valid p = true ->
  let key := default derived_key key_file in
  let c := b64encode (fernet_encrypt key entropy p) in
  c <> EmptyString ->
  PyStr.startswith c ENCRYPTED_PREFIX = false ->
  decrypt c key_file = (inr p, Some key).
Proof.
  intros Hk Hp key c Hne Hprefix.
  destruct (SecretSpec.key_ready key_file Hk) as (k & kf & Hget & Hok & _).
  assert (Hkey : k = key /\ kf = Some key).
  { destruct key_file; injection Hget as <- <-; auto. }
  destruct Hkey as [-> ->].
  unfold decrypt. apply String.eqb_neq in Hne. rewrite Hne, Hprefix.
  apply try_ok.
  rewrite (bind_ok _ _ _ _ _ Hget). unfold Fernet. rewrite Hok.
  unfold mbind, St_bind, mret, St_ret. unfold c.
  rewrite SecretSpec.encode_ascii by apply b64_ascii.
  rewrite b64_roundtrip, fernet_roundtrip by exact Hok.
  unfold decode. now rewrite Hp.
Qed.

End Legacy.
End KeySpec.

Lemma decrypt_without_prefix_witness :
  SecretManager.decrypt (H := Scenario.toy_lib)
    (b64encode (CryptoLib := Scenario.toy_lib)
       (fernet_encrypt (CryptoLib := Scenario.toy_lib)
          (derived_key (CryptoLib := Scenario.toy_lib)) "iv" "s3cret")) None
  = (inr "s3cret"%string, Some (derived_key (CryptoLib := Scenario.toy_lib))).
Proof.
  apply (KeySpec.decrypt_without_prefix (H0 := SecretSpec.toy_laws) "iv" "s3cret" None).
  - exact I.
  - reflexivity.
  - vm_compute. discriminate.
  - vm_compute. reflexivity.
Defined.

(** ** core/config.py: the token of the GitLab settings *)
Module TokenSpec.
Import SecretManager.
Import GitLabConfig.

Section Token.
Context `{CryptoLaws}.

(** What [encrypt] returns for a plaintext that is not empty, and what
    [decrypt] and [is_encrypted] make of it. *)
Lemma encrypted_token (entropy p : string) (key_file : option string) :
  usable key_file ->
  utf8_valid p = true ->
  p <> EmptyString ->
  exists c kf,
    encrypt entropy p key_file = (inr c, kf) /\
    PyStr.startswith c ENCRYPTED_PREFIX = true /\
    is_encrypted c = true /\
    decrypt c kf = (inr p, kf) /\
    usable kf.
Proof.
  intros Hk Hp Hne.
  destruct (SecretSpec.key_ready key_file Hk) as (k & kf & Hget & Hok & Hget').
  exists (ENCRYPTED_PREFIX +:+ b64encode (fernet_encrypt k entropy p)), kf.
  assert (Hnot : forall x, String.eqb (ENCRYPTED_PREFIX +:+ x) "" = false)
    by (intros x; reflexivity).
  split; [|split; [|split; [|split]]].
  - unfold encrypt. apply String.eqb_neq in Hne. rewrite Hne.
    rewrite (bind_ok _ _ _ _ _ Hget). unfold Fernet. rewrite Hok.
    unfold mbind, St_bind, mret, St_ret, encode. now rewrite Hp.
  - apply SecretSpec.prefix_app.
  - unfold is_encrypted. rewrite Hnot. unfold PyStr.startswith.
    now rewrite SecretSpec.prefix_app.
  - unfold decrypt. rewrite Hnot. unfold PyStr.startswith. rewrite SecretSpec.prefix_app.
    rewrite SecretSpec.drop_prefix by apply b64_ascii.
    apply try_ok. rewrite (bind_ok _ _ _ _ _ Hget'). unfold Fernet. rewrite Hok.
    unfold mbind, St_bind, mret, St_ret.
    rewrite SecretSpec.encode_ascii by apply b64_ascii.
    rewrite b64_roundtrip, fernet_roundtrip by exact Hok.
    unfold decode. now rewrite Hp.
  - destruct key_file; injection Hget as <- <-; exact Hok.
Qed.

Lemma lookup_token (tv u pr : option string) :
  (if truthy pr then <["project" := pr]> (<["token" := tv]> (<["url" := u]> (∅ : Mapping)))
   else <["token" := tv]> (<["url" := u]> ∅)) !! "token" = Some tv /\
  (if truthy pr then <["project" := pr]> (<["token" := tv]> (<["url" := u]> (∅ : Mapping)))
   else <["token" := tv]> (<["url" := u]> ∅)) !! "url" = Some u /\
  (if truthy pr then <["project" := pr]> (<["token" := tv]> (<["url" := u]> (∅ : Mapping)))
   else <["token" := tv]> (<["url" := u]> ∅)) !! "project"
  = if truthy pr then Some pr else None.
Proof.
  destruct (truthy pr).
  - rewrite lookup_insert_ne by discriminate. rewrite lookup_insert_eq.
    rewrite lookup_insert_ne by discriminate. rewrite lookup_insert_ne by discriminate.
    rewrite lookup_insert_eq. rewrite lookup_insert_eq. auto.
  - rewrite lookup_insert_eq. rewrite lookup_insert_ne by discriminate.
    rewrite lookup_insert_eq. rewrite lookup_insert_ne by discriminate.
    rewrite lookup_insert_ne by discriminate. rewrite lookup_empty. auto.
Qed.

(** Settings with a token in clear, written with encryption and read
    back. *)
Lemma save_then_load (entropy p : string) (self : t) (key_file : option string) :
  usable key_file ->
  token self = Some p ->
  p <> EmptyString ->
  utf8_valid p = true ->
  _encrypted self = false ->
  exists c data kf,
    to_dict entropy true self key_file = (inr data, kf) /\
    data !! "token" = Some (Some c) /\
    PyStr.startswith c ENCRYPTED_PREFIX = true /\
    from_dict data kf
    = (inr (Build (url self) (Some p)
                  (if truthy (project self) then project self else None) true), kf).
Proof.
  intros Hk Htoken Hne Hp Hflag.
  destruct (encrypted_token entropy p key_file Hk Hp Hne)
    as (c & kf & Henc & Hprefix & Hrec & Hdec & _).
  set (data := if truthy (project self)
               then <["project" := project self]>
                      (<["token" := Some c]> (<["url" := url self]> (∅ : Mapping)))
               else <["token" := Some c]> (<["url" := url self]> ∅)).
  destruct (lookup_token (Some c) (url self) (project self)) as (Ht & Hu & Hpr).
  fold data in Ht, Hu, Hpr.
  exists c, data, kf. split; [|split; [exact Ht|split; [exact Hprefix|]]].
  - unfold to_dict. rewrite Hflag, Htoken. cbn [andb negb encrypt_value].
    unfold fmap, St_fmap, mbind, St_bind. rewrite Henc. reflexivity.
  - unfold from_dict. rewrite Ht, Hu, Hpr. cbn zeta. cbn [from_option]. unfold id.
    cbn [is_encrypted_value]. rewrite Hrec.
    unfold fmap, St_fmap, mbind, St_bind. rewrite Hdec.
    unfold mret, St_ret. now destruct (truthy (project self)).
Qed.

(** Settings that do not carry the mark of a token stored encrypted, with
    a token that is not empty and that UTF-8 encodes, and a usable key:
    the token survives a save with encryption followed by a load.  What is
    written under the key token carries the prefix of encrypted text, and
    what is read back holds the token in clear, the same address, the
    project unless it is empty, and the mark that it was stored
    encrypted. *)
Theorem token_roundtrip (entropy p : string) (self : t) (key_file : option string) :
  usable key_file ->
  token self = Some p ->
  p <> EmptyString ->
  utf8_valid p = true ->
  _encrypted self = false ->
  exists c data kf loaded,
    to_dict entropy true self key_file = (inr data, kf) /\
    data !! "token" = Some (Some c) /\
    PyStr.startswith c ENCRYPTED_PREFIX = true /\
    from_dict data kf = (inr loaded, kf) /\
    token loaded = Some p /\
    url loaded = url self /\
    project loaded = (if truthy (project self) then project self else None) /\
    _encrypted loaded = true.
Proof.
  intros Hk Htoken Hne Hp Hflag.
  destruct (save_then_load entropy p self key_file Hk Htoken Hne Hp Hflag)
    as (c & data & kf & Hsave & Ht & Hprefix & Hload).
  exists c, data, kf,
    (Build (url self) (Some p) (if truthy (project self) then project self else None) true).
  repeat split; assumption.
Qed.

(** Settings read from a file with an encrypted token are written back
    with the token in clear, although encryption is asked for: the mark
    that the token was stored encrypted makes [to_dict] pass the token it
    holds, which is the decrypted one. *)
Theorem loaded_token_saved_in_clear (entropy entropy' p : string) (self : t)
    (key_file : option string) :
  usable key_file ->
  token self = Some p ->
  p <> EmptyString ->
  utf8_valid p = true ->
  _encrypted self = false ->
  exists data kf loaded data',
    to_dict entropy true self key_file = (inr data, kf) /\
    from_dict data kf = (inr loaded, kf) /\
    to_dict entropy' true loaded kf = (inr data', kf) /\
    data' !! "token" = Some (Some p).
Proof.
  intros Hk Htoken Hne Hp Hflag.
  destruct (save_then_load entropy p self key_file Hk Htoken Hne Hp Hflag)
    as (c & data & kf & Hsave & _ & _ & Hload).
  exists data, kf. eexists _, _. split; [exact Hsave|]. split; [exact Hload|].
  split; [reflexivity|].
  cbn [project token url].
  apply (lookup_token (Some p) (url self)
           (if truthy (project self) then project self else None)).
Qed.

End Token.
End TokenSpec.

Lemma token_roundtrip_witness :
  exists c data kf loaded,
    GitLabConfig.to_dict (H := Scenario.toy_lib) "iv" true Scenario.gitlab_settings None
      = (inr data, kf) /\
    data !! "token"%string = Some (Some c) /\
    PyStr.startswith c SecretManager.ENCRYPTED_PREFIX = true /\
    GitLabConfig.from_dict (H := Scenario.toy_lib) data kf = (inr loaded, kf) /\
    GitLabConfig.token loaded = Some "glpat-123"%string.
Proof.
  destruct (TokenSpec.token_roundtrip (H0 := SecretSpec.toy_laws) "iv" "glpat-123"
              Scenario.gitlab_settings None)
    as (c & data & kf & loaded & Hsave & Ht & Hprefix & Hload & Htoken & _).
  - exact I.
  - reflexivity.
  - discriminate.
  - reflexivity.
  - reflexivity.
  - exists c, data, kf, loaded. auto.
Defined.

Lemma loaded_token_saved_in_clear_witness :
  exists data kf loaded data',
    GitLabConfig.to_dict (H := Scenario.toy_lib) "iv" true Scenario.gitlab_settings None
      = (inr data, kf) /\
    GitLabConfig.from_dict (H := Scenario.toy_lib) data kf = (inr loaded, kf) /\
    GitLabConfig.to_dict (H := Scenario.toy_lib) "iv2" true loaded kf = (inr data', kf) /\
    data' !! "token"%string = Some (Some "glpat-123"%string).
Proof.
  apply (TokenSpec.loaded_token_saved_in_clear (H0 := SecretSpec.toy_laws) "iv" "iv2" "glpat-123"
           Scenario.gitlab_settings None).
  - exact I.
  - reflexivity.
  - discriminate.
  - reflexivity.
  - reflexivity.
Defined.

(** ** core/sync.py: the plain sync *)
Module PlainSyncSpec.
Import SyncService.

Section Plain.
Context `{Oracle}.

Lemma plain_ctx_ok (config : Config) (env : string) (entry : EnvEntry.t) (w : World) :
  config !! env = Some entry -> _ctx config env w = (inr (EnvContext.Build env entry), w).
Proof. intros E. unfold _ctx. now rewrite E. Qed.

(** With the safe strategy and a target whose status reports
    uncommitted changes, [sync] raises a RuntimeError that lists the first
    twenty lines of the status, and no transfer is started. *)
Theorem plain_sync_dirty_target_raises (config : Config) (source target : string)
    (entry_src entry_dst : EnvEntry.t) (status : GitStatus.t) (w w1 w2 : World) :
  config !! source = Some entry_src ->
  config !! target = Some entry_dst ->
  let ctx_dst := EnvContext.Build target entry_dst in
  GitRepo.ensure_repo ctx_dst w = (inr tt, w1) ->
  GitRepo.status ctx_dst w1 = (inr status, w2) ->
  GitStatus.dirty status = true ->
  sync config source target SafeSyncService.safe w
  = (inl (RuntimeError ("目标 " +:+ EnvContext.display ctx_dst +:+
                        " 有未提交变更，已中止同步。" +:+ PyStr.newline +:+
                        PyStr.join PyStr.newline (firstn 20 (GitStatus.short_status status)))),
     w2) /\
  trees w2 = trees w /\
  (forall args, In (Spawned args) (log w2) -> In (Spawned args) (log w)).
Proof.
  intros Hsrc Hdst ctx_dst Hrepo Hstatus Hdirty. split.
  - unfold sync.
    rewrite (bind_ok _ _ _ _ _ (plain_ctx_ok _ _ _ _ Hsrc)).
    rewrite (bind_ok _ _ _ _ _ (plain_ctx_ok _ _ _ _ Hdst)). fold ctx_dst.
    apply bind_raise. unfold _ensure_clean_target.
    assert (Hgit : _git_repo ctx_dst w = (inr (Some ctx_dst), w1)).
    { unfold _git_repo. apply try_ok. now rewrite (bind_ok _ _ _ _ _ Hrepo). }
    rewrite (bind_ok _ _ _ _ _ Hgit). rewrite (bind_ok _ _ _ _ _ Hstatus).
    now rewrite Hdirty.
  - assert (Hasks : only_asks w w2).
    { eapply only_asks_trans; [eapply asks_ensure_repo, Hrepo|eapply asks_status, Hstatus]. }
    destruct Hasks as (Ht & _ & _ & evs & Hl & Hevs).
    split; [exact Ht|].
    intros args Hin. rewrite Hl in Hin. apply in_app_or in Hin as [Hin|Hin]; [exact Hin|].
    rewrite Forall_forall in Hevs.
    destruct (Hevs _ (proj2 (list_elem_of_In _ _) Hin)) as (h & u & c & Hev). discriminate.
Qed.

(** Where the first query of git raises, whatever it raises, which is
    what happens in a directory that is no git repository, the dirty test
    is skipped and the transfer is run as with a clean target. *)
Theorem plain_sync_skips_check_without_git (config : Config) (source target : string)
    (entry_src entry_dst : EnvEntry.t) (e : exn) (w w1 : World) :
  config !! source = Some entry_src ->
  config !! target = Some entry_dst ->
  let ctx_src := EnvContext.Build source entry_src in
  let ctx_dst := EnvContext.Build target entry_dst in
  GitRepo.ensure_repo ctx_dst w = (inl e, w1) ->
  sync config source target SafeSyncService.safe w = _rsync_copy ctx_src ctx_dst true w1.
Proof.
  intros Hsrc Hdst ctx_src ctx_dst Hrepo. unfold sync.
  rewrite (bind_ok _ _ _ _ _ (plain_ctx_ok _ _ _ _ Hsrc)).
  rewrite (bind_ok _ _ _ _ _ (plain_ctx_ok _ _ _ _ Hdst)). fold ctx_src ctx_dst.
  assert (Hcheck : _ensure_clean_target ctx_dst w = (inr tt, w1)).
  { unfold _ensure_clean_target.
    assert (Hgit : _git_repo ctx_dst w = (inr None, w1)).
    { unfold _git_repo. erewrite try_raise; [reflexivity|]. apply bind_raise. exact Hrepo. }
    now rewrite (bind_ok _ _ _ _ _ Hgit). }
  now rewrite (bind_ok _ _ _ _ _ Hcheck).
Qed.

End Plain.
End PlainSyncSpec.

Lemma plain_sync_dirty_target_raises_witness :
  exists msg w2,
    SyncService.sync (H := Scenario.dirty_target) Scenario.two_envs "dev" "prod"
      SafeSyncService.safe Scenario.dev_prod_files = (inl (RuntimeError msg), w2) /\
    trees w2 = trees Scenario.dev_prod_files /\
    (forall args, In (Spawned args) (log w2) -> In (Spawned args) (log Scenario.dev_prod_files)).
Proof.
  eexists _, _.
  eapply (PlainSyncSpec.plain_sync_dirty_target_raises (H := Scenario.dirty_target)
            Scenario.two_envs "dev" "prod" Scenario.dev Scenario.prod).
  - reflexivity.
  - reflexivity.
  - vm_compute. reflexivity.
  - vm_compute. reflexivity.
  - reflexivity.
Defined.

Lemma plain_sync_skips_check_without_git_witness :
  exists w2,
    SyncService.sync (H := Scenario.calm) Scenario.two_envs "dev" "prod"
      SafeSyncService.safe Scenario.dev_prod_files = (inr tt, w2) /\
    tree_at w2 "/srv/prod/" !! "app/main.py"%string = Some "print(2)"%string.
Proof.
  set (w1 := record_event
               (Ran None None "git -C /srv/prod rev-parse --is-inside-work-tree")
               Scenario.dev_prod_files).
  assert (Hrepo : GitRepo.ensure_repo (H := Scenario.calm) Scenario.prod_ctx
                    Scenario.dev_prod_files
                  = (inl (RuntimeError "prod: 路径不是 git 仓库: /srv/prod"), w1))
    by (vm_compute; reflexivity).
  pose proof (PlainSyncSpec.plain_sync_skips_check_without_git (H := Scenario.calm)
                Scenario.two_envs "dev" "prod" Scenario.dev Scenario.prod _
                Scenario.dev_prod_files w1 eq_refl eq_refl Hrepo) as Hskip.
  cbn zeta in Hskip.
  exists (SyncService._rsync_copy (H := Scenario.calm) Scenario.dev_ctx Scenario.prod_ctx
            true w1).2.
  split.
  - rewrite Hskip. vm_compute. reflexivity.
  - vm_compute. reflexivity.
Defined.

Lemma sync_always_returns_witness :
  exists result w',
    SafeSyncService.sync (H := Scenario.broken_link) Scenario.service "dev" "prod"
      SafeSyncService.safe true true false false None Scenario.dev_prod_files
      = (inr result, w') /\
    SyncResult.source result = "dev"%string /\
    SyncResult.target result = "prod"%string /\
    (SyncResult.success result = true <-> SyncResult.error result = None).
Proof.
  destruct (SyncBoundarySpec.sync_always_returns (H := Scenario.broken_link) Scenario.service
              "dev" "prod" SafeSyncService.safe true true false false None
              Scenario.dev Scenario.prod Scenario.dev_prod_files)
    as (result & w' & Hrun & Hs & Ht & Hok & _).
  - reflexivity.
  - reflexivity.
  - exists result, w'. auto.
Defined.

(** ** core/safe_sync.py: undoing a sync *)
Module UndoSpec.
Import SafeSyncService.
Import Store.

Lemma spares_refl (spec : string) (w : World) : spares spec w w.
Proof. repeat split. Qed.

Lemma spares_trans (spec : string) (w1 w2 w3 : World) :
  spares spec w1 w2 -> spares spec w2 w3 -> spares spec w1 w3.
Proof.
  intros (Hc & Ha & Hp) (Hc' & Ha' & Hp'). split; [congruence|]. split.
  - intros a Hne. now rewrite Ha', Ha.
  - intros p Hd. now rewrite Hp', Hp.
Qed.

Lemma only_asks_spares (spec : string) (w w' : World) : only_asks w w' -> spares spec w w'.
Proof.
  intros (Ht & Hc & _). split; [exact Hc|]. unfold tree_at. rewrite Ht. auto.
Qed.

Section Undo.
Context `{Oracle}.

Lemma scan_step_rules (self : t) (source : string) (code_only : bool)
    (components : option (list string)) (extra synced : list string) (w w' : World) :
  scan_step self source code_only components w = (inr (extra, synced), w') ->
  Forall (fun arg => PyStr.startswith arg "--exclude=" = true) extra.
Proof.
  unfold scan_step. destruct code_only; [|intros [= <- _ _]; constructor].
  intros Hrun. apply bind_inr in Hrun as (st & w1 & _ & Hrun). cbn zeta in Hrun.
  injection Hrun as <- _ _. unfold ProjectScanner.get_rsync_excludes.
  apply Forall_forall. intros arg Harg.
  apply list_elem_of_In, in_map_iff in Harg as (d & <- & _). apply SecretSpec.prefix_app.
Qed.

Lemma do_sync_spares (src dst : EnvContext.t) (checksum : bool) (extra : list string)
    (r : exn + (nat * nat)) (w w' : World) :
  Forall (fun arg => PyStr.startswith arg "--exclude=" = true) extra ->
  _do_sync src dst checksum extra w = (r, w') ->
  spares (EnvContext.rsync_spec dst) w w'.
Proof.
  intros Hextra Hrun. unfold _do_sync in Hrun.
  set (args := transfer_args src dst checksum extra) in *.
  assert (Hstep : forall x w1, subprocess_run args w = (x, w1) ->
                               spares (EnvContext.rsync_spec dst) w w1).
  { intros x w1. unfold subprocess_run.
    destruct (spawn_outcome w args) as [e|out]; intros [= _ <-]; [repeat split|].
    unfold rsync_effect, args. rewrite (TransferSpec.parse_transfer_args _ _ _ _ Hextra).
    cbn [Rsync.dry_run Rsync.dst Rsync.src Rsync.delete].
    split; [reflexivity|]. split.
    - intros a Hne. cbn [record_event trees set_trees]. now rewrite lookup_insert_ne.
    - intros p Hp. unfold tree_at at 1. cbn [record_event trees set_trees].
      rewrite lookup_insert_eq. cbn [from_option]. unfold id.
      rewrite RoundTripSpec.mirror_lookup. unfold rsync_leaves.
      cbn [Rsync.excludes Rsync.gitignore_filter Rsync.src].
      unfold RsyncConfig.standard_deny in Hp.
      now rewrite (TransferSpec.excluded_more _ _ _ Hp). }
  apply bind_cases in Hrun as [(e & Hproc & _)|(proc & w1 & Hproc & Hrun)].
  - eapply Hstep, Hproc.
  - destruct (fatal _); injection Hrun as _ <-; eapply Hstep, Hproc.
Qed.

Lemma verify_sync_spares (src dst : EnvContext.t) (extra : list string)
    (r : exn + bool) (w w' : World) :
  _verify_sync src dst extra w = (r, w') -> spares (EnvContext.rsync_spec dst) w w'.
Proof.
  intros Hrun. unfold _verify_sync in Hrun.
  destruct (TransferSpec.parse_verify_args src dst extra) as (rq & Hparse & Hdry).
  assert (Hstep : forall x w1, subprocess_run (verify_args src dst extra) w = (x, w1) ->
                               spares (EnvContext.rsync_spec dst) w w1).
  { intros x w1. unfold subprocess_run.
    destruct (spawn_outcome w _) as [e|out]; intros [= _ <-]; [repeat split|].
    unfold rsync_effect. rewrite Hparse, Hdry. repeat split. }
  apply bind_cases in Hrun as [(e & Hproc & _)|(proc & w1 & Hproc & Hrun)].
  - eapply Hstep, Hproc.
  - destruct (fatal _); injection Hrun as _ <-; eapply Hstep, Hproc.
Qed.

Lemma asks_auto_commit (ctx : EnvContext.t) (message : string) :
  Asks (_auto_commit ctx message).
Proof. unfold _auto_commit. asks. Qed.

Lemma asks_dirty_step (strat : strategy) (ctx : EnvContext.t) : Asks (dirty_step strat ctx).
Proof. unfold dirty_step, _check_clean_target. asks. Qed.

Lemma transfer_steps_spares (source target : string) (strat : strategy)
    (verify auto_commit code_only : bool) (ctx_src ctx_dst : EnvContext.t)
    (extra synced : list string) (checkpoint : option SyncCheckpoint.t)
    (r : exn + SyncResult.t) (w w' : World) :
  Forall (fun arg => PyStr.startswith arg "--exclude=" = true) extra ->
  transfer_steps source target strat verify auto_commit code_only ctx_src ctx_dst
                 extra synced checkpoint w = (r, w') ->
  spares (EnvContext.rsync_spec ctx_dst) w w'.
Proof.
  intros Hextra Hrun. unfold transfer_steps in Hrun.
  apply bind_cases in Hrun as [(e & Hsync & _)|([synced_ deleted] & w1 & Hsync & Hrun)];
    apply (do_sync_spares _ _ _ _ _ _ _ Hextra) in Hsync; [exact Hsync|].
  eapply spares_trans; [exact Hsync|].
  assert (Hv : forall x w2,
             (if verify then _verify_sync ctx_src ctx_dst extra else mret false) w1 = (x, w2) ->
             spares (EnvContext.rsync_spec ctx_dst) w1 w2).
  { intros x w2. destruct verify; [apply verify_sync_spares|].
    intros [= _ <-]. apply spares_refl. }
  apply bind_cases in Hrun as [(e & Hverify & _)|(verified & w2 & Hverify & Hrun)];
    apply Hv in Hverify; [exact Hverify|].
  eapply spares_trans; [exact Hverify|].
  assert (Hc : forall x w3,
             (if auto_commit then _auto_commit ctx_dst ("Synced from " +:+ source) else mret tt)
               w2 = (x, w3) ->
             spares (EnvContext.rsync_spec ctx_dst) w2 w3).
  { intros x w3 Hx. apply only_asks_spares. revert Hx.
    destruct auto_commit; [apply asks_auto_commit|apply asks_ret]. }
  apply bind_cases in Hrun as [(e & Hcommit & _)|(u & w3 & Hcommit & Hrun)];
    apply Hc in Hcommit; [exact Hcommit|].
  now injection Hrun as _ <-.
Qed.

(** A record written under its name is the one found under its
    timestamp, when no record listed before carries this timestamp. *)
Lemma found_after_write (self : t) (env ts : string) (cp : SyncCheckpoint.t) (w0 w : World) :
  checkpoint_files w
  = put_file (checkpoint_name env ts) (Document (to_dict cp)) (checkpoint_files w0) ->
  SyncCheckpoint.timestamp cp = Some ts ->
  PyStr.contains "/" ts = false ->
  Forall (fun c => exists t, SyncCheckpoint.timestamp c = Some t /\ t <> ts) (loaded env w0) ->
  _find_checkpoint self env (Some ts) w = (inr (Some cp), w).
Proof.
  intros Hfiles Hts Hslash Hothers.
  assert (Hmember : forall c, c ∈ loaded env w -> c = cp \/ c ∈ loaded env w0).
  { intros c Hc. apply StoreSpec.elem_of_loaded in Hc as (name & f & Hin & Hm & Hload).
    rewrite Hfiles in Hin. apply RoundTripSpec.put_file_elem in Hin as [[= -> ->]|Hin].
    - left. rewrite RoundTripSpec.load_to_dict in Hload. congruence.
    - right. apply StoreSpec.elem_of_loaded. eauto. }
  assert (Hnew : cp ∈ loaded env w).
  { apply StoreSpec.elem_of_loaded. exists (checkpoint_name env ts), (Document (to_dict cp)).
    split; [rewrite Hfiles; apply RoundTripSpec.put_file_new|].
    split; [now apply RoundTripSpec.checkpoint_name_listed|apply RoundTripSpec.load_to_dict]. }
  assert (Hstore : Forall (fun c => is_Some (SyncCheckpoint.timestamp c)) (loaded env w)).
  { apply Forall_forall. intros c Hc. destruct (Hmember c Hc) as [->|Hold].
    - now exists ts.
    - rewrite Forall_forall in Hothers. destruct (Hothers c Hold) as (t & -> & _). now exists t. }
  destruct (StoreSpec.list_checkpoints_returns self env w (or_intror Hstore))
    as (l & Hl & Hperm & _).
  assert (Hin : In cp l) by (apply list_elem_of_In; now rewrite Hperm).
  rewrite (RollbackSpec.find_checkpoint_unfold self env (Some ts) l w Hl). do 2 f_equal.
  destruct l as [|latest l]; [destruct Hin|].
  cbn [resolve]. apply RoundTripSpec.find_unique.
  - exact Hin.
  - now apply bool_decide_eq_true.
  - intros c Hc Hsame. apply bool_decide_eq_true in Hsame.
    apply list_elem_of_In in Hc. rewrite Hperm in Hc.
    destruct (Hmember c Hc) as [->|Hold]; [reflexivity|].
    rewrite Forall_forall in Hothers. destruct (Hothers c Hold) as (t & Ht & Hdiff).
    congruence.
Qed.

(** The restore of a complete backup that exits with 0, and the hard
    reset after it, bring every file outside the deny list back to what the
    backup found, when the files of the deny list are still what they were
    and the quick check passes over no file that differs from its copy in
    the backup. *)
Lemma restore_after_changes (ctx : EnvContext.t) (cp : SyncCheckpoint.t)
    (backup_dir : string) (backup t0 : Tree) (restored : ProcOutcome) (w : World) :
  let spec := EnvContext.rsync_spec ctx in
  let backup_spec := PyStr.rstrip "/" backup_dir +:+ "/" in
  SyncCheckpoint.backup_path cp = Some backup_dir ->
  trees w !! address backup_dir = Some backup ->
  (forall p, backup !! p = if RsyncConfig.standard_deny p then None else t0 !! p) ->
  (forall p, RsyncConfig.standard_deny p = true -> tree_at w spec !! p = t0 !! p) ->
  (forall p, same_size_and_time w backup_spec spec p = true ->
             tree_at w backup_spec !! p = tree_at w spec !! p) ->
  spawn_outcome w (restore_args backup_spec spec) = inr restored ->
  po_returncode restored = 0%Z ->
  (forall commit w p,
      SyncCheckpoint.git_commit cp = Some commit ->
      RsyncConfig.standard_deny p = false ->
      reset_hard_tree w (EnvContext.entry ctx) commit t0 !! p = t0 !! p) ->
  exists w2,
    try_except
      (backup_spec ← match SyncCheckpoint.backup_path cp with
                     | Some p => mret (PyStr.rstrip "/" p +:+ "/")
                     | None => raise (AttributeError
                                 "'NoneType' object has no attribute 'rstrip'")
                     end;
       let target_spec := EnvContext.rsync_spec ctx in
       proc ← subprocess_run (restore_args backup_spec target_spec);
       if fatal (CompletedProcess.returncode proc)
       then raise (RuntimeError ("rsync 恢复失败: " +:+ CompletedProcess.stderr proc))
       else
         _ ← match SyncCheckpoint.git_commit cp with
             | None | Some EmptyString => mret tt
             | Some commit =>
                 try_except (GitRepo.reset_hard ctx commit) (fun _ => mret tt)
             end;
         mret true)
      (fun _ => mret false) w = (inr true, w2) /\
    (forall p, RsyncConfig.standard_deny p = false -> tree_at w2 spec !! p = t0 !! p).
Proof.
  intros spec backup_spec Hpath Hbackup Hcomplete Hdenied Hquick Hout Hcode Hreset.
  rewrite Hpath. fold backup_spec.
  set (args := restore_args backup_spec spec) in *.
  assert (Hb : tree_at w backup_spec = backup)
    by (unfold tree_at, backup_spec; now rewrite RoundTripSpec.address_backup_spec, Hbackup).
  unfold try_except at 1. rewrite bind_ret_l. cbn zeta. fold spec. fold args.
  rewrite (bind_ok _ _ _ _ _ (subprocess_run_ok _ _ _ Hout)).
  cbn [CompletedProcess.returncode CompletedProcess.stdout CompletedProcess.stderr].
  set (wR := record_event (Spawned args) (rsync_effect args restored w)).
  assert (HwR : tree_at wR spec = t0).
  { unfold wR, rsync_effect, args. rewrite RoundTripSpec.parse_restore_args.
    cbn [Rsync.dry_run Rsync.dst Rsync.src Rsync.delete].
    unfold tree_at at 1. cbn [record_event trees set_trees].
    rewrite lookup_insert_eq. cbn [from_option].
    unfold id. apply map_eq. intros p. rewrite RoundTripSpec.mirror_lookup.
    fold spec. rewrite Hb, Hcomplete.
    unfold rsync_leaves. cbn [Rsync.excludes Rsync.gitignore_filter andb orb].
    rewrite orb_false_r, Hcode. cbn [Z.eqb negb andb]. rewrite orb_false_r.
    fold (RsyncConfig.standard_deny p).
    destruct (RsyncConfig.standard_deny p) eqn:Hp; [now apply Hdenied|].
    cbn [orb]. unfold quick_check_skips.
    cbn [Rsync.checksum Rsync.src Rsync.dst negb andb].
    destruct (same_size_and_time w backup_spec spec p) eqn:Hq.
    - rewrite <- (Hquick p Hq), Hb, Hcomplete, Hp. reflexivity.
    - now destruct (t0 !! p). }
  rewrite Hcode. cbn [fatal Z.eqb orb negb].
  assert (Hgit : exists w2,
             match SyncCheckpoint.git_commit cp with
             | None | Some EmptyString => mret tt
             | Some commit =>
                 try_except (GitRepo.reset_hard ctx commit) (fun _ => mret tt)
             end wR = (inr tt, w2) /\
             forall p, RsyncConfig.standard_deny p = false -> tree_at w2 spec !! p = t0 !! p).
  { destruct (SyncCheckpoint.git_commit cp) as [commit|] eqn:Hgc.
    2:{ exists wR. split; [reflexivity|]. intros p _. now rewrite HwR. }
    destruct commit as [|c commit].
    { exists wR. split; [reflexivity|]. intros p _. now rewrite HwR. }
    set (ref := String c commit) in *.
    unfold try_except, GitRepo.reset_hard, GitRepo._git, SSHClientWrapper.client_run,
      SSHClientWrapper.run.
    unfold mbind at 1, St_bind at 1, shell.
    match goal with
    | |- context [shell_outcome ?w ?h ?u ?cmd] =>
        destruct (shell_outcome w h u cmd) as [e|res];
        set (wG := record_event (Ran h u cmd) w)
    end.
    { exists wG. split; [reflexivity|]. intros p _.
      change (tree_at wR spec !! p = t0 !! p). now rewrite HwR. }
    unfold mbind at 1, St_bind at 1, working_tree_reset.
    set (wT := set_trees _ wG).
    assert (HwT : forall p, RsyncConfig.standard_deny p = false ->
                            tree_at wT spec !! p = t0 !! p).
    { intros p Hp. unfold wT, tree_at at 1. cbn [set_trees trees].
      fold spec. rewrite lookup_insert_eq. cbn [from_option]. unfold id.
      change (tree_at wG spec) with (tree_at wR spec). rewrite HwR.
      now apply Hreset. }
    exists wT. split; [|exact HwT].
    unfold SSHClientWrapper.check_ok.
    destruct (negb (CommandResult.code res =? 0)%Z); reflexivity. }
  destruct Hgit as (w2 & Hgit & Hkept).
  rewrite (bind_ok _ _ _ _ _ Hgit).
  exists w2. split; [reflexivity|exact Hkept].
Qed.

(** What the backup of a checkpoint holds, when [_create_checkpoint]
    returned and the backup did not end with exit code 23. *)
Lemma create_checkpoint_backup (self : t) (env : string) (entry : EnvEntry.t)
    (cp : SyncCheckpoint.t) (w0 w1 : World) :
  let ctx := EnvContext.Build env entry in
  let spec := EnvContext.rsync_spec ctx in
  let ts := strftime w0 "%Y%m%d-%H%M%S" in
  let backup_dir := in_dir (checkpoint_dir self) (backup_name env ts) in
  _create_checkpoint self ctx w0 = (inr cp, w1) ->
  address spec <> address backup_dir ->
  trees w0 !! address backup_dir = None ->
  (forall w out, spawn_outcome w (backup_args ctx backup_dir) = inr out ->
                 po_returncode out <> 23%Z) ->
  exists backup,
    trees w1 !! address spec = trees w0 !! address spec /\
    trees w1 !! address backup_dir = Some backup /\
    forall p, backup !! p = if RsyncConfig.standard_deny p then None else tree_at w0 spec !! p.
Proof.
  intros ctx spec ts backup_dir Hrun Hapart Hnew Hcode.
  assert (Hout : exists out,
             spawn_outcome (mkdir backup_dir w0).2 (backup_args ctx backup_dir) = inr out /\
             po_returncode out = 0%Z).
  { pose proof Hrun as Hrun'. unfold _create_checkpoint in Hrun'.
    apply bind_inr in Hrun' as (ts' & wa & Htime & Hrun').
    injection Htime as <- <-. cbn zeta in Hrun'.
    apply bind_inr in Hrun' as (u & wb & Hmk & Hrun').
    change (mkdir backup_dir w0 = (inr u, wb)) in Hmk.
    assert (Hwb : wb = (mkdir backup_dir w0).2) by now rewrite Hmk.
    apply bind_inr in Hrun' as (proc & wc & Hproc & Hrun').
    change (subprocess_run (backup_args ctx backup_dir) wb = (inr proc, wc)) in Hproc.
    rewrite Hwb in Hproc.
    unfold subprocess_run in Hproc.
    destruct (spawn_outcome (mkdir backup_dir w0).2 (backup_args ctx backup_dir))
      as [e|out] eqn:Hout; [discriminate Hproc|].
    injection Hproc as <- _. exists out. split; [reflexivity|].
    cbn [CompletedProcess.returncode] in Hrun'.
    destruct (fatal (po_returncode out)) eqn:Hfatal; [discriminate Hrun'|].
    specialize (Hcode _ _ Hout). unfold fatal in Hfatal.
    apply negb_false_iff, orb_true_iff in Hfatal as [Hz|Hz]; apply Z.eqb_eq in Hz;
      [exact Hz|contradiction]. }
  destruct Hout as (out & Hout & Hzero).
  destruct (RoundTripSpec.create_checkpoint_ok self env entry spec ts backup_dir out w0
              eq_refl eq_refl eq_refl Hapart Hnew Hout Hzero)
    as (gc & w1' & backup & Hrun' & _ & Hspec & Hbackup & Hcontent).
  fold ctx in Hrun'. rewrite Hrun in Hrun'. injection Hrun' as _ <-.
  exists backup. auto.
Qed.

(** A sync that made a checkpoint can be undone: when [sync] returns a
    result with a checkpoint, whether the transfer succeeded or failed,
    [rollback] to that checkpoint's timestamp returns [True] and leaves
    every file of the target outside the deny list as it was before the
    sync.  This holds when the name of the target holds no glob character,
    the backup did not end with exit code 23, the restore ends with exit
    code 0 and its quick check passes over no file that differs from its
    copy in the backup (the restore runs without [--checksum]), the backup
    directory is new and is not the target, no older record carries the
    timestamp, and the hard reset to the recorded commit keeps the restored
    files. *)
Theorem rollback_undoes_sync (self : t) (source target : string) (strat : strategy)
    (verify auto_commit code_only : bool) (components : option (list string))
    (entry_src entry_dst : EnvEntry.t) (result : SyncResult.t) (cp : SyncCheckpoint.t)
    (ts backup_dir : string) (restored : ProcOutcome) (w0 w2 : World) :
  let ctx_dst := EnvContext.Build target entry_dst in
  let spec := EnvContext.rsync_spec ctx_dst in
  let backup_spec := PyStr.rstrip "/" backup_dir +:+ "/" in
  config self !! source = Some entry_src ->
  config self !! target = Some entry_dst ->
  glob_literal target = true ->
  sync self source target strat true verify auto_commit code_only components w0
  = (inr result, w2) ->
  SyncResult.checkpoint result = Some cp ->
  SyncCheckpoint.timestamp cp = Some ts ->
  SyncCheckpoint.backup_path cp = Some backup_dir ->
  address spec <> address backup_dir ->
  trees w0 !! address backup_dir = None ->
  PyStr.contains "/" ts = false ->
  Forall (fun c => exists t, SyncCheckpoint.timestamp c = Some t /\ t <> ts) (loaded target w0) ->
  (forall w out, spawn_outcome w (backup_args ctx_dst backup_dir) = inr out ->
                 po_returncode out <> 23%Z) ->
  spawn_outcome w2 (restore_args backup_spec spec) = inr restored ->
  po_returncode restored = 0%Z ->
  (forall p, same_size_and_time w2 backup_spec spec p = true ->
             tree_at w2 backup_spec !! p = tree_at w2 spec !! p) ->
  (forall commit w p,
      SyncCheckpoint.git_commit cp = Some commit ->
      RsyncConfig.standard_deny p = false ->
      reset_hard_tree w entry_dst commit (tree_at w0 spec) !! p = tree_at w0 spec !! p) ->
  exists w3,
    rollback self target (Some ts) w2 = (inr true, w3) /\
    forall p, RsyncConfig.standard_deny p = false -> tree_at w3 spec !! p = tree_at w0 spec !! p.
Proof.
  intros ctx_dst spec backup_spec Hsrc Hdst Hname Hrun Hcp Hts Hpath Hapart Hnew Hslash
    Hothers Hcode Hout Hzero Hquick Hreset.
  unfold sync in Hrun.
  rewrite (bind_ok _ _ _ _ _ (SyncSpec.ctx_ok _ _ _ _ Hsrc)) in Hrun.
  rewrite (bind_ok _ _ _ _ _ (SyncSpec.ctx_ok _ _ _ _ Hdst)) in Hrun.
  fold ctx_dst in Hrun. set (ctx_src := EnvContext.Build source entry_src) in *.
  unfold try_except at 1 in Hrun.
  match type of Hrun with
  | (let (_, _) := ?m w0 in _) = _ => destruct (m w0) as [[e|res] wz] eqn:Hbody
  end.
  { injection Hrun as <- _. discriminate Hcp. }
  injection Hrun as -> ->.
  apply bind_inr in Hbody as ([extra synced] & wa & Hscan & Hbody).
  apply bind_inr in Hbody as (u & wb & Hdirty & Hbody).
  apply bind_inr in Hbody as (checkpoint & wc & Hstep & Hbody).
  assert (Hchk : checkpoint = Some cp /\ spares spec wc w2).
  { pose proof (scan_step_rules _ _ _ _ _ _ _ _ Hscan) as Hextra.
    unfold try_except in Hbody.
    destruct (transfer_steps source target strat verify auto_commit code_only ctx_src
                ctx_dst extra synced checkpoint wc) as [[e|res] wd] eqn:Htransfer.
    - injection Hbody as <- <-. split; [exact Hcp|].
      exact (transfer_steps_spares _ _ _ _ _ _ _ _ _ _ _ _ _ _ Hextra Htransfer).
    - injection Hbody as <- <-. split.
      + unfold transfer_steps in Htransfer.
        apply bind_inr in Htransfer as ([s d] & w5 & _ & Htransfer).
        apply bind_inr in Htransfer as (v & w6 & _ & Htransfer).
        apply bind_inr in Htransfer as (u' & w7 & _ & Htransfer).
        injection Htransfer as <- _. exact Hcp.
      + exact (transfer_steps_spares _ _ _ _ _ _ _ _ _ _ _ _ _ _ Hextra Htransfer). }
  destruct Hchk as [-> Hspares].
  unfold checkpoint_step, fmap, St_fmap in Hstep.
  destruct (_create_checkpoint self ctx_dst wb) as [[e|cp'] wc'] eqn:Hcreate;
    [discriminate Hstep|].
  injection Hstep as -> ->.
  assert (Hasks : only_asks w0 wb).
  { destruct (asks_scan_step _ _ _ _ _ _ _ Hscan) as (Ht1 & Hc1 & Hr1 & evs1 & Hl1 & Ha1).
    destruct (asks_dirty_step _ _ _ _ _ Hdirty) as (Ht2 & Hc2 & Hr2 & evs2 & Hl2 & Ha2).
    repeat split; [congruence..|].
    exists (evs1 ++ evs2). split; [rewrite Hl2, Hl1; now rewrite <- app_assoc|].
    now apply Forall_app. }
  destruct Hasks as (Htrees & Hfiles & _).
  destruct (CheckpointSpec.create_checkpoint_inv self ctx_dst cp wb wc Hcreate)
    as ((gc & Hshape) & Hwritten).
  cbn [EnvContext.name ctx_dst] in Hshape, Hwritten.
  assert (Hts' : strftime wb "%Y%m%d-%H%M%S" = ts).
  { rewrite Hshape in Hts. cbn in Hts. congruence. }
  assert (Hdir : in_dir (checkpoint_dir self) (backup_name target ts) = backup_dir)
    by (rewrite Hshape, Hts' in Hpath; cbn in Hpath; congruence).
  rewrite Hts' in Hwritten.
  destruct (create_checkpoint_backup self target entry_dst cp wb wc Hcreate)
    as (backup & Hspec & Hbackup & Hcontent).
  { fold ctx_dst spec. now rewrite Hts', Hdir. }
  { rewrite Hts', Hdir, Htrees. exact Hnew. }
  { fold ctx_dst. rewrite Hts', Hdir. exact Hcode. }
  fold ctx_dst spec in Hspec, Hbackup, Hcontent. rewrite Hts', Hdir in Hbackup.
  assert (Ht0 : tree_at wb spec = tree_at w0 spec) by (unfold tree_at; now rewrite Htrees).
  rewrite Ht0 in Hcontent.
  destruct Hspares as (Hsame & Hothers2 & Hdenied).
  assert (Hfound : _find_checkpoint self target (Some ts) w2 = (inr (Some cp), w2)).
  { apply (found_after_write self target ts cp w0 w2); try assumption.
    now rewrite Hsame, Hwritten, Hfiles. }
  destruct (restore_after_changes ctx_dst cp backup_dir backup (tree_at w0 spec) restored w2)
    as (w3 & Hrestore & Hkept); try assumption.
  { rewrite Hothers2 by (intros E; apply Hapart; now rewrite E). exact Hbackup. }
  { intros p Hp. etrans; [exact (Hdenied p Hp)|]. unfold tree_at. now rewrite Hspec, Htrees. }
  exists w3. split; [|exact Hkept].
  unfold rollback. rewrite (bind_ok _ _ _ _ _ (SyncSpec.ctx_ok _ _ _ _ Hdst)).
  rewrite (bind_ok _ _ _ _ _ Hfound). exact Hrestore.
Qed.

End Undo.
End UndoSpec.

Lemma rollback_undoes_sync_witness :
  exists result w2 w3,
    SafeSyncService.sync (H := Scenario.calm) Scenario.service "dev" "prod" SafeSyncService.force
      true false false false None Scenario.release_files = (inr result, w2) /\
    tree_at w2 "/srv/prod/" !! "app/main.py" = Some "print('release 2')" /\
    tree_at w2 "/srv/prod/" !! "app/old.py" = None /\
    SafeSyncService.rollback (H := Scenario.calm) Scenario.service "prod"
      (Some "20240101-100000") w2 = (inr true, w3) /\
    tree_at w3 "/srv/prod/" !! "app/main.py" = Some "print(1)" /\
    tree_at w3 "/srv/prod/" !! "app/old.py" = Some "y = 0" /\
    tree_at w3 "/srv/prod/" !! "app/new.py" = None.
Proof.
  set (cp := SyncCheckpoint.Build (Some "20240101-100000") (Some "prod")
               (Some "/home/u/.envsync/checkpoints/backup-prod-20240101-100000") None []).
  destruct (SafeSyncService.sync (H := Scenario.calm) Scenario.service "dev" "prod"
              SafeSyncService.force true false false false None Scenario.release_files)
    as [[e|result] w2] eqn:E.
  - vm_compute in E. discriminate E.
  - assert (Hres : SyncResult.checkpoint result = Some cp
                   /\ tree_at w2 "/srv/prod/" !! "app/main.py" = Some "print('release 2')"
                   /\ tree_at w2 "/srv/prod/" !! "app/old.py" = None).
    { pose proof E as E'. vm_compute in E'. injection E' as <- <-.
      repeat split; vm_compute; reflexivity. }
    destruct Hres as (Hcp & Hsynced & Hdropped).
    destruct (UndoSpec.rollback_undoes_sync (H := Scenario.calm) Scenario.service "dev" "prod"
                SafeSyncService.force false false false None Scenario.dev Scenario.prod
                result cp "20240101-100000"
                "/home/u/.envsync/checkpoints/backup-prod-20240101-100000"
                (Build_ProcOutcome 0 "" "" (fun _ => false))
                Scenario.release_files w2) as (w3 & Hroll & Hkept).
    + reflexivity.
    + reflexivity.
    + reflexivity.
    + exact E.
    + exact Hcp.
    + reflexivity.
    + reflexivity.
    + vm_compute. discriminate.
    + reflexivity.
    + reflexivity.
    + vm_compute. constructor.
    + intros w out [= <-]. discriminate.
    + reflexivity.
    + reflexivity.
    + intros p Hp. unfold same_size_and_time in Hp. cbn [same_mtime Scenario.calm] in Hp.
      destruct (tree_at w2 _ !! p); [|discriminate Hp].
      destruct (tree_at w2 _ !! p); [|discriminate Hp].
      rewrite andb_false_r in Hp. discriminate Hp.
    + reflexivity.
    + exists result, w2, w3.
      change (EnvContext.rsync_spec (EnvContext.Build "prod" Scenario.prod))
        with "/srv/prod/" in Hkept.
      repeat split; try assumption.
      * rewrite (Hkept "app/main.py") by (vm_compute; reflexivity). vm_compute. reflexivity.
      * rewrite (Hkept "app/old.py") by (vm_compute; reflexivity). vm_compute. reflexivity.
      * rewrite (Hkept "app/new.py") by (vm_compute; reflexivity). vm_compute. reflexivity.
Defined.
